(** * Tshikota Ro Farana stokvel ledger: a shallow embedding

    The repository holds two variants of the [Database] module and two
    variants of the [SMS] module:

    - [Single]  : the Firestore-only [Database] object
                  (src/js/submit-pop.js, "DATABASE OPERATIONS (UPDATED)");
    - [Dual]    : the Firestore + Realtime Database [Database] object
                  (src/unnamed/part_006, "Dual Architecture");
    - [SMSPortal] : the [SMS] object with the OTP attempt counter
                  (src/unnamed/part_001);
    - [SMSLegacy] : the older [SMS] object (src/js/sms.js);
    - [SubmitForm]: the amount check of the submission form
                  (src/js/submit-pop.js, [validateForm]).

    Modelling conventions.
    - JavaScript numbers that hold money and counters are integers ([Z]);
      [NaN] is modelled only where the source tests for it.
    - An [async] method is a state transformer returning the new state and
      either a value or the thrown error ([Ok] / [Throw]).
    - A Firestore batch is atomic: it either applies all of its writes or
      throws and applies none.  A write to a member document whose id is in
      [write_denied] is rejected by the backend.
    - Document ids generated by Firestore, random reference codes, the
      current year and the current time are inputs of the operations.
    - SMS delivery and timestamps are left out; they do not
      feed back into the ledger. *)

From Stdlib Require Import ZArith String Ascii List Lia Bool.
From stdpp Require Import gmap strings pretty list fin_maps.

Local Open Scope string_scope.
Local Open Scope Z_scope.

(** ** JavaScript helpers *)

Module JS.

(** [x || d] on numbers: [0] (like [undefined]) is falsy. *)
Definition or_default (x d : Z) : Z := if x =? 0 then d else x.

(** [o?.field || d] where the setting may be absent. *)
Definition setting (o : option Z) (d : Z) : Z :=
  match o with
  | Some v => or_default v d
  | None => d
  end.

(** [s || d] on strings: the empty string is falsy. *)
Definition str_or (s d : string) : string :=
  match s with
  | EmptyString => d
  | _ => s
  end.

Definition is_digit (c : ascii) : bool :=
  ((48 <=? nat_of_ascii c)%nat && (nat_of_ascii c <=? 57)%nat)%bool.

Definition digit_val (c : ascii) : Z := Z.of_nat (nat_of_ascii c) - 48.

(** White space of the regular expression class [\s], ASCII part. *)
Definition is_space (c : ascii) : bool :=
  let n := nat_of_ascii c in
  ((n =? 32) || ((9 <=? n) && (n <=? 13)))%nat%bool.

Fixpoint filter_chars (p : ascii -> bool) (s : string) : string :=
  match s with
  | EmptyString => EmptyString
  | String c r => if p c then String c (filter_chars p r) else filter_chars p r
  end.

(** [phone.replace(/[\s-]/g, '')] *)
Definition strip_spaces_dashes (s : string) : string :=
  filter_chars (fun c => negb (is_space c || Ascii.eqb c "-")) s.

(** [phone.replace(/\D/g, '')] *)
Definition digits_only (s : string) : string := filter_chars is_digit s.

(** [s.match(/\d{4}/)] followed by [parseInt(match[0])]: the value of the
    first run of four consecutive decimal digits, if any. *)
Fixpoint match_4digits (s : string) : option Z :=
  match s with
  | String a ((String b (String c (String d _))) as rest) =>
      if (is_digit a && is_digit b && is_digit c && is_digit d)%bool
      then Some (1000 * digit_val a + 100 * digit_val b
                 + 10 * digit_val c + digit_val d)
      else match_4digits rest
  | _ => None
  end.

(** [s.split(' ')]: never empty; [""] splits to [[""]]. *)
Fixpoint split_space (s : string) : list string :=
  match s with
  | EmptyString => [EmptyString]
  | String c r =>
      if Ascii.eqb c " " then EmptyString :: split_space r
      else match split_space r with
           | part :: parts => String c part :: parts
           | [] => [String c EmptyString]
           end
  end.

(** [parseInt(s)] with the default radix: leading white space, an optional
    sign, then the longest prefix of decimal digits (hexadecimal after
    [0x]); [None] is [NaN]. *)
Fixpoint drop_spaces (s : string) : string :=
  match s with
  | String c r => if is_space c then drop_spaces r else s
  | EmptyString => EmptyString
  end.

Fixpoint read_digits (acc : Z) (seen : bool) (s : string) : option Z :=
  match s with
  | String c r =>
      if is_digit c then read_digits (10 * acc + digit_val c) true r
      else if seen then Some acc else None
  | EmptyString => if seen then Some acc else None
  end.

Definition hex_val (c : ascii) : option Z :=
  let n := nat_of_ascii c in
  if is_digit c then Some (digit_val c)
  else if ((97 <=? n) && (n <=? 102))%nat%bool then Some (Z.of_nat n - 87)
  else if ((65 <=? n) && (n <=? 70))%nat%bool then Some (Z.of_nat n - 55)
  else None.

Fixpoint read_hex (acc : Z) (seen : bool) (s : string) : option Z :=
  match s with
  | String c r =>
      match hex_val c with
      | Some v => read_hex (16 * acc + v) true r
      | None => if seen then Some acc else None
      end
  | EmptyString => if seen then Some acc else None
  end.

Definition read_unsigned (s : string) : option Z :=
  match s with
  | String "0" (String x r) =>
      if (Ascii.eqb x "x" || Ascii.eqb x "X")%bool then read_hex 0 false r
      else read_digits 0 false s
  | _ => read_digits 0 false s
  end.

Definition parseInt (s : string) : option Z :=
  match drop_spaces s with
  | String "-" r => Z.opp <$> read_unsigned r
  | String "+" r => read_unsigned r
  | r => read_unsigned r
  end.

(** [b.toString(16).padStart(2, '0')] for a byte. *)
Definition hex_digit (n : nat) : ascii :=
  if (n <? 10)%nat then ascii_of_nat (48 + n) else ascii_of_nat (87 + n).

Definition hex_byte (c : ascii) : string :=
  let n := nat_of_ascii c in
  String (hex_digit (n / 16)) (String (hex_digit (n mod 16)) EmptyString).

Fixpoint hex_string (s : string) : string :=
  match s with
  | EmptyString => EmptyString
  | String c r => hex_byte c +:+ hex_string r
  end.

End JS.

(** ** Data model (Firestore documents) *)

Inductive Status := pending | verified | rejected.

#[global] Instance Status_eq_dec : EqDecision Status.
Proof. solve_decision. Defined.

(** A document of the [submissions] collection. *)
Record Submission := mkSubmission {
  reference : string;
  sub_name : string;
  sub_phone : string;
  amount : Z;
  fineAmount : Z;
  isLate : bool;
  paymentMonth : string;
  status : Status;
  memberId : option string;
  rejectionReason : option string
}.

(** A document of the [members] collection. *)
Record Member := mkMember {
  name : string;
  phone : string;
  idNumber : string;
  passwordHash : option string;
  memberRef : string;
  totalSavings : Z;
  totalFines : Z;
  submissionCount : Z;
  verifiedCount : Z;
  pendingCount : Z;
  rejectedCount : Z;
  skippedMonths : Z;
  consecutiveMonths : Z;
  lastPaymentMonth : option string;
  qualifiesForInterest : bool
}.

(** A document of the [interestPool] collection.  Its id is
    [paymentYear.toString()]; the key [None] stands for the id ["NaN"]. *)
Record PoolDoc := mkPoolDoc {
  pool_year : option Z;
  pool_totalFines : Z;
  pool_fineCount : Z;
  pool_bankInterest : Z
}.

(** An entry of the [auditLogs] collection: action and entity id. *)
Record AuditLog := mkAuditLog {
  log_action : string;
  log_entity : string
}.

Record Firestore := mkFirestore {
  members : gmap string Member;
  submissions : gmap string Submission;
  interestPool : gmap (option Z) PoolDoc;
  auditLogs : list AuditLog;
  write_denied : gset string
}.

(** ** Errors and the state-and-exception monad of [async] methods *)

Inductive Error :=
  | SubmissionNotFound
  | SubmissionAlreadyProcessed
  | MemberNotFound
  | MinimumContribution
  | PhoneAlreadyRegistered
  | IdNumberAlreadyRegistered
  | StoreFailure.

Inductive result (A : Type) :=
  | Ok (a : A)
  | Throw (e : Error).

Arguments Ok {A} a.
Arguments Throw {A} e.

Definition M (S A : Type) : Type := S -> S * result A.

Definition ret {S A} (a : A) : M S A := fun s => (s, Ok a).

Definition throw {S A} (e : Error) : M S A := fun s => (s, Throw e).

Definition bind {S A B} (c : M S A) (k : A -> M S B) : M S B :=
  fun s =>
    match c s with
    | (s', Ok a) => k a s'
    | (s', Throw e) => (s', Throw e)
    end.

Definition get {S} : M S S := fun s => (s, Ok s).

Definition modify {S} (f : S -> S) : M S unit := fun s => (f s, Ok tt).

(** A store call that either replaces the state or rejects. *)
Definition attempt {S} (f : S -> result S) : M S unit :=
  fun s =>
    match f s with
    | Ok s' => (s', Ok tt)
    | Throw e => (s, Throw e)
    end.

Notation "'let*' x ':=' c 'in' k" := (bind c (fun x => k))
  (at level 10, x name, c at level 100, k at level 200).

Notation "c ';;' k" := (bind c (fun _ => k))
  (at level 100, k at level 200, right associativity).

(** ** Firestore primitives *)

Definition set_members (f : gmap string Member -> gmap string Member)
    (fs : Firestore) : Firestore :=
  mkFirestore (f (members fs)) (submissions fs) (interestPool fs)
    (auditLogs fs) (write_denied fs).

Definition set_submissions
    (f : gmap string Submission -> gmap string Submission)
    (fs : Firestore) : Firestore :=
  mkFirestore (members fs) (f (submissions fs)) (interestPool fs)
    (auditLogs fs) (write_denied fs).

Definition set_interestPool
    (f : gmap (option Z) PoolDoc -> gmap (option Z) PoolDoc)
    (fs : Firestore) : Firestore :=
  mkFirestore (members fs) (submissions fs) (f (interestPool fs))
    (auditLogs fs) (write_denied fs).

(** [db.collection('auditLogs').add(...)]; both loggers swallow a failure. *)
Definition add_auditLog (action entity : string) (fs : Firestore) : Firestore :=
  mkFirestore (members fs) (submissions fs) (interestPool fs)
    (auditLogs fs ++ [mkAuditLog action entity]) (write_denied fs).

(** The writes a batch can hold. *)
Inductive Write :=
  | UpdateSubmission (id : string) (f : Submission -> Submission)
  | UpdateMember (id : string) (f : Member -> Member)
  | MergePool (key : option Z) (f : option PoolDoc -> PoolDoc).

(** [update] needs the document to exist; a denied member write fails. *)
Definition write_ok (fs : Firestore) (w : Write) : bool :=
  match w with
  | UpdateSubmission id _ => bool_decide (is_Some (submissions fs !! id))
  | UpdateMember id _ =>
      bool_decide (is_Some (members fs !! id))
      && negb (bool_decide (id ∈ write_denied fs))
  | MergePool _ _ => true
  end.

Definition apply_write (fs : Firestore) (w : Write) : Firestore :=
  match w with
  | UpdateSubmission id f => set_submissions (alter f id) fs
  | UpdateMember id f => set_members (alter f id) fs
  | MergePool key f =>
      set_interestPool (fun p => <[key := f (p !! key)]> p) fs
  end.

(** [batch.commit()]: all writes or none. *)
Definition commit (ws : list Write) (fs : Firestore) : result Firestore :=
  if forallb (write_ok fs) ws then Ok (fold_left apply_write ws fs)
  else Throw StoreFailure.

(** [db.collection('members').doc(id).update(...)] outside a batch. *)
Definition updateMember (id : string) (f : Member -> Member)
    (fs : Firestore) : result Firestore :=
  commit [UpdateMember id f] fs.

(** The first document of a query, in document-id order. *)
Definition first_by_id {A} (l : list (string * A)) : option (string * A) :=
  foldr (fun x acc =>
           match acc with
           | Some y => if String.ltb (fst x) (fst y) then Some x else Some y
           | None => Some x
           end) None l.

(** [getMemberByPhone]: [where('phone', '==', normalizedPhone).limit(1)]. *)
Definition getMemberByPhone (fs : Firestore) (ph : string)
    : option (string * Member) :=
  let normalizedPhone := JS.strip_spaces_dashes ph in
  first_by_id
    (List.filter (fun p => String.eqb (phone (snd p)) normalizedPhone)
       (map_to_list (members fs))).

(** [getMemberByIdNumber]: [where('idNumber', '==', idNumber).limit(1)]. *)
Definition getMemberByIdNumber (fs : Firestore) (idn : string)
    : option (string * Member) :=
  first_by_id
    (List.filter (fun p => String.eqb (idNumber (snd p)) idn)
       (map_to_list (members fs))).

(** The documents of [where('memberId', '==', mid)]. *)
Definition submissionsOf (mid : string) (subs : gmap string Submission)
    : list Submission :=
  List.filter (fun s => bool_decide (memberId s = Some mid))
    (snd <$> map_to_list subs).

(** Field updates of the two document types. *)
Definition with_status (st : Status) (s : Submission) : Submission :=
  mkSubmission (reference s) (sub_name s) (sub_phone s) (amount s)
    (fineAmount s) (isLate s) (paymentMonth s) st (memberId s)
    (rejectionReason s).

Definition with_memberId (mid : option string) (s : Submission) : Submission :=
  mkSubmission (reference s) (sub_name s) (sub_phone s) (amount s)
    (fineAmount s) (isLate s) (paymentMonth s) (status s) mid
    (rejectionReason s).

Definition with_rejectionReason (r : string) (s : Submission) : Submission :=
  mkSubmission (reference s) (sub_name s) (sub_phone s) (amount s)
    (fineAmount s) (isLate s) (paymentMonth s) (status s) (memberId s)
    (Some r).

(** The aggregate fields of a member document. *)
Record Stats := mkStats {
  s_totalSavings : Z;
  s_totalFines : Z;
  s_submissionCount : Z;
  s_verifiedCount : Z;
  s_pendingCount : Z;
  s_rejectedCount : Z;
  s_qualifiesForInterest : bool
}.

Definition statsOfMember (m : Member) : Stats :=
  mkStats (totalSavings m) (totalFines m) (submissionCount m)
    (verifiedCount m) (pendingCount m) (rejectedCount m)
    (qualifiesForInterest m).

Definition with_stats (st : Stats) (m : Member) : Member :=
  mkMember (name m) (phone m) (idNumber m) (passwordHash m) (memberRef m)
    (s_totalSavings st) (s_totalFines st) (s_submissionCount st)
    (s_verifiedCount st) (s_pendingCount st) (s_rejectedCount st)
    (skippedMonths m) (consecutiveMonths m) (lastPaymentMonth m)
    (s_qualifiesForInterest st).

Definition with_tracking (skipped consecutive : Z) (lastMonth : option string)
    (m : Member) : Member :=
  mkMember (name m) (phone m) (idNumber m) (passwordHash m) (memberRef m)
    (totalSavings m) (totalFines m) (submissionCount m) (verifiedCount m)
    (pendingCount m) (rejectedCount m) skipped consecutive lastMonth
    (qualifiesForInterest m).

(** [if (id)] on a document id: [null] and the empty string are falsy. *)
Definition truthy_id (o : option string) : option string :=
  match o with
  | Some (String c r) => Some (String c r)
  | _ => None
  end.

(** [s.trim()], ASCII white space. *)
Definition trim (s : string) : string :=
  String.rev (JS.drop_spaces (String.rev (JS.drop_spaces s))).

(** ** [Single]: the Firestore-only [Database] (src/js/submit-pop.js) *)

Module Single.

(** The keys of [APP_SETTINGS] this module reads, each through
    [APP_SETTINGS?.key || default]. *)
Record Settings := mkSettings {
  lateFineAmount : option Z;
  interestEligibilityMin : option Z;
  lateDayOfMonth : option Z;
  minMonthlyDeposit : option Z
}.

(** The argument of [submitPOP]; [paymentDay] is
    [new Date(paymentDate).getDate()]. *)
Record SubmissionData := mkSubmissionData {
  sd_name : string;
  sd_phone : string;
  sd_amount : Z;
  sd_paymentDay : Z;
  sd_paymentMonth : string
}.

(** [Utils.isPaymentLate] *)
Definition isPaymentLate (cfg : Settings) (day : Z) : bool :=
  day >? JS.setting (lateDayOfMonth cfg) 7.

(** The document [submitPOP] writes: status [pending], the late flag and
    the fine fixed from the payment date, the member found by phone. *)
Definition pendingSubmission (cfg : Settings) (ref : string)
    (d : SubmissionData) (linked : option string) : Submission :=
  let late := isPaymentLate cfg (sd_paymentDay d) in
  let fine := if late then JS.setting (lateFineAmount cfg) 50 else 0 in
  mkSubmission ref (trim (sd_name d)) (JS.strip_spaces_dashes (sd_phone d))
    (sd_amount d) fine late (sd_paymentMonth d) pending linked None.

(** The member update of [submitPOP]. *)
Definition submitMember (m : Member) : Member :=
  with_stats
    (mkStats (totalSavings m) (totalFines m) (submissionCount m)
       (verifiedCount m) (pendingCount m + 1) (rejectedCount m)
       (qualifiesForInterest m)) m.

(** [submitPOP]; [docId] is the id Firestore gives the new document and
    [ref] the code drawn by [Utils.generateReference]. *)
Definition submitPOP (cfg : Settings) (docId ref : string)
    (d : SubmissionData) : M Firestore string :=
  let normalizedPhone := JS.strip_spaces_dashes (sd_phone d) in
  let* fs := get in
  let member := getMemberByPhone fs normalizedPhone in
  let linked := truthy_id (fst <$> member) in
  modify (set_submissions
            (insert docId (pendingSubmission cfg ref d linked))) ;;
  match linked with
  | Some mid => attempt (updateMember mid submitMember)
  | None => ret tt
  end ;;
  ret ref.

(** The year of a payment-month label, as [approveSubmission] reads it:
    [parseInt] of the second space-separated part, the current year when
    the label has one part only. *)
Definition paymentYear (label : string) (currentYear : Z) : option Z :=
  match JS.split_space label with
  | _ :: second :: _ => JS.parseInt second
  | _ => Some currentYear
  end.

Definition mergeFine (year : option Z) (fine : Z) (o : option PoolDoc)
    : PoolDoc :=
  match o with
  | Some p =>
      mkPoolDoc year (pool_totalFines p + fine) (pool_fineCount p)
        (pool_bankInterest p)
  | None => mkPoolDoc year fine 0 0
  end.

(** The member update of [approveSubmission]. *)
Definition approveMember (cfg : Settings) (submission : Submission)
    (newTotalSavings : Z) (m : Member) : Member :=
  with_tracking 0 (consecutiveMonths m) (Some (paymentMonth submission))
    (with_stats
       (mkStats (totalSavings m + amount submission)
          (totalFines m + JS.or_default (fineAmount submission) 0)
          (submissionCount m + 1) (verifiedCount m + 1)
          (pendingCount m - 1) (rejectedCount m)
          (newTotalSavings >=? JS.setting (interestEligibilityMin cfg) 10000))
       m).

(** The batch of [approveSubmission]: the submission, the member named by
    the [memberId] argument, and the interest pool of the payment year. *)
Definition approveBatch (cfg : Settings) (currentYear : Z)
    (submissionId : string) (memberIdArg : option string)
    (submission : Submission) (member : option Member) : list Write :=
  [UpdateSubmission submissionId
     (fun s => with_memberId memberIdArg (with_status verified s))]
  ++ match truthy_id memberIdArg with
     | Some mid =>
         let newTotalSavings :=
           JS.or_default (from_option totalSavings 0 member) 0
           + amount submission in
         [UpdateMember mid (approveMember cfg submission newTotalSavings)]
     | None => []
     end
  ++ (if fineAmount submission >? 0 then
        let year := paymentYear (paymentMonth submission) currentYear in
        [MergePool year (mergeFine year (fineAmount submission))]
      else []).

(** [approveSubmission(submissionId, memberId = null)] *)
Definition approveSubmission (cfg : Settings) (currentYear : Z)
    (submissionId : string) (memberIdArg : option string)
    : M Firestore unit :=
  let* fs := get in
  match submissions fs !! submissionId with
  | None => throw SubmissionNotFound
  | Some submission =>
      let member :=
        match truthy_id memberIdArg with
        | Some mid => members fs !! mid
        | None => None
        end in
      attempt (commit (approveBatch cfg currentYear submissionId memberIdArg
                         submission member)) ;;
      modify (add_auditLog "submission_approved" submissionId)
  end.

(** The member update of [rejectSubmission]. *)
Definition rejectMember (m : Member) : Member :=
  with_stats
    (mkStats (totalSavings m) (totalFines m) (submissionCount m)
       (verifiedCount m) (pendingCount m - 1) (rejectedCount m + 1)
       (qualifiesForInterest m)) m.

(** The batch of [rejectSubmission]. *)
Definition rejectBatch (submissionId reason : string)
    (submission : Submission) : list Write :=
  [UpdateSubmission submissionId
     (fun s => with_rejectionReason reason (with_status rejected s))]
  ++ match truthy_id (memberId submission) with
     | Some mid => [UpdateMember mid rejectMember]
     | None => []
     end.

(** [rejectSubmission(submissionId, reason = '')] *)
Definition rejectSubmission (submissionId reason : string)
    : M Firestore unit :=
  let* fs := get in
  match submissions fs !! submissionId with
  | None => throw SubmissionNotFound
  | Some submission =>
      attempt (commit (rejectBatch submissionId reason submission)) ;;
      modify (add_auditLog "submission_rejected" submissionId)
  end.

(** The [forEach] body of [recalculateMemberStats], on the accumulators
    [totalSavings, totalFines, verifiedCount, pendingCount, rejectedCount]. *)
Definition tally (acc : Z * Z * Z * Z * Z) (data : Submission)
    : Z * Z * Z * Z * Z :=
  let '(savings, fines, nverified, npending, nrejected) := acc in
  match status data with
  | verified =>
      (savings + JS.or_default (amount data) 0,
       fines + JS.or_default (fineAmount data) 0,
       nverified + 1, npending, nrejected)
  | pending => (savings, fines, nverified, npending + 1, nrejected)
  | rejected => (savings, fines, nverified, npending, nrejected + 1)
  end.

(** The values [recalculateMemberStats] computes from the query result. *)
Definition recalculated (cfg : Settings) (docs : list Submission) : Stats :=
  let '(savings, fines, nverified, npending, nrejected) :=
    fold_left tally docs (0, 0, 0, 0, 0) in
  mkStats savings fines (Z.of_nat (length docs)) nverified npending nrejected
    (savings >=? JS.setting (interestEligibilityMin cfg) 10000).

(** [recalculateMemberStats(memberId)] *)
Definition recalculateMemberStats (cfg : Settings) (mid : string)
    : M Firestore Stats :=
  let* fs := get in
  match members fs !! mid with
  | None => throw MemberNotFound
  | Some _ =>
      let stats := recalculated cfg (submissionsOf mid (submissions fs)) in
      attempt (updateMember mid (with_stats stats)) ;;
      ret stats
  end.

(** [getMembers]: [orderBy('name')], ties in document-id order. *)
Definition member_leb (a b : string * Member) : bool :=
  match String.compare (name (snd a)) (name (snd b)) with
  | Lt => true
  | Gt => false
  | Eq => String.leb (fst a) (fst b)
  end.

Fixpoint insert_sorted (x : string * Member) (l : list (string * Member))
    : list (string * Member) :=
  match l with
  | [] => [x]
  | y :: r => if member_leb x y then x :: l else y :: insert_sorted x r
  end.

Definition getMembers (fs : Firestore) : list (string * Member) :=
  foldr insert_sorted [] (map_to_list (members fs)).

(** The [for] loop of [recalculateAllMemberStats]. *)
Fixpoint recalculateLoop (cfg : Settings) (ids : list string) (count : Z)
    : M Firestore Z :=
  match ids with
  | [] => ret count
  | mid :: rest =>
      recalculateMemberStats cfg mid ;;
      recalculateLoop cfg rest (count + 1)
  end.

(** [recalculateAllMemberStats()]; the [catch] block logs and rethrows. *)
Definition recalculateAllMemberStats (cfg : Settings) : M Firestore Z :=
  let* fs := get in
  let* count := recalculateLoop cfg (fst <$> getMembers fs) 0 in
  modify (add_auditLog "stats_recalculated" "") ;;
  ret count.

Section Credentials.

(** [crypto.subtle.digest('SHA-256', bytes)] on the encoded string. *)
Variable sha256 : string -> string.

(** [hashPassword]: the digest of the password followed by a fixed salt. *)
Definition hashPassword (password : string) : string :=
  JS.hex_string (sha256 (password +:+ "tshikota_salt_2024")).

(** [verifyPassword] *)
Definition verifyPassword (password hash : string) : bool :=
  String.eqb (hashPassword password) hash.

End Credentials.

End Single.

(** ** [SubmitForm]: the amount check of the submission form *)

Module SubmitForm.

Inductive AmountCheck :=
  | AmountMissing
  | AmountNotPositive
  | AmountAccepted (belowMinimumWarning : bool).


Definition isValid (c : AmountCheck) : bool :=
  match c with
  | AmountAccepted _ => true
  | _ => false
  end.

End SubmitForm.

(** ** [Dual]: the Firestore + Realtime Database [Database]
    (src/unnamed/part_006) *)

Module Dual.

(** The keys of [APP_SETTINGS] this module reads; [DB_SETTINGS] gives the
    values the file documents for them. *)
Record Settings := mkSettings {
  minimumContribution : Z;
  lateFee : Z;
  paymentDeadlineDay : Z;
  interestEligibilityMin : Z
}.

Definition DB_SETTINGS : Settings := mkSettings 300 50 7 10000.

(** [/stokvel/totals] *)
Record Totals := mkTotals {
  totalMembers : Z;
  t_totalSavings : Z;
  t_totalFines : Z;
  pendingSubmissions : Z;
  approvedSubmissions : Z;
  rejectedSubmissions : Z;
  totalSubmissions : Z
}.

(** [/stokvel/members/{id}]; an absent node reads as [noMemberTotals]. *)
Record MemberTotals := mkMemberTotals {
  rt_name : string;
  rt_memberRef : string;
  rt_phone : string;
  rt_totalSavings : Z;
  rt_totalFines : Z;
  rt_submissionCount : Z;
  rt_verifiedCount : Z;
  rt_pendingCount : Z;
  rt_qualifiesForInterest : bool;
  rt_lastPaymentMonth : option string
}.

Definition noMemberTotals : MemberTotals :=
  mkMemberTotals "" "" "" 0 0 0 0 0 false None.

(** [/stokvel/interestPool/{year}] *)
Record PoolTotals := mkPoolTotals {
  rtp_totalFines : Z;
  rtp_fineCount : Z
}.

(** [/stokvel/monthly/{year}/{month}] *)
Record Monthly := mkMonthly {
  totalCollected : Z;
  approvedCount : Z;
  latePayments : Z;
  finesCollected : Z
}.

(** [/stokvel/counters]; [0] is an absent counter. *)
Record Counters := mkCounters {
  memberNumber : Z;
  submissionNumber : Z
}.

Record Realtime := mkRealtime {
  totals : Totals;
  rt_members : gmap string MemberTotals;
  rt_interestPool : gmap Z PoolTotals;
  monthly : gmap (Z * string) Monthly;
  counters : Counters
}.

Record State := mkState {
  firestore : Firestore;
  realtime : Realtime
}.

Definition on_firestore (f : Firestore -> Firestore) (st : State) : State :=
  mkState (f (firestore st)) (realtime st).

Definition on_realtime (f : Realtime -> Realtime) (st : State) : State :=
  mkState (firestore st) (f (realtime st)).

Definition try_firestore (f : Firestore -> result Firestore) (st : State)
    : result State :=
  match f (firestore st) with
  | Ok fs => Ok (mkState fs (realtime st))
  | Throw e => Throw e
  end.

Definition on_totals (f : Totals -> Totals) (rt : Realtime) : Realtime :=
  mkRealtime (f (totals rt)) (rt_members rt) (rt_interestPool rt)
    (monthly rt) (counters rt).

Definition on_rt_member (mid : string) (f : MemberTotals -> MemberTotals)
    (rt : Realtime) : Realtime :=
  mkRealtime (totals rt)
    (<[mid := f (default noMemberTotals (rt_members rt !! mid))]>
       (rt_members rt))
    (rt_interestPool rt) (monthly rt) (counters rt).

Definition on_rt_pool (year : Z) (f : PoolTotals -> PoolTotals)
    (rt : Realtime) : Realtime :=
  mkRealtime (totals rt) (rt_members rt)
    (<[year := f (default (mkPoolTotals 0 0) (rt_interestPool rt !! year))]>
       (rt_interestPool rt))
    (monthly rt) (counters rt).

Definition on_monthly (key : Z * string) (f : Monthly -> Monthly)
    (rt : Realtime) : Realtime :=
  mkRealtime (totals rt) (rt_members rt) (rt_interestPool rt)
    (<[key := f (default (mkMonthly 0 0 0 0) (monthly rt !! key))]>
       (monthly rt))
    (counters rt).

Definition on_counters (f : Counters -> Counters) (rt : Realtime) : Realtime :=
  mkRealtime (totals rt) (rt_members rt) (rt_interestPool rt) (monthly rt)
    (f (counters rt)).

(** [createAuditLog]: never throws. *)
Definition createAuditLog (action entity : string) : M State unit :=
  modify (on_firestore (add_auditLog action entity)).

(** [generateSubmissionRef]: [(current || 10000) + 1] in a transaction. *)
Definition generateSubmissionRef : M State string :=
  let* st := get in
  let n := JS.or_default (submissionNumber (counters (realtime st))) 10000 + 1 in
  modify (on_realtime (on_counters (fun c => mkCounters (memberNumber c) n))) ;;
  ret ("TRF-" +:+ pretty n).

(** [generateMemberRef]: [(current || 1000) + 1] in a transaction. *)
Definition generateMemberRef : M State string :=
  let* st := get in
  let n := JS.or_default (memberNumber (counters (realtime st))) 1000 + 1 in
  modify (on_realtime
            (on_counters (fun c => mkCounters n (submissionNumber c)))) ;;
  ret ("TRF-M" +:+ pretty n).

(** The argument of [submitPOP]: [sd_amount] is
    [parseFloat(submissionData.amount)] with [None] for [NaN];
    [sd_paymentDay] is the day of the month of [paymentDate], when given. *)
Record SubmissionData := mkSubmissionData {
  sd_name : string;
  sd_phone : string;
  sd_amount : option Z;
  sd_paymentDay : option Z;
  sd_paymentMonth : string
}.

(** The amount check of [submitPOP]:
    [isNaN(amount) || amount < APP_SETTINGS.minimumContribution]. *)
Definition amountRejected (cfg : Settings) (a : option Z) : bool :=
  match a with
  | None => true
  | Some amount => amount <? minimumContribution cfg
  end.

(** The document [submitPOP] writes: status [pending], the late flag and
    the fine fixed from the payment date, the member found by phone. *)
Definition pendingSubmission (cfg : Settings) (ref : string) (today : Z)
    (d : SubmissionData) (linked : option string) : Submission :=
  let late := default today (sd_paymentDay d) >? paymentDeadlineDay cfg in
  let fine := if late then lateFee cfg else 0 in
  mkSubmission ref (trim (sd_name d)) (JS.strip_spaces_dashes (sd_phone d))
    (default 0 (sd_amount d)) fine late (sd_paymentMonth d) pending linked
    None.

(** The member update of [submitPOP]. *)
Definition submitMember (m : Member) : Member :=
  with_stats
    (mkStats (totalSavings m) (totalFines m) (submissionCount m + 1)
       (verifiedCount m) (pendingCount m + 1) (rejectedCount m)
       (qualifiesForInterest m)) m.

(** The Realtime Database writes of [submitPOP]. *)
Definition submitRealtime (linked : option string) (rt : Realtime) : Realtime :=
  let rt1 := on_totals (fun t =>
    mkTotals (totalMembers t) (t_totalSavings t) (t_totalFines t)
      (pendingSubmissions t + 1) (approvedSubmissions t)
      (rejectedSubmissions t) (totalSubmissions t + 1)) rt in
  match linked with
  | Some mid =>
      on_rt_member mid (fun m =>
        mkMemberTotals (rt_name m) (rt_memberRef m) (rt_phone m)
          (rt_totalSavings m) (rt_totalFines m) (rt_submissionCount m + 1)
          (rt_verifiedCount m) (rt_pendingCount m + 1)
          (rt_qualifiesForInterest m) (rt_lastPaymentMonth m)) rt1
  | None => rt1
  end.

(** [submitPOP]; [docId] is the id Firestore gives the new document and
    [today] the day of the month of [new Date()]. *)
Definition submitPOP (cfg : Settings) (docId : string) (today : Z)
    (d : SubmissionData) : M State string :=
  let normalizedPhone := JS.strip_spaces_dashes (sd_phone d) in
  let* st := get in
  let member := getMemberByPhone (firestore st) normalizedPhone in
  let linked := truthy_id (fst <$> member) in
  let* ref := generateSubmissionRef in
  if amountRejected cfg (sd_amount d) then throw MinimumContribution
  else
    modify (on_firestore (set_submissions
              (insert docId (pendingSubmission cfg ref today d linked)))) ;;
    match linked with
    | Some mid => attempt (try_firestore (updateMember mid submitMember))
    | None => ret tt
    end ;;
    modify (on_realtime (submitRealtime linked)) ;;
    createAuditLog "pop_submitted" docId ;;
    ret ref.

(** [extractYearFromMonth] *)
Definition extractYearFromMonth (paymentMonth : string) (currentYear : Z) : Z :=
  match paymentMonth with
  | EmptyString => currentYear
  | _ => default currentYear (JS.match_4digits paymentMonth)
  end.

Definition mergeFine (year fine : Z) (o : option PoolDoc) : PoolDoc :=
  match o with
  | Some p =>
      mkPoolDoc (Some year) (pool_totalFines p + fine) (pool_fineCount p + 1)
        (pool_bankInterest p)
  | None => mkPoolDoc (Some year) fine 1 0
  end.

(** The member update of [approveSubmission]: the two totals are written
    as the values computed from the member read before the batch. *)
Definition approveMember (cfg : Settings) (submission : Submission)
    (member : Member) (m : Member) : Member :=
  let newTotalSavings :=
    JS.or_default (totalSavings member) 0
    + JS.or_default (amount submission) 0 in
  let newTotalFines :=
    JS.or_default (totalFines member) 0
    + JS.or_default (fineAmount submission) 0 in
  with_tracking (skippedMonths m) (consecutiveMonths m + 1)
    (Some (paymentMonth submission))
    (with_stats
       (mkStats newTotalSavings newTotalFines (submissionCount m)
          (verifiedCount m + 1) (pendingCount m - 1) (rejectedCount m)
          (newTotalSavings >=? interestEligibilityMin cfg)) m).

(** The Firestore batch of [approveSubmission]. *)
Definition approveBatch (cfg : Settings) (submissionId : string)
    (submission : Submission) (member : option Member) (paymentYear : Z)
    : list Write :=
  let fine := JS.or_default (fineAmount submission) 0 in
  [UpdateSubmission submissionId (with_status verified)]
  ++ match truthy_id (memberId submission), member with
     | Some mid, Some mem =>
         [UpdateMember mid (approveMember cfg submission mem)]
     | _, _ => []
     end
  ++ (if fine >? 0
      then [MergePool (Some paymentYear) (mergeFine paymentYear fine)]
      else []).

(** The Realtime Database writes of [approveSubmission]. *)
Definition approveRealtime (cfg : Settings) (submission : Submission)
    (member : option Member) (paymentYear : Z) (rt : Realtime) : Realtime :=
  let amount := JS.or_default (amount submission) 0 in
  let fine := JS.or_default (fineAmount submission) 0 in
  let rt1 := on_totals (fun t =>
    mkTotals (totalMembers t) (t_totalSavings t + amount)
      (t_totalFines t + fine) (Z.max (pendingSubmissions t - 1) 0)
      (approvedSubmissions t + 1) (rejectedSubmissions t)
      (totalSubmissions t)) rt in
  let rt2 :=
    match truthy_id (memberId submission), member with
    | Some mid, Some mem =>
        let newTotal := JS.or_default (totalSavings mem) 0 + amount in
        on_rt_member mid (fun m =>
          mkMemberTotals (rt_name m) (rt_memberRef m) (rt_phone m) newTotal
            (JS.or_default (totalFines mem) 0 + fine) (rt_submissionCount m)
            (JS.or_default (verifiedCount mem) 0 + 1)
            (Z.max (JS.or_default (pendingCount mem) 0 - 1) 0)
            (newTotal >=? interestEligibilityMin cfg)
            (Some (paymentMonth submission))) rt1
    | _, _ => rt1
    end in
  let rt3 :=
    if fine >? 0 then
      on_rt_pool paymentYear (fun p =>
        mkPoolTotals (rtp_totalFines p + fine) (rtp_fineCount p + 1)) rt2
    else rt2 in
  let monthYear := JS.str_or (paymentMonth submission) "Unknown" in
  let monthName := JS.str_or (hd "" (JS.split_space monthYear)) "Unknown" in
  on_monthly (paymentYear, monthName) (fun mo =>
    mkMonthly (totalCollected mo + (amount + fine)) (approvedCount mo + 1)
      (if fine >? 0 then latePayments mo + 1 else latePayments mo)
      (if fine >? 0 then finesCollected mo + fine else finesCollected mo))
    rt3.

(** [approveSubmission(submissionId)] *)
Definition approveSubmission (cfg : Settings) (currentYear : Z)
    (submissionId : string) : M State unit :=
  let* st := get in
  match submissions (firestore st) !! submissionId with
  | None => throw SubmissionNotFound
  | Some submission =>
      if bool_decide (status submission = pending) then
        let paymentYear :=
          extractYearFromMonth (paymentMonth submission) currentYear in
        let member :=
          match truthy_id (memberId submission) with
          | Some mid => members (firestore st) !! mid
          | None => None
          end in
        attempt (try_firestore
          (commit
             (approveBatch cfg submissionId submission member paymentYear))) ;;
        modify (on_realtime
                  (approveRealtime cfg submission member paymentYear)) ;;
        createAuditLog "submission_approved" submissionId
      else throw SubmissionAlreadyProcessed
  end.

(** The member update of [rejectSubmission]. *)
Definition rejectMember (m : Member) : Member :=
  with_stats
    (mkStats (totalSavings m) (totalFines m) (submissionCount m)
       (verifiedCount m) (pendingCount m - 1) (rejectedCount m + 1)
       (qualifiesForInterest m)) m.

(** The Firestore batch of [rejectSubmission]. *)
Definition rejectBatch (submissionId reason : string)
    (submission : Submission) : list Write :=
  [UpdateSubmission submissionId
     (fun s =>
        with_rejectionReason (JS.str_or reason "No reason provided")
          (with_status rejected s))]
  ++ match truthy_id (memberId submission) with
     | Some mid => [UpdateMember mid rejectMember]
     | None => []
     end.

(** The Realtime Database writes of [rejectSubmission]. *)
Definition rejectRealtime (submission : Submission) (rt : Realtime)
    : Realtime :=
  let rt1 := on_totals (fun t =>
    mkTotals (totalMembers t) (t_totalSavings t) (t_totalFines t)
      (Z.max (pendingSubmissions t - 1) 0) (approvedSubmissions t)
      (rejectedSubmissions t + 1) (totalSubmissions t)) rt in
  match truthy_id (memberId submission) with
  | Some mid =>
      on_rt_member mid (fun m =>
        mkMemberTotals (rt_name m) (rt_memberRef m) (rt_phone m)
          (rt_totalSavings m) (rt_totalFines m) (rt_submissionCount m)
          (rt_verifiedCount m) (Z.max (rt_pendingCount m - 1) 0)
          (rt_qualifiesForInterest m) (rt_lastPaymentMonth m)) rt1
  | None => rt1
  end.

(** [rejectSubmission(submissionId, reason = '')] *)
Definition rejectSubmission (submissionId reason : string) : M State unit :=
  let* st := get in
  match submissions (firestore st) !! submissionId with
  | None => throw SubmissionNotFound
  | Some submission =>
      if bool_decide (status submission = pending) then
        attempt (try_firestore
          (commit (rejectBatch submissionId reason submission))) ;;
        modify (on_realtime (rejectRealtime submission)) ;;
        createAuditLog "submission_rejected" submissionId
      else throw SubmissionAlreadyProcessed
  end.

Section Credentials.

(** [crypto.subtle.digest('SHA-256', bytes)] on the encoded string. *)
Variable sha256 : string -> string.

(** [hashPassword]: the hexadecimal digest of the password. *)
Definition hashPassword (password : string) : string :=
  JS.hex_string (sha256 password).

(** The argument of [registerMember] (date of birth and email left out). *)
Record RegistrationData := mkRegistrationData {
  rd_name : string;
  rd_surname : string;
  rd_idNumber : string;
  rd_phone : string;
  rd_password : string
}.

(** [registerMember]; [docId] is the id Firestore gives the new document. *)
Definition registerMember (docId : string) (d : RegistrationData)
    : M State (string * string) :=
  let normalizedPhone := JS.strip_spaces_dashes (rd_phone d) in
  let* st := get in
  match getMemberByPhone (firestore st) normalizedPhone with
  | Some _ => throw PhoneAlreadyRegistered
  | None =>
      match getMemberByIdNumber (firestore st) (rd_idNumber d) with
      | Some _ => throw IdNumberAlreadyRegistered
      | None =>
          let* ref := generateMemberRef in
          let hash := hashPassword (rd_password d) in
          let fullName :=
            trim (trim (rd_name d) +:+ " " +:+ trim (rd_surname d)) in
          modify (on_firestore (set_members
                    (insert docId
                       (mkMember (trim (rd_name d)) normalizedPhone
                          (rd_idNumber d) (Some hash) ref
                          0 0 0 0 0 0 0 0 None false)))) ;;
          modify (on_realtime (fun rt =>
            mkRealtime (totals rt)
              (<[docId := mkMemberTotals fullName ref normalizedPhone
                            0 0 0 0 0 false None]> (rt_members rt))
              (rt_interestPool rt) (monthly rt) (counters rt))) ;;
          modify (on_realtime (on_totals (fun t =>
            mkTotals (totalMembers t + 1) (t_totalSavings t) (t_totalFines t)
              (pendingSubmissions t) (approvedSubmissions t)
              (rejectedSubmissions t) (totalSubmissions t)))) ;;
          createAuditLog "member_registered" docId ;;
          ret (docId, ref)
      end
  end.

(** [verifyMemberLogin(phone, password)]: the member, or [null]. *)
Definition verifyMemberLogin (ph password : string)
    : M State (option (string * Member)) :=
  let* st := get in
  match getMemberByPhone (firestore st) ph with
  | None => ret None
  | Some (mid, member) =>
      if bool_decide (passwordHash member = Some (hashPassword password))
      then createAuditLog "member_login" mid ;; ret (Some (mid, member))
      else ret None
  end.

End Credentials.

End Dual.

(** ** [SMSPortal]: the one-time codes of src/unnamed/part_001 *)

Module SMSPortal.

(** A document of [otpCodes], keyed by the formatted phone number. *)
Record OtpDoc := mkOtpDoc {
  otp : string;
  otp_phone : string;
  expiresAt : Z;
  used : bool;
  attempts : Z
}.

Definition starts_with (p s : string) : bool := String.prefix p s.

(** [formatPhoneNumber]: [27XXXXXXXXX], or [null]. *)
Definition formatPhoneNumber (ph : string) : option string :=
  match ph with
  | EmptyString => None
  | _ =>
      let cleaned := JS.digits_only ph in
      let len := String.length cleaned in
      if starts_with "27" cleaned && (len =? 11)%nat then Some cleaned
      else if starts_with "0" cleaned && (len =? 10)%nat
      then Some ("27" +:+ String.substring 1 (len - 1) cleaned)
      else if (len =? 9)%nat && negb (starts_with "0" cleaned)
      then Some ("27" +:+ cleaned)
      else None
  end.

(** [sendPasswordResetOTP]: [code] is the value drawn by [generateOTP(6)],
    [delivered] whether [sendSMS] reported success, [now] the clock in
    milliseconds. *)
Definition sendPasswordResetOTP (now : Z) (code : string) (delivered : bool)
    (ph : string) (codes : gmap string OtpDoc) : gmap string OtpDoc * bool :=
  match formatPhoneNumber ph with
  | None => (codes, false)
  | Some formattedPhone =>
      let stored :=
        <[formattedPhone :=
            mkOtpDoc code formattedPhone (now + 10 * 60 * 1000) false 0]>
          codes in
      if delivered then (stored, true)
      else (delete formattedPhone stored, false)
  end.

(** [verifyOTP(phone, otp)] *)
Definition verifyOTP (now : Z) (ph code : string)
    (codes : gmap string OtpDoc) : gmap string OtpDoc * bool :=
  match formatPhoneNumber ph with
  | None => (codes, false)
  | Some formattedPhone =>
      match codes !! formattedPhone with
      | None => (codes, false)
      | Some data =>
          if used data then (codes, false)
          else if now >? expiresAt data
          then (delete formattedPhone codes, false)
          else if attempts data >=? 3
          then (delete formattedPhone codes, false)
          else if negb (String.eqb (otp data) code)
          then (<[formattedPhone :=
                    mkOtpDoc (otp data) (otp_phone data) (expiresAt data)
                      (used data) (attempts data + 1)]> codes, false)
          else (<[formattedPhone :=
                    mkOtpDoc (otp data) (otp_phone data) (expiresAt data)
                      true (attempts data)]> codes, true)
      end
  end.

End SMSPortal.

(** ** [SMSLegacy]: the one-time codes of src/js/sms.js *)

Module SMSLegacy.

(** A document of [otpCodes]: no attempt counter. *)
Record OtpDoc := mkOtpDoc {
  otp : string;
  expiresAt : Z;
  used : bool
}.

(** [formatPhoneNumber]: always a string, [+27XXXXXXXXX] when recognised. *)
Definition formatPhoneNumber (ph : string) : string :=
  let kept :=
    JS.filter_chars (fun c => JS.is_digit c || Ascii.eqb c "+") ph in
  let hasPlus := String.prefix "+" kept in
  let cleaned :=
    if hasPlus then String.substring 1 (String.length kept - 1) kept
    else kept in
  let len := String.length cleaned in
  if String.prefix "27" cleaned && (len =? 11)%nat then "+" +:+ cleaned
  else if String.prefix "0" cleaned && (len =? 10)%nat
  then "+27" +:+ String.substring 1 (len - 1) cleaned
  else if (len =? 9)%nat
          && match cleaned with
             | String c _ =>
                 (54 <=? nat_of_ascii c)%nat && (nat_of_ascii c <=? 56)%nat
             | EmptyString => false
             end
  then "+27" +:+ cleaned
  else if hasPlus then "+" +:+ cleaned else "+27" +:+ cleaned.

(** The store step of [sendPasswordResetOTP], reached when the message was
    sent. *)
Definition storeOTP (now : Z) (code ph : string)
    (codes : gmap string OtpDoc) : gmap string OtpDoc :=
  <[formatPhoneNumber ph := mkOtpDoc code (now + 10 * 60 * 1000) false]> codes.

(** [verifyOTP(phone, otp)] *)
Definition verifyOTP (now : Z) (ph code : string)
    (codes : gmap string OtpDoc) : gmap string OtpDoc * bool :=
  let key := formatPhoneNumber ph in
  match codes !! key with
  | None => (codes, false)
  | Some data =>
      let isValid :=
        String.eqb (otp data) code && negb (used data)
        && (expiresAt data >? now) in
      if isValid
      then (<[key := mkOtpDoc (otp data) (expiresAt data) true]> codes, true)
      else (codes, false)
  end.

End SMSLegacy.

(** ** The ledger a member's aggregates are meant to mirror

    These definitions follow the specification's words: sums and counts over
    the submissions linked to a member, by status. *)

Definition sumZ (l : list Z) : Z := foldr Z.add 0 l.

Definition withStatus (st : Status) (l : list Submission) : list Submission :=
  List.filter (fun s => bool_decide (status s = st)) l.

Definition savingsOfVerified (mid : string) (subs : gmap string Submission) : Z :=
  sumZ (amount <$> withStatus verified (submissionsOf mid subs)).

Definition finesOfVerified (mid : string) (subs : gmap string Submission) : Z :=
  sumZ (fineAmount <$> withStatus verified (submissionsOf mid subs)).

Definition countWithStatus (st : Status) (mid : string)
    (subs : gmap string Submission) : Z :=
  Z.of_nat (length (withStatus st (submissionsOf mid subs))).

Definition countAll (mid : string) (subs : gmap string Submission) : Z :=
  Z.of_nat (length (submissionsOf mid subs)).

(** The two totals of a member agree with the verified submissions. *)
Definition totals_match (fs : Firestore) : Prop :=
  forall mid m, members fs !! mid = Some m ->
    totalSavings m = savingsOfVerified mid (submissions fs)
    /\ totalFines m = finesOfVerified mid (submissions fs).

(** The count equation of a member record. *)
Definition counts_add_up (m : Member) : Prop :=
  submissionCount m = verifiedCount m + pendingCount m + rejectedCount m.

(** Every aggregate of every member agrees with the submissions. *)
Definition member_matches (mid : string) (m : Member)
    (subs : gmap string Submission) : Prop :=
  totalSavings m = savingsOfVerified mid subs
  /\ totalFines m = finesOfVerified mid subs
  /\ verifiedCount m = countWithStatus verified mid subs
  /\ pendingCount m = countWithStatus pending mid subs
  /\ rejectedCount m = countWithStatus rejected mid subs
  /\ submissionCount m = countAll mid subs.

Definition ledger_consistent (fs : Firestore) : Prop :=
  (forall mid m, members fs !! mid = Some m ->
     member_matches mid m (submissions fs))
  /\ (forall id s, submissions fs !! id = Some s ->
        truthy_id (memberId s) = memberId s).

(** Sum of [g] over every document of the collection. *)
Definition agg (g : Submission -> Z) (subs : gmap string Submission) : Z :=
  sumZ (g <$> (snd <$> map_to_list subs)).

Definition linked_with (mid : string) (st : Status) (s : Submission) : bool :=
  bool_decide (memberId s = Some mid) && bool_decide (status s = st).

(** ** The operations of the dual-store variant as a transition system *)

Inductive DualOp :=
  | DSubmit (docId : string) (today : Z) (d : Dual.SubmissionData)
  | DApprove (currentYear : Z) (submissionId : string)
  | DReject (submissionId reason : string).

Definition dual_run (cfg : Dual.Settings) (op : DualOp) (st : Dual.State)
    : Dual.State :=
  match op with
  | DSubmit docId today d => fst (Dual.submitPOP cfg docId today d st)
  | DApprove year id => fst (Dual.approveSubmission cfg year id st)
  | DReject id reason => fst (Dual.rejectSubmission id reason st)
  end.

(** Firestore gives a new document an id no document of the collection has. *)
Definition dual_enabled (op : DualOp) (st : Dual.State) : Prop :=
  match op with
  | DSubmit docId _ _ => submissions (Dual.firestore st) !! docId = None
  | _ => True
  end.

Inductive dual_step (cfg : Dual.Settings) : Dual.State -> Dual.State -> Prop :=
  | dual_step_intro op st :
      dual_enabled op st -> dual_step cfg st (dual_run cfg op st).

(** ** Auxiliary definitions used in the statements *)

(** The ledger quantities as sums over the whole collection. *)
Definition g_savings (mid : string) (s : Submission) : Z :=
  if linked_with mid verified s then amount s else 0.

Definition g_fines (mid : string) (s : Submission) : Z :=
  if linked_with mid verified s then fineAmount s else 0.

Definition g_count (st : Status) (mid : string) (s : Submission) : Z :=
  if linked_with mid st s then 1 else 0.

Definition g_all (mid : string) (s : Submission) : Z :=
  if bool_decide (memberId s = Some mid) then 1 else 0.

Definition dual_member_of (st : Dual.State) (sub : Submission) : option Member :=
  match truthy_id (memberId sub) with
  | Some mid => members (Dual.firestore st) !! mid
  | None => None
  end.

Definition single_member_of (fs : Firestore) (memberIdArg : option string)
    : option Member :=
  match truthy_id memberIdArg with
  | Some mid => members fs !! mid
  | None => None
  end.

(** The value of four decimal digits at the head of a string. *)
Definition digits4 (s : string) : option Z :=
  match s with
  | String a (String b (String c (String d _))) =>
      if JS.is_digit a && JS.is_digit b && JS.is_digit c && JS.is_digit d
      then Some (1000 * JS.digit_val a + 100 * JS.digit_val b
                 + 10 * JS.digit_val c + JS.digit_val d)
      else None
  | _ => None
  end.

Fixpoint drop_chars (n : nat) (s : string) : string :=
  match n, s with
  | O, _ => s
  | S n', String _ r => drop_chars n' r
  | S _, EmptyString => EmptyString
  end.

(** [y] is the value of the leftmost four consecutive digits of [label]. *)
Definition leftmost_year (label : string) (y : Z) : Prop :=
  exists n, digits4 (drop_chars n label) = Some y
            /\ forall k, (k < n)%nat -> digits4 (drop_chars k label) = None.

(** [label] holds no four consecutive digits. *)
Definition no_year (label : string) : Prop :=
  forall n, digits4 (drop_chars n label) = None.

(** A label as the submission form builds it: a month name and a
    four-digit year separated by one space. *)
Definition form_label (month : string) (a b c d : ascii) : string :=
  month +:+ String " " (String a (String b (String c (String d EmptyString)))).

Fixpoint all_chars (p : ascii -> bool) (s : string) : bool :=
  match s with
  | EmptyString => true
  | String c r => p c && all_chars p r
  end.

Definition is_not_space (c : ascii) : bool := negb (Ascii.eqb c " ").

Definition is_not_digit (c : ascii) : bool := negb (JS.is_digit c).

(** The fines recorded in the pool document [key]; an absent document
    reads as zero. *)
Definition poolFines (p : gmap (option Z) PoolDoc) (key : option Z) : Z :=
  from_option pool_totalFines 0 (p !! key).

Definition with_attempt (r : SMSPortal.OtpDoc) : SMSPortal.OtpDoc :=
  SMSPortal.mkOtpDoc (SMSPortal.otp r) (SMSPortal.otp_phone r)
    (SMSPortal.expiresAt r) (SMSPortal.used r) (SMSPortal.attempts r + 1).

Definition with_used (r : SMSPortal.OtpDoc) : SMSPortal.OtpDoc :=
  SMSPortal.mkOtpDoc (SMSPortal.otp r) (SMSPortal.otp_phone r)
    (SMSPortal.expiresAt r) true (SMSPortal.attempts r).

Definition single_linked (fs : Firestore) (d : Single.SubmissionData)
    : option string :=
  truthy_id (fst <$> getMemberByPhone fs
                       (JS.strip_spaces_dashes (Single.sd_phone d))).

(** ** Concrete stores and inputs of the examples *)

Definition cfg0 : Single.Settings := Single.mkSettings None None None None.

Definition alice : Member :=
  mkMember "Alice" "0821234567" "8001015009087" None "TRF-MAB12"
    0 0 0 0 0 0 0 0 None false.

(** Bob's record has drifted: one verified submission of 300, totals at 0. *)
Definition bob : Member :=
  mkMember "Bob" "0731234567" "7502025009086" None "TRF-MCD34"
    0 0 0 0 0 0 0 0 None false.

Definition bob_payment : Submission :=
  mkSubmission "TRF-XYZ789" "Bob" "0731234567" 300 0 false "May 2025"
    verified (Some "m2") None.

Definition fs_alice : Firestore := mkFirestore {[ "m1" := alice ]} ∅ ∅ [] ∅.

Definition fs_two_members (denied : gset string) : Firestore :=
  mkFirestore {[ "m1" := alice; "m2" := bob ]} {[ "s9" := bob_payment ]}
    ∅ [] denied.

Definition pop300 : Single.SubmissionData :=
  Single.mkSubmissionData "Alice" "082 123 4567" 300 10 "December 2024".

Definition fs_submitted : Firestore :=
  fst (Single.submitPOP cfg0 "s1" "TRF-ABC234" pop300 fs_alice).

Definition fs_approved : Firestore :=
  fst (Single.approveSubmission cfg0 2026 "s1" (Some "m1") fs_submitted).

Definition fs_approved_twice : Firestore :=
  fst (Single.approveSubmission cfg0 2026 "s1" (Some "m1") fs_approved).

Definition fs_rejected_after_approval : Firestore :=
  fst (Single.rejectSubmission "s1" "duplicate" fs_approved).

(** The same scenario in the dual-store variant. *)
Definition dual_alice : Dual.State :=
  Dual.mkState fs_alice
    (Dual.mkRealtime (Dual.mkTotals 1 0 0 0 0 0 0) ∅ ∅ ∅ (Dual.mkCounters 0 0)).

Definition dual_pop300 : Dual.SubmissionData :=
  Dual.mkSubmissionData "Alice" "082 123 4567" (Some 300) (Some 10)
    "December 2024".

Definition dual_submitted : Dual.State :=
  fst (Dual.submitPOP Dual.DB_SETTINGS "s1" 2 dual_pop300 dual_alice).

Definition dual_approved : Dual.State :=
  fst (Dual.approveSubmission Dual.DB_SETTINGS 2026 "s1" dual_submitted).

Definition alice_approved_once : Member :=
  mkMember "Alice" "0821234567" "8001015009087" None "TRF-MAB12"
    300 50 1 1 0 0 0 0 (Some "December 2024") false.

Definition alice_approved_twice : Member :=
  mkMember "Alice" "0821234567" "8001015009087" None "TRF-MAB12"
    600 100 2 2 (-1) 0 0 0 (Some "December 2024") false.

(** A late submission whose label is not a form label. *)
Definition pop_iso_label : Single.SubmissionData :=
  Single.mkSubmissionData "Alice" "0821234567" 300 10 "2023-12".

Definition fs_iso_approved : Firestore :=
  fst (Single.approveSubmission cfg0 2026 "s1" (Some "m1")
         (fst (Single.submitPOP cfg0 "s1" "TRF-ABC234" pop_iso_label
                 fs_alice))).

Definition fs_approved_without_member : Firestore :=
  fst (Single.approveSubmission cfg0 2026 "s1" None fs_submitted).

(** A code issued at time 0, verified at time 1, looked at again after it
    has expired. *)
Definition codes_issued : gmap string SMSPortal.OtpDoc :=
  fst (SMSPortal.sendPasswordResetOTP 0 "123456" true "082 123 4567" ∅).


(** The same code in the older module, after three wrong guesses. *)
Definition legacy_after_three_wrong : gmap string SMSLegacy.OtpDoc :=
  fst (SMSLegacy.verifyOTP 3 "0821234567" "333333"
         (fst (SMSLegacy.verifyOTP 2 "0821234567" "222222"
                 (fst (SMSLegacy.verifyOTP 1 "0821234567" "111111"
                         (SMSLegacy.storeOTP 0 "123456" "0821234567" ∅)))))).

(** A stand-in for the digest, used only to run the examples. *)
Definition stand_in_digest (s : string) : string := String.rev s.

Definition carol : Dual.RegistrationData :=
  Dual.mkRegistrationData "Carol" "Nkosi" "9001015009085" "0711234567"
    "secret-1".

Definition dave : Dual.RegistrationData :=
  Dual.mkRegistrationData "Dave" "Mokoena" "8501015009081" "0721234567"
    "secret-1".

Definition dual_carol : Dual.State :=
  fst (Dual.registerMember stand_in_digest "m7" carol dual_alice).

Definition dual_carol_dave : Dual.State :=
  fst (Dual.registerMember stand_in_digest "m8" dave dual_carol).



Definition fs_recalculated : Firestore :=
  set_members
    (insert "m1" (with_stats (mkStats 300 50 1 1 0 0 false) alice_approved_twice))
    fs_approved_twice.


(** ** [SAFinance]: the helpers beside the Firebase configuration
    (src/unnamed/part_006) *)

Module SAFinance.

(** [calculateInterestShare]: [Math.floor(totalPool / qualifyingMembers)]. *)
Definition calculateInterestShare (totalPool qualifyingMembers : Z) : Z :=
  if qualifyingMembers =? 0 then 0 else totalPool / qualifyingMembers.

(** [/^\d{13}$/.test(idNumber)] *)
Definition is13Digits (idNumber : string) : bool :=
  (String.length idNumber =? 13)%nat && all_chars JS.is_digit idNumber.

(** One round of the checksum loop of [validateSAID], at index [i]. *)
Definition luhnStep (i : nat) (c : ascii) (sum : Z) : Z :=
  let digit := JS.digit_val c in
  let digit :=
    if Nat.odd i then
      let doubled := digit * 2 in
      if doubled >? 9 then doubled - 9 else doubled
    else digit in
  sum + digit.

(** The rounds from index [i] on, over the characters from [i] on. *)
Fixpoint luhnLoop (i : nat) (s : string) (sum : Z) : Z :=
  match s with
  | EmptyString => sum
  | String c r => luhnLoop (S i) r (luhnStep i c sum)
  end.

(** [validateSAID(idNumber)] *)
Definition validateSAID (idNumber : string) : bool :=
  if is13Digits idNumber then Z.rem (luhnLoop 0 idNumber 0) 10 =? 0
  else false.

(** [getDOBFromID(idNumber)]: the three arguments handed to [new Date], or
    [None] for [null]; [currentYear] is [new Date().getFullYear()].  After
    [validateSAID] the three [parseInt] calls read two digits each, so none
    of them is [NaN]. *)
Definition getDOBFromID (currentYear : Z) (idNumber : string)
    : option (Z * Z * Z) :=
  if validateSAID idNumber then
    year ← JS.parseInt (String.substring 0 2 idNumber);
    month ← JS.parseInt (String.substring 2 2 idNumber);
    day ← JS.parseInt (String.substring 4 2 idNumber);
    let currentYY := Z.rem currentYear 100 in
    let fullYear := if year <=? currentYY then 2000 + year else 1900 + year in
    Some (fullYear, month - 1, day)
  else None.

(** [getGenderFromID(idNumber)] *)
Definition getGenderFromID (idNumber : string) : string :=
  if is13Digits idNumber then
    match JS.parseInt (String.substring 6 4 idNumber) with
    | Some genderDigits => if genderDigits >=? 5000 then "male" else "female"
    | None => "female"
    end
  else "unknown".

End SAFinance.

(** ** Phone numbers of the [SMS] object of src/unnamed/part_001 *)

Module SMSPortalPhone.

(** [isValidSAPhone]: the formatted number against [/^27[0-9]{9}$/]. *)
Definition isValidSAPhone (ph : string) : bool :=
  match SMSPortal.formatPhoneNumber ph with
  | Some (String "2" (String "7" rest)) =>
      (String.length rest =? 9)%nat && all_chars JS.is_digit rest
  | _ => false
  end.

(** [formatForDisplay]: [0XX XXX XXXX], or the argument as it came. *)
Definition formatForDisplay (ph : string) : string :=
  let cleaned := JS.digits_only ph in
  let local :=
    if String.prefix "27" cleaned then "0" +:+ drop_chars 2 cleaned
    else if negb (String.prefix "0" cleaned) then "0" +:+ cleaned
    else cleaned in
  if (String.length local =? 10)%nat
  then String.substring 0 3 local +:+ " " +:+ String.substring 3 3 local
       +:+ " " +:+ drop_chars 6 local
  else ph.

End SMSPortalPhone.

(** ** Phone numbers of the [SMS] object of src/js/sms.js *)

Module SMSLegacyPhone.

(** [isValidSAMobile]: the formatted number against [/^\+27[6-8]\d{8}$/]. *)
Definition isValidSAMobile (ph : string) : bool :=
  match SMSLegacy.formatPhoneNumber ph with
  | String "+" (String "2" (String "7" (String c rest))) =>
      (54 <=? nat_of_ascii c)%nat && (nat_of_ascii c <=? 56)%nat
      && (String.length rest =? 8)%nat && all_chars JS.is_digit rest
  | _ => false
  end.

End SMSLegacyPhone.

(** ** Accounts of the Firestore-only [Database] (src/js/submit-pop.js) *)

Module SingleAccounts.

(** The argument of [registerMember] (date of birth and email left out). *)
Record RegistrationData := mkRegistrationData {
  rd_name : string;
  rd_surname : string;
  rd_idNumber : string;
  rd_phone : string;
  rd_password : string
}.

(** The object [authenticateMember] returns: [{success: true, member}] or
    [{success: false, error}]. *)
Inductive AuthResult :=
  | Authenticated (memberId : string) (member : Member)
  | AuthFailed (error : string).

Definition with_passwordHash (hash : option string) (m : Member) : Member :=
  mkMember (name m) (phone m) (idNumber m) hash (memberRef m)
    (totalSavings m) (totalFines m) (submissionCount m) (verifiedCount m)
    (pendingCount m) (rejectedCount m) (skippedMonths m) (consecutiveMonths m)
    (lastPaymentMonth m) (qualifiesForInterest m).

Section Credentials.

(** [crypto.subtle.digest('SHA-256', bytes)] on the encoded string. *)
Variable sha256 : string -> string.

(** [registerMember]; [docId] is the id Firestore gives the new document
    and [ref] the code drawn by [generateMemberRef]. *)
Definition registerMember (docId ref : string) (d : RegistrationData)
    : M Firestore (string * string) :=
  let normalizedPhone := JS.strip_spaces_dashes (rd_phone d) in
  let* fs := get in
  match getMemberByPhone fs normalizedPhone with
  | Some _ => throw PhoneAlreadyRegistered
  | None =>
      match getMemberByIdNumber fs (rd_idNumber d) with
      | Some _ => throw IdNumberAlreadyRegistered
      | None =>
          let hash := Single.hashPassword sha256 (rd_password d) in
          modify (set_members
                    (insert docId
                       (mkMember (trim (rd_name d)) normalizedPhone
                          (rd_idNumber d) (Some hash) ref
                          0 0 0 0 0 0 0 0 None false))) ;;
          ret (docId, ref)
      end
  end.

(** [authenticateMember(phone, password)]; the write of [lastLogin] is a
    member update that changes no field of the [Member] record, and the
    [catch] block turns its failure into a failed login. *)
Definition authenticateMember (ph password : string)
    : M Firestore AuthResult :=
  let* fs := get in
  match getMemberByPhone fs ph with
  | None => ret (AuthFailed "Phone number not found. Please register first.")
  | Some (mid, member) =>
      match passwordHash member with
      | Some (String c r) =>
          if Single.verifyPassword sha256 password (String c r) then
            fun fs0 =>
              match updateMember mid (fun m => m) fs0 with
              | Ok fs1 => (fs1, Ok (Authenticated mid member))
              | Throw _ =>
                  (fs0, Ok (AuthFailed "Login failed. Please try again."))
              end
          else ret (AuthFailed "Incorrect password.")
      | _ => ret (AuthFailed "Account not set up. Please contact admin.")
      end
  end.

(** [updatePassword(memberId, newPassword)] *)
Definition updatePassword (memberId newPassword : string)
    : M Firestore unit :=
  attempt (updateMember memberId
             (with_passwordHash
                (Some (Single.hashPassword sha256 newPassword)))).

End Credentials.

End SingleAccounts.

(** ** The interest pool of the Firestore-only [Database]
    (src/js/submit-pop.js) *)

Module SingleInterest.

(** [getInterestPool(year)]: the document, or [{year, totalFines: 0,
    bankInterest: 0}]. *)
Definition getInterestPool (year : Z) (fs : Firestore) : PoolDoc :=
  default (mkPoolDoc (Some year) 0 0 0) (interestPool fs !! Some year).

(** The merge of [addBankInterest] into the document of the year. *)
Definition mergeBankInterest (year amount : Z) (o : option PoolDoc)
    : PoolDoc :=
  match o with
  | Some p =>
      mkPoolDoc (Some year) (pool_totalFines p) (pool_fineCount p)
        (pool_bankInterest p + amount)
  | None => mkPoolDoc (Some year) 0 0 amount
  end.

(** [addBankInterest(year, amount)] *)
Definition addBankInterest (year amount : Z) : M Firestore unit :=
  attempt (commit [MergePool (Some year) (mergeBankInterest year amount)]) ;;
  modify (add_auditLog "bank_interest_added" "").

(** The numbers of the object [calculateInterestDistribution] returns (the
    formatted copies of the amounts are left out); each qualifying member
    comes with its [shareAmount]. *)
Record Distribution := mkDistribution {
  d_year : Z;
  d_totalPool : Z;
  d_totalFines : Z;
  d_bankInterest : Z;
  d_threshold : Z;
  d_qualifyingMembersCount : Z;
  d_totalMembersCount : Z;
  d_perMemberAmount : Z;
  d_qualifyingMembers : list (string * Member * Z)
}.

Section Distribution.

(** [m.status === 'active'] on a member document: the [status] field is not
    part of the [Member] record, so the test is given from outside. *)
Variable isActive : string -> Member -> bool.

(** [calculateInterestDistribution(year)] *)
Definition calculateInterestDistribution (cfg : Single.Settings) (year : Z)
    (fs : Firestore) : Distribution :=
  let pool := getInterestPool year fs in
  let members := Single.getMembers fs in
  let threshold := JS.setting (Single.interestEligibilityMin cfg) 10000 in
  let qualifyingMembers :=
    List.filter
      (fun p => isActive (fst p) (snd p)
                && (JS.or_default (totalSavings (snd p)) 0 >=? threshold))
      members in
  let totalPool :=
    JS.or_default (pool_totalFines pool) 0
    + JS.or_default (pool_bankInterest pool) 0 in
  let count := Z.of_nat (length qualifyingMembers) in
  let perMember := if count >? 0 then totalPool / count else 0 in
  mkDistribution year totalPool
    (JS.or_default (pool_totalFines pool) 0)
    (JS.or_default (pool_bankInterest pool) 0)
    threshold count (Z.of_nat (length members)) perMember
    ((fun p => (fst p, snd p, perMember)) <$> qualifyingMembers).

End Distribution.

End SingleInterest.

(** ** Totals read from the two variants *)

Module SingleStats.

(** [getStokvelTotal()]: the [reduce] over the member documents; the sum
    does not depend on the order in which the snapshot lists them. *)
Definition getStokvelTotal (fs : Firestore) : Z :=
  fold_left (fun sum m => sum + JS.or_default (totalSavings m) 0)
    (snd <$> map_to_list (members fs)) 0.

End SingleStats.

Module DualStats.

(** [getTotals()] *)
Definition getTotals (st : Dual.State) : Dual.Totals :=
  Dual.totals (Dual.realtime st).

(** [getStokvelTotal()]: [totals.totalSavings || 0]. *)
Definition getStokvelTotal (st : Dual.State) : Z :=
  JS.or_default (Dual.t_totalSavings (getTotals st)) 0.

(** [getMemberRealtimeStats(memberId)]: the node, or [{}]. *)
Definition getMemberRealtimeStats (memberId : string) (st : Dual.State)
    : option Dual.MemberTotals :=
  Dual.rt_members (Dual.realtime st) !! memberId.

End DualStats.

(** ** The month labels of the submission form (src/unnamed/part_002,
    src/js/submit-pop.js) *)

Module Utils.

Definition months : list string :=
  ["January"; "February"; "March"; "April"; "May"; "June";
   "July"; "August"; "September"; "October"; "November"; "December"].

(** [getMonthName(month)]: [months[month - 1] || '']. *)
Definition getMonthName (month : Z) : string :=
  if (1 <=? month) && (month <=? 12)
  then nth (Z.to_nat (month - 1)) months ""
  else "".

(** The label of [new Date(year, month + i, 1)]: the constructor carries a
    month index outside [0..11] over into the year. *)
Definition monthLabel (nowYear nowMonth i : Z) : string :=
  let index := nowMonth + i in
  let year := nowYear + index / 12 in
  let month := index mod 12 in
  getMonthName (month + 1) +:+ " " +:+ pretty year.

(** [generateMonthOptions(count, includePast)]: the [value] of each option;
    [nowYear] and [nowMonth] are [getFullYear()] and [getMonth()] of
    [new Date()]. *)
Definition generateMonthOptions (nowYear nowMonth : Z) (count : Z)
    (includePast : bool) : list string :=
  let first := if includePast then -6 else 0 in
  monthLabel nowYear nowMonth <$> seqZ first (count - first).

(** [getCurrentPaymentMonth()] *)
Definition getCurrentPaymentMonth (nowYear nowMonth : Z) : string :=
  getMonthName (nowMonth + 1) +:+ " " +:+ pretty nowYear.

(** [isValidPhone(phone)]: ten digits, [/^0[678]\d{8}$/]. *)
Definition isValidPhone (ph : string) : bool :=
  match ph with
  | EmptyString => false
  | _ =>
      let digits := JS.digits_only ph in
      if negb (String.length digits =? 10)%nat then false
      else
        match digits with
        | String "0" (String c rest) =>
            (54 <=? nat_of_ascii c)%nat && (nat_of_ascii c <=? 56)%nat
            && (String.length rest =? 8)%nat && all_chars JS.is_digit rest
        | _ => false
        end
  end.

End Utils.

(** ** Auxiliary definitions of the further statements *)

(** The string [s] with the character at index [n] replaced by [c]. *)
Fixpoint set_char (n : nat) (c : ascii) (s : string) : string :=
  match s, n with
  | EmptyString, _ => EmptyString
  | String _ r, O => String c r
  | String a r, S n' => String a (set_char n' c r)
  end.

(** The string [s] with the characters at indices [n] and [n + 1]
    exchanged. *)
Fixpoint swap_chars (n : nat) (s : string) : string :=
  match s, n with
  | String a (String b r), O => String b (String a r)
  | String a r, S n' => String a (swap_chars n' r)
  | _, _ => s
  end.

(** The character at index [n], ["0"] past the end. *)
Definition char_at (n : nat) (s : string) : ascii :=
  default "0"%char (String.get n s).

(** A national number: nine digits, the first of them not [0]. *)
Definition national_number (d : string) : bool :=
  (String.length d =? 9)%nat && all_chars JS.is_digit d
  && negb (String.prefix "0" d).

(** A mobile national number: nine digits, the first of them 6, 7 or 8. *)
Definition mobile_number (d : string) : bool :=
  match d with
  | String c r =>
      (54 <=? nat_of_ascii c)%nat && (nat_of_ascii c <=? 56)%nat
      && (String.length r =? 8)%nat && all_chars JS.is_digit r
  | EmptyString => false
  end.

(** What [phone.replace(/[^\d+]/g, '')] keeps: the digits and the plus
    signs. *)
Definition digits_and_plus (s : string) : string :=
  JS.filter_chars (fun c => JS.is_digit c || Ascii.eqb c "+") s.




(** The member node of the Realtime Database repeats the aggregates of the
    member document of Firestore. *)
Definition member_node_mirrors (rm : Dual.MemberTotals) (m : Member) : Prop :=
  Dual.rt_totalSavings rm = totalSavings m
  /\ Dual.rt_totalFines rm = totalFines m
  /\ Dual.rt_submissionCount rm = submissionCount m
  /\ Dual.rt_verifiedCount rm = verifiedCount m
  /\ Dual.rt_pendingCount rm = pendingCount m.




(** No two documents of the collection agree on the field [f]. *)
Definition unique_by (f : Member -> string) (ms : gmap string Member)
    : Prop :=
  forall id1 id2 m1 m2,
    ms !! id1 = Some m1 -> ms !! id2 = Some m2 -> f m1 = f m2 -> id1 = id2.

(** The number behind the prefix of a reference issued by the dual-store
    variant. *)
Definition issued_reference (n : Z) : string := "TRF-" +:+ pretty n.

(** Every submission carries a reference issued from the counter, and no
    two submissions carry the same. *)
Definition references_issued (st : Dual.State) : Prop :=
  (forall id s, submissions (Dual.firestore st) !! id = Some s ->
     exists n, reference s = issued_reference n
               /\ n <= Dual.submissionNumber
                        (Dual.counters (Dual.realtime st)))
  /\ (forall id1 id2 s1 s2,
        submissions (Dual.firestore st) !! id1 = Some s1 ->
        submissions (Dual.firestore st) !! id2 = Some s2 ->
        reference s1 = reference s2 -> id1 = id2).

(** No member total and no pool document differs between two states of
    Firestore. *)
Definition same_money (fs fs' : Firestore) : Prop :=
  (forall mid,
     (totalSavings <$> members fs' !! mid) = (totalSavings <$> members fs !! mid)
     /\ (totalFines <$> members fs' !! mid) = (totalFines <$> members fs !! mid))
  /\ interestPool fs' = interestPool fs.

(** The same for the amounts the Realtime Database caches; an absent member
    node reads as zero. *)
Definition same_cached_money (rt rt' : Dual.Realtime) : Prop :=
  Dual.t_totalSavings (Dual.totals rt') = Dual.t_totalSavings (Dual.totals rt)
  /\ Dual.t_totalFines (Dual.totals rt') = Dual.t_totalFines (Dual.totals rt)
  /\ Dual.rt_interestPool rt' = Dual.rt_interestPool rt
  /\ forall mid,
       from_option Dual.rt_totalSavings 0 (Dual.rt_members rt' !! mid)
       = from_option Dual.rt_totalSavings 0 (Dual.rt_members rt !! mid)
       /\ from_option Dual.rt_totalFines 0 (Dual.rt_members rt' !! mid)
          = from_option Dual.rt_totalFines 0 (Dual.rt_members rt !! mid).

(** ** Concrete inputs of the further examples *)

Definition single_carol : SingleAccounts.RegistrationData :=
  SingleAccounts.mkRegistrationData "Carol" "Nkosi" "9001015009085"
    "071 123-4567" "secret-1".

Definition fs_carol : Firestore :=
  fst (SingleAccounts.registerMember stand_in_digest "m7" "TRF-MK7P2"
         single_carol fs_alice).

(** Alice's store with her node in the Realtime Database, as
    [registerMember] leaves the two stores. *)
Definition dual_alice_cached : Dual.State :=
  Dual.mkState fs_alice
    (Dual.mkRealtime (Dual.mkTotals 1 0 0 0 0 0 0)
       {[ "m1" := Dual.mkMemberTotals "Alice" "TRF-MAB12" "0821234567"
                    0 0 0 0 0 false None ]}
       ∅ ∅ (Dual.mkCounters 1001 10000)).


(** ** Basic facts *)

Lemma or_default_0 x : JS.or_default x 0 = x.
Proof. unfold JS.or_default. destruct (Z.eqb_spec x 0); lia. Qed.

Lemma sumZ_app l1 l2 : sumZ (l1 ++ l2) = sumZ l1 + sumZ l2.
Proof. induction l1 as [|x l1 IH]; simpl; lia. Qed.

Lemma sumZ_perm l1 l2 : l1 ≡ₚ l2 -> sumZ l1 = sumZ l2.
Proof. induction 1; simpl; lia. Qed.

Lemma agg_insert_fresh g subs id s :
  subs !! id = None -> agg g (<[id := s]> subs) = g s + agg g subs.
Proof.
  intros Hfresh. unfold agg.
  rewrite (sumZ_perm _ (g <$> (snd <$> ((id, s) :: map_to_list subs)))).
  - reflexivity.
  - do 2 apply fmap_Permutation. by apply map_to_list_insert.
Qed.

Lemma agg_delete g subs id s :
  subs !! id = Some s -> agg g subs = g s + agg g (delete id subs).
Proof.
  intros Hs. rewrite <- (agg_insert_fresh g (delete id subs) id s).
  - by rewrite insert_delete_id.
  - apply lookup_delete_eq.
Qed.

Lemma agg_alter g f subs id s :
  subs !! id = Some s ->
  agg g (alter f id subs) = agg g subs - g s + g (f s).
Proof.
  intros Hs. rewrite (agg_delete g subs id s Hs).
  assert (alter f id subs = <[id := f s]> (delete id subs)) as ->.
  { apply map_eq. intros j. destruct (decide (id = j)) as [->|Hne].
    - rewrite lookup_alter_eq, lookup_insert_eq, Hs. reflexivity.
    - rewrite lookup_alter_ne, lookup_insert_ne, lookup_delete_ne by done.
      reflexivity. }
  rewrite agg_insert_fresh by apply lookup_delete_eq. lia.
Qed.

Lemma sum_filter_filter {A} (g : A -> Z) (P Q : A -> bool) (l : list A) :
  sumZ (g <$> List.filter Q (List.filter P l))
  = sumZ ((fun s => if P s && Q s then g s else 0) <$> l).
Proof.
  induction l as [|x l IH]; csimpl; [reflexivity|].
  destruct (P x); csimpl; [|exact IH].
  destruct (Q x); csimpl; rewrite IH; reflexivity.
Qed.

Lemma length_filter_sum {A} (P : A -> bool) (l : list A) :
  Z.of_nat (length (List.filter P l))
  = sumZ ((fun s => if P s then 1 else 0) <$> l).
Proof.
  induction l as [|x l IH]; csimpl; [reflexivity|].
  destruct (P x); csimpl; lia.
Qed.

Lemma filter_filter_and {A} (P Q : A -> bool) (l : list A) :
  List.filter Q (List.filter P l) = List.filter (fun s => P s && Q s) l.
Proof.
  induction l as [|x l IH]; simpl; [reflexivity|].
  destruct (P x); simpl; [|exact IH].
  destruct (Q x); simpl; rewrite IH; reflexivity.
Qed.

Lemma savingsOfVerified_agg mid subs :
  savingsOfVerified mid subs = agg (g_savings mid) subs.
Proof. apply sum_filter_filter. Qed.

Lemma finesOfVerified_agg mid subs :
  finesOfVerified mid subs = agg (g_fines mid) subs.
Proof. apply sum_filter_filter. Qed.

Lemma countWithStatus_agg st mid subs :
  countWithStatus st mid subs = agg (g_count st mid) subs.
Proof.
  unfold countWithStatus, withStatus, submissionsOf.
  rewrite filter_filter_and. apply length_filter_sum.
Qed.

Lemma countAll_agg mid subs : countAll mid subs = agg (g_all mid) subs.
Proof. apply length_filter_sum. Qed.

Lemma member_matches_agg mid m subs :
  member_matches mid m subs <->
  totalSavings m = agg (g_savings mid) subs
  /\ totalFines m = agg (g_fines mid) subs
  /\ verifiedCount m = agg (g_count verified mid) subs
  /\ pendingCount m = agg (g_count pending mid) subs
  /\ rejectedCount m = agg (g_count rejected mid) subs
  /\ submissionCount m = agg (g_all mid) subs.
Proof.
  unfold member_matches.
  rewrite savingsOfVerified_agg, finesOfVerified_agg, !countWithStatus_agg,
    countAll_agg.
  reflexivity.
Qed.

(** In a consistent ledger the count equation holds for every member. *)
Lemma g_all_split mid s :
  g_all mid s
  = g_count verified mid s + g_count pending mid s + g_count rejected mid s.
Proof.
  unfold g_all, g_count, linked_with.
  destruct (bool_decide (memberId s = Some mid)); simpl; [|reflexivity].
  destruct (status s); reflexivity.
Qed.

Lemma agg_ext g h subs : (forall s, g s = h s) -> agg g subs = agg h subs.
Proof.
  intros Hgh. unfold agg. f_equal.
  induction (snd <$> map_to_list subs) as [|x l IH]; csimpl; [done|].
  by rewrite Hgh, IH.
Qed.

Lemma agg_plus g h subs :
  agg (fun s => g s + h s) subs = agg g subs + agg h subs.
Proof.
  unfold agg.
  induction (snd <$> map_to_list subs) as [|x l IH]; csimpl in *; lia.
Qed.

Lemma member_matches_counts mid m subs :
  member_matches mid m subs -> counts_add_up m.
Proof.
  rewrite member_matches_agg. intros (_ & _ & Hv & Hp & Hr & Hall).
  unfold counts_add_up. rewrite Hall, Hv, Hp, Hr.
  rewrite (agg_ext _ _ subs (g_all_split mid)), !agg_plus. reflexivity.
Qed.

Lemma member_matches_totals mid m subs :
  member_matches mid m subs ->
  totalSavings m = savingsOfVerified mid subs
  /\ totalFines m = finesOfVerified mid subs.
Proof. intros (Hs & Hf & _). split; assumption. Qed.

(** ** Batches *)

Lemma commit_ok ws fs fs' :
  commit ws fs = Ok fs' ->
  fs' = fold_left apply_write ws fs /\ forallb (write_ok fs) ws = true.
Proof.
  unfold commit. destruct (forallb (write_ok fs) ws); [|discriminate].
  intros [= <-]. split; reflexivity.
Qed.


Lemma write_denied_fold ws fs :
  write_denied (fold_left apply_write ws fs) = write_denied fs.
Proof.
  revert fs. induction ws as [|w ws IH]; intros fs; simpl; [reflexivity|].
  rewrite IH. destruct w; reflexivity.
Qed.

Lemma auditLogs_fold ws fs :
  auditLogs (fold_left apply_write ws fs) = auditLogs fs.
Proof.
  revert fs. induction ws as [|w ws IH]; intros fs; simpl; [reflexivity|].
  rewrite IH. destruct w; reflexivity.
Qed.

(** ** The dual-store operations, case by case *)

Lemma dual_approve_cases cfg year id st :
  match submissions (Dual.firestore st) !! id with
  | None =>
      Dual.approveSubmission cfg year id st = (st, Throw SubmissionNotFound)
  | Some sub =>
      if bool_decide (status sub = pending) then
        let y := Dual.extractYearFromMonth (paymentMonth sub) year in
        let member := dual_member_of st sub in
        match commit (Dual.approveBatch cfg id sub member y)
                (Dual.firestore st) with
        | Ok fs' =>
            Dual.approveSubmission cfg year id st
            = (Dual.mkState (add_auditLog "submission_approved" id fs')
                 (Dual.approveRealtime cfg sub member y (Dual.realtime st)),
               Ok tt)
        | Throw e =>
            Dual.approveSubmission cfg year id st = (st, Throw e)
        end
      else
        Dual.approveSubmission cfg year id st
        = (st, Throw SubmissionAlreadyProcessed)
  end.
Proof.
  unfold Dual.approveSubmission, dual_member_of, bind, get.
  destruct (submissions (Dual.firestore st) !! id) as [sub|]; [|reflexivity].
  destruct (bool_decide (status sub = pending)); [|reflexivity].
  cbv zeta. unfold attempt, Dual.try_firestore.
  destruct (commit _ (Dual.firestore st)) as [fs'|e]; reflexivity.
Qed.

Lemma dual_reject_cases id reason st :
  match submissions (Dual.firestore st) !! id with
  | None => Dual.rejectSubmission id reason st = (st, Throw SubmissionNotFound)
  | Some sub =>
      if bool_decide (status sub = pending) then
        match commit (Dual.rejectBatch id reason sub) (Dual.firestore st) with
        | Ok fs' =>
            Dual.rejectSubmission id reason st
            = (Dual.mkState (add_auditLog "submission_rejected" id fs')
                 (Dual.rejectRealtime sub (Dual.realtime st)),
               Ok tt)
        | Throw e => Dual.rejectSubmission id reason st = (st, Throw e)
        end
      else
        Dual.rejectSubmission id reason st
        = (st, Throw SubmissionAlreadyProcessed)
  end.
Proof.
  unfold Dual.rejectSubmission, bind, get.
  destruct (submissions (Dual.firestore st) !! id) as [sub|]; [|reflexivity].
  destruct (bool_decide (status sub = pending)); [|reflexivity].
  unfold attempt, Dual.try_firestore.
  destruct (commit _ (Dual.firestore st)) as [fs'|e]; reflexivity.
Qed.

(** The guard of the dual-store variant: a submission that is missing or
    not pending is refused, and the whole state (both stores, the audit log)
    is left as it was. *)
Lemma dual_approve_requires_pending cfg year id st :
  (submissions (Dual.firestore st) !! id = None ->
   Dual.approveSubmission cfg year id st = (st, Throw SubmissionNotFound))
  /\ (forall sub, submissions (Dual.firestore st) !! id = Some sub ->
      status sub <> pending ->
      Dual.approveSubmission cfg year id st
      = (st, Throw SubmissionAlreadyProcessed)).
Proof.
  pose proof (dual_approve_cases cfg year id st) as H.
  split.
  - intros Hn. by rewrite Hn in H.
  - intros sub Hs Hne. rewrite Hs in H.
    by rewrite bool_decide_eq_false_2 in H.
Qed.

Lemma dual_reject_requires_pending id reason st :
  (submissions (Dual.firestore st) !! id = None ->
   Dual.rejectSubmission id reason st = (st, Throw SubmissionNotFound))
  /\ (forall sub, submissions (Dual.firestore st) !! id = Some sub ->
      status sub <> pending ->
      Dual.rejectSubmission id reason st
      = (st, Throw SubmissionAlreadyProcessed)).
Proof.
  pose proof (dual_reject_cases id reason st) as H.
  split.
  - intros Hn. by rewrite Hn in H.
  - intros sub Hs Hne. rewrite Hs in H.
    by rewrite bool_decide_eq_false_2 in H.
Qed.

Lemma approveBatch_effect cfg id sub member y fs :
  let fs' := fold_left apply_write (Dual.approveBatch cfg id sub member y) fs in
  submissions fs' = alter (with_status verified) id (submissions fs)
  /\ members fs'
     = match truthy_id (memberId sub), member with
       | Some mid, Some mem =>
           alter (Dual.approveMember cfg sub mem) mid (members fs)
       | _, _ => members fs
       end
  /\ interestPool fs'
     = if JS.or_default (fineAmount sub) 0 >? 0
       then <[Some y := Dual.mergeFine y (JS.or_default (fineAmount sub) 0)
                          (interestPool fs !! Some y)]> (interestPool fs)
       else interestPool fs.
Proof.
  unfold Dual.approveBatch.
  destruct (truthy_id (memberId sub)) as [mid|], member as [mem|],
    (JS.or_default (fineAmount sub) 0 >? 0); simpl; done.
Qed.

Lemma rejectBatch_effect id reason sub fs :
  let fs' := fold_left apply_write (Dual.rejectBatch id reason sub) fs in
  submissions fs'
  = alter (fun s => with_rejectionReason (JS.str_or reason "No reason provided")
                      (with_status rejected s)) id (submissions fs)
  /\ members fs'
     = match truthy_id (memberId sub) with
       | Some mid => alter Dual.rejectMember mid (members fs)
       | None => members fs
       end
  /\ interestPool fs' = interestPool fs.
Proof.
  unfold Dual.rejectBatch.
  destruct (truthy_id (memberId sub)) as [mid|]; simpl; done.
Qed.

Lemma truthy_id_Some o mid : truthy_id o = Some mid -> o = Some mid.
Proof. destruct o as [[|c r]|]; simpl; congruence. Qed.

Lemma truthy_id_idem o : truthy_id (truthy_id o) = truthy_id o.
Proof. destruct o as [[|c r]|]; reflexivity. Qed.

Ltac ledger_arith :=
  repeat match goal with
         | H : _ = agg _ _ |- _ => rewrite <- H; clear H
         end;
  unfold g_savings, g_fines, g_count, g_all, linked_with; simpl;
  repeat match goal with
         | H : memberId _ = _ |- _ => rewrite H
         | H : status _ = _ |- _ => rewrite H
         end;
  repeat case_bool_decide; simplify_eq; simpl;
  rewrite ?or_default_0; try lia.

(** Changing only the status of a pending submission changes the ledger of
    the member it is linked to, and of no other member. *)
Lemma status_change_other g_ mid (sub sub' : Submission) :
  memberId sub <> Some mid -> memberId sub' = memberId sub ->
  g_ ∈ [g_savings mid; g_fines mid; g_count verified mid;
        g_count pending mid; g_count rejected mid; g_all mid] ->
  g_ sub' = g_ sub.
Proof.
  intros Hne Heq Hin.
  repeat (apply elem_of_cons in Hin as [->|Hin]);
    [..|by apply elem_of_nil in Hin];
    unfold g_savings, g_fines, g_count, g_all, linked_with;
    rewrite Heq; rewrite (bool_decide_eq_false_2 _ Hne); reflexivity.
Qed.

Lemma dual_approve_consistent cfg year id st :
  ledger_consistent (Dual.firestore st) ->
  ledger_consistent (Dual.firestore (fst (Dual.approveSubmission cfg year id st))).
Proof.
  intros [Hmem Hlink].
  pose proof (dual_approve_cases cfg year id st) as H.
  destruct (submissions (Dual.firestore st) !! id) as [sub|] eqn:Hsub;
    [|rewrite H; by split].
  case_bool_decide as Hpend; [|rewrite H; by split].
  cbv zeta in H.
  destruct (commit _ (Dual.firestore st)) as [fs'|e] eqn:Hc;
    rewrite H; [|by split].
  apply commit_ok in Hc as [-> _].
  destruct (approveBatch_effect cfg id sub (dual_member_of st sub)
              (Dual.extractYearFromMonth (paymentMonth sub) year)
              (Dual.firestore st)) as (Hs' & Hm' & _).
  pose proof (Hlink _ _ Hsub) as Hl.
  set (fs' := fold_left _ _ _) in *.
  unfold ledger_consistent.
  cbn [fst Dual.firestore add_auditLog members submissions].
  split.
  - intros mid' m'. rewrite Hs', Hm'. unfold dual_member_of.
    destruct (truthy_id (memberId sub)) as [mid|] eqn:Ht.
    + symmetry in Hl.
      destruct (members (Dual.firestore st) !! mid) as [mem|] eqn:Hmid.
      * destruct (decide (mid = mid')) as [<-|Hne].
        -- rewrite lookup_alter_eq, Hmid. intros [= <-].
           apply member_matches_agg.
           apply Hmem, member_matches_agg in Hmid
             as (Hsv & Hfn & Hv & Hp & Hr & Hall).
           rewrite !(agg_alter _ _ _ _ _ Hsub).
           repeat split; ledger_arith.
        -- rewrite lookup_alter_ne by done. intros Hm.
           apply member_matches_agg.
           apply Hmem, member_matches_agg in Hm
             as (Hsv & Hfn & Hv & Hp & Hr & Hall).
           rewrite !(agg_alter _ _ _ _ _ Hsub).
           assert (memberId sub <> Some mid') as Hne' by congruence.
           repeat split; ledger_arith.
      * intros Hm. assert (mid <> mid') as Hne by congruence.
        apply member_matches_agg.
        apply Hmem, member_matches_agg in Hm
          as (Hsv & Hfn & Hv & Hp & Hr & Hall).
        rewrite !(agg_alter _ _ _ _ _ Hsub).
        repeat split; ledger_arith.
    + intros Hm.
      assert (memberId sub <> Some mid') as Hne by congruence.
      apply member_matches_agg.
      apply Hmem, member_matches_agg in Hm
        as (Hsv & Hfn & Hv & Hp & Hr & Hall).
      rewrite !(agg_alter _ _ _ _ _ Hsub).
      repeat split; ledger_arith.
  - intros id' s'. rewrite Hs'.
    destruct (decide (id = id')) as [<-|Hne].
    + rewrite lookup_alter_eq, Hsub. intros [= <-]. simpl. exact Hl.
    + rewrite lookup_alter_ne by done. apply Hlink.
Qed.

Lemma dual_reject_consistent id reason st :
  ledger_consistent (Dual.firestore st) ->
  ledger_consistent (Dual.firestore (fst (Dual.rejectSubmission id reason st))).
Proof.
  intros [Hmem Hlink].
  pose proof (dual_reject_cases id reason st) as H.
  destruct (submissions (Dual.firestore st) !! id) as [sub|] eqn:Hsub;
    [|rewrite H; by split].
  case_bool_decide as Hpend; [|rewrite H; by split].
  destruct (commit _ (Dual.firestore st)) as [fs'|e] eqn:Hc;
    rewrite H; [|by split].
  apply commit_ok in Hc as [-> Hok].
  destruct (rejectBatch_effect id reason sub (Dual.firestore st))
    as (Hs' & Hm' & _).
  pose proof (Hlink _ _ Hsub) as Hl.
  set (fs' := fold_left _ _ _) in *.
  unfold ledger_consistent.
  cbn [fst Dual.firestore add_auditLog members submissions].
  split.
  - intros mid' m'. rewrite Hs', Hm'.
    destruct (truthy_id (memberId sub)) as [mid|] eqn:Ht.
    + symmetry in Hl.
      destruct (decide (mid = mid')) as [<-|Hne].
      * rewrite lookup_alter_eq.
        destruct (members (Dual.firestore st) !! mid) as [mem|] eqn:Hmid;
          [|discriminate].
        intros [= <-]. apply member_matches_agg.
        apply Hmem, member_matches_agg in Hmid
          as (Hsv & Hfn & Hv & Hp & Hr & Hall).
        rewrite !(agg_alter _ _ _ _ _ Hsub).
        repeat split; ledger_arith.
      * rewrite lookup_alter_ne by done. intros Hm.
        apply member_matches_agg.
        apply Hmem, member_matches_agg in Hm
          as (Hsv & Hfn & Hv & Hp & Hr & Hall).
        rewrite !(agg_alter _ _ _ _ _ Hsub).
        assert (memberId sub <> Some mid') as Hne' by congruence.
        repeat split; ledger_arith.
    + intros Hm.
      assert (memberId sub <> Some mid') as Hne by congruence.
      apply member_matches_agg.
      apply Hmem, member_matches_agg in Hm
        as (Hsv & Hfn & Hv & Hp & Hr & Hall).
      rewrite !(agg_alter _ _ _ _ _ Hsub).
      repeat split; ledger_arith.
  - intros id' s'. rewrite Hs'.
    destruct (decide (id = id')) as [<-|Hne].
    + rewrite lookup_alter_eq, Hsub. intros [= <-]. simpl. exact Hl.
    + rewrite lookup_alter_ne by done. apply Hlink.
Qed.

(** ** Queries *)

Lemma first_by_id_elem {A} (l : list (string * A)) x :
  first_by_id l = Some x -> x ∈ l.
Proof.
  revert x. induction l as [|y l IH]; intros x; simpl; [discriminate|].
  destruct (first_by_id l) as [z|] eqn:Hz.
  - destruct (String.ltb (fst y) (fst z)); intros [= <-].
    + apply elem_of_cons. by left.
    + apply elem_of_cons. right. by apply IH.
  - intros [= <-]. apply elem_of_cons. by left.
Qed.

Lemma first_by_id_None {A} (l : list (string * A)) :
  first_by_id l = None -> l = [].
Proof.
  destruct l as [|y l]; simpl; [done|].
  destruct (first_by_id l) as [z|]; [|discriminate].
  destruct (String.ltb (fst y) (fst z)); discriminate.
Qed.

Lemma getMemberByPhone_Some fs ph mid m :
  getMemberByPhone fs ph = Some (mid, m) ->
  members fs !! mid = Some m /\ phone m = JS.strip_spaces_dashes ph.
Proof.
  unfold getMemberByPhone. intros H%first_by_id_elem.
  apply list_elem_of_In, filter_In in H as [Hin Hph].
  apply list_elem_of_In, elem_of_map_to_list in Hin.
  split; [exact Hin|]. simpl in Hph. by apply String.eqb_eq in Hph.
Qed.

Lemma getMemberByPhone_None fs ph mid m :
  getMemberByPhone fs ph = None ->
  members fs !! mid = Some m -> phone m <> JS.strip_spaces_dashes ph.
Proof.
  unfold getMemberByPhone. intros H%first_by_id_None Hm Hph.
  apply elem_of_map_to_list, list_elem_of_In in Hm.
  assert (In (mid, m)
            (List.filter
               (fun p => String.eqb (phone (snd p)) (JS.strip_spaces_dashes ph))
               (map_to_list (members fs)))) as Hin.
  { apply filter_In. split; [exact Hm|]. simpl. by apply String.eqb_eq. }
  rewrite H in Hin. destruct Hin.
Qed.

(** The Firestore side of a submission in the dual-store variant, when no
    write is denied. *)
Lemma dual_submit_firestore cfg docId today d st :
  write_denied (Dual.firestore st) = ∅ ->
  let fs := Dual.firestore st in
  let fs' := Dual.firestore (fst (Dual.submitPOP cfg docId today d st)) in
  let linked :=
    truthy_id (fst <$> getMemberByPhone fs
                         (JS.strip_spaces_dashes (Dual.sd_phone d))) in
  if Dual.amountRejected cfg (Dual.sd_amount d) then fs' = fs
  else
    exists doc,
      status doc = pending /\ memberId doc = linked
      /\ amount doc = default 0 (Dual.sd_amount d)
      /\ submissions fs' = <[docId := doc]> (submissions fs)
      /\ members fs'
         = match linked with
           | Some mid => alter Dual.submitMember mid (members fs)
           | None => members fs
           end
      /\ interestPool fs' = interestPool fs
      /\ write_denied fs' = ∅.
Proof.
  intros Hden. cbv zeta.
  unfold Dual.submitPOP, Dual.generateSubmissionRef, Dual.createAuditLog,
    bind, get, modify, ret, throw.
  cbn [fst snd].
  destruct (Dual.amountRejected cfg (Dual.sd_amount d)); [reflexivity|].
  destruct (getMemberByPhone (Dual.firestore st)
              (JS.strip_spaces_dashes (Dual.sd_phone d)))
    as [[mid m]|] eqn:Hget; cbn [fmap option_fmap option_map fst].
  - destruct (truthy_id (Some mid)) as [mid'|] eqn:Ht.
    + apply truthy_id_Some in Ht as [= <-].
      apply getMemberByPhone_Some in Hget as [Hm _].
      unfold attempt, Dual.try_firestore, updateMember, commit.
      cbn [forallb write_ok Dual.firestore Dual.on_firestore Dual.on_realtime
             set_submissions members write_denied].
      rewrite Hden, Hm.
      rewrite bool_decide_eq_true_2 by eauto.
      rewrite bool_decide_eq_false_2 by set_solver.
      cbn. eexists. repeat split; try reflexivity. exact Hden.
    + cbn. eexists. repeat split; try reflexivity. exact Hden.
  - cbn. eexists. repeat split; try reflexivity. exact Hden.
Qed.

Lemma dual_submit_consistent cfg docId today d st :
  write_denied (Dual.firestore st) = ∅ ->
  submissions (Dual.firestore st) !! docId = None ->
  ledger_consistent (Dual.firestore st) ->
  ledger_consistent
    (Dual.firestore (fst (Dual.submitPOP cfg docId today d st))).
Proof.
  intros Hden Hfresh [Hmem Hlink].
  pose proof (dual_submit_firestore cfg docId today d st Hden) as H.
  cbv zeta in H.
  destruct (Dual.amountRejected cfg (Dual.sd_amount d));
    [rewrite H; by split|].
  destruct H as (doc & Hst & Hmid & _ & Hs' & Hm' & _ & _).
  set (linked := truthy_id _) in *.
  split.
  - intros mid' m'. rewrite Hs', Hm'.
    destruct linked as [mid|] eqn:Hl.
    + destruct (decide (mid = mid')) as [<-|Hne].
      * rewrite lookup_alter_eq.
        destruct (members (Dual.firestore st) !! mid) as [mem|] eqn:Hmem';
          [|discriminate].
        intros [= <-]. apply member_matches_agg.
        apply Hmem, member_matches_agg in Hmem'
          as (Hsv & Hfn & Hv & Hp & Hr & Hall).
        rewrite !(agg_insert_fresh _ _ _ _ Hfresh).
        repeat split; ledger_arith.
      * rewrite lookup_alter_ne by done. intros Hm.
        apply member_matches_agg.
        apply Hmem, member_matches_agg in Hm
          as (Hsv & Hfn & Hv & Hp & Hr & Hall).
        rewrite !(agg_insert_fresh _ _ _ _ Hfresh).
        repeat split; ledger_arith.
    + intros Hm. apply member_matches_agg.
      apply Hmem, member_matches_agg in Hm
        as (Hsv & Hfn & Hv & Hp & Hr & Hall).
      rewrite !(agg_insert_fresh _ _ _ _ Hfresh).
      repeat split; ledger_arith.
  - intros id' s'. rewrite Hs'.
    destruct (decide (docId = id')) as [<-|Hne].
    + rewrite lookup_insert_eq. intros [= <-]. rewrite Hmid.
      apply truthy_id_idem.
    + rewrite lookup_insert_ne by done. apply Hlink.
Qed.

Lemma dual_run_write_denied cfg op st :
  write_denied (Dual.firestore st) = ∅ ->
  write_denied (Dual.firestore (dual_run cfg op st)) = ∅.
Proof.
  intros Hden. destruct op as [docId today d|year id|id reason]; simpl.
  - pose proof (dual_submit_firestore cfg docId today d st Hden) as H.
    cbv zeta in H.
    destruct (Dual.amountRejected cfg (Dual.sd_amount d));
      [by rewrite H|].
    by destruct H as (doc & _ & _ & _ & _ & _ & _ & H).
  - pose proof (dual_approve_cases cfg year id st) as H.
    destruct (submissions (Dual.firestore st) !! id) as [sub|];
      [|by rewrite H].
    case_bool_decide; [|by rewrite H].
    cbv zeta in H.
    destruct (commit _ (Dual.firestore st)) as [fs'|e] eqn:Hc;
      rewrite H; [|done].
    apply commit_ok in Hc as [-> _]. simpl. by rewrite write_denied_fold.
  - pose proof (dual_reject_cases id reason st) as H.
    destruct (submissions (Dual.firestore st) !! id) as [sub|];
      [|by rewrite H].
    case_bool_decide; [|by rewrite H].
    destruct (commit _ (Dual.firestore st)) as [fs'|e] eqn:Hc;
      rewrite H; [|done].
    apply commit_ok in Hc as [-> _]. simpl. by rewrite write_denied_fold.
Qed.

(** The dual-store variant keeps the ledger consistent: from a consistent
    state of a store that denies no write, every sequence of submissions,
    approvals and rejections ends in a consistent state. *)
Lemma dual_reachable_consistent cfg st st' :
  write_denied (Dual.firestore st) = ∅ ->
  ledger_consistent (Dual.firestore st) ->
  rtc (dual_step cfg) st st' ->
  ledger_consistent (Dual.firestore st')
  /\ write_denied (Dual.firestore st') = ∅.
Proof.
  intros Hden Hcons Hsteps.
  induction Hsteps as [st|st st1 st2 Hstep _ IH]; [by split|].
  destruct Hstep as [op st Hen].
  apply IH.
  - by apply dual_run_write_denied.
  - destruct op as [docId today d|year id|id reason]; simpl in *.
    + by apply dual_submit_consistent.
    + by apply dual_approve_consistent.
    + by apply dual_reject_consistent.
Qed.

(** Hence both member invariants hold in every state the dual-store
    variant reaches. *)
Lemma dual_reachable_invariants cfg st st' mid m :
  write_denied (Dual.firestore st) = ∅ ->
  ledger_consistent (Dual.firestore st) ->
  rtc (dual_step cfg) st st' ->
  members (Dual.firestore st') !! mid = Some m ->
  totalSavings m = savingsOfVerified mid (submissions (Dual.firestore st'))
  /\ totalFines m = finesOfVerified mid (submissions (Dual.firestore st'))
  /\ counts_add_up m.
Proof.
  intros Hden Hcons Hsteps Hm.
  destruct (dual_reachable_consistent cfg st st' Hden Hcons Hsteps)
    as [[Hmem _] _].
  specialize (Hmem _ _ Hm).
  destruct (member_matches_totals _ _ _ Hmem) as [Hs Hf].
  repeat split; try assumption.
  by eapply member_matches_counts.
Qed.

(** ** Recalculation (Firestore-only variant) *)

Lemma tally_fold docs a b c d e :
  fold_left Single.tally docs (a, b, c, d, e)
  = (a + sumZ (amount <$> withStatus verified docs),
     b + sumZ (fineAmount <$> withStatus verified docs),
     c + Z.of_nat (length (withStatus verified docs)),
     d + Z.of_nat (length (withStatus pending docs)),
     e + Z.of_nat (length (withStatus rejected docs))).
Proof.
  revert a b c d e. induction docs as [|s docs IH]; intros a b c d e.
  - simpl. repeat match goal with |- (_, _) = (_, _) => f_equal end; lia.
  - cbn [fold_left]. unfold Single.tally at 2. unfold withStatus in *.
    cbn [List.filter].
    destruct (status s) eqn:Hst; rewrite IH; rewrite ?or_default_0;
      repeat case_bool_decide; try congruence; csimpl;
      rewrite ?Nat2Z.inj_succ;
      repeat match goal with |- (_, _) = (_, _) => f_equal end; lia.
Qed.

(** What [recalculateMemberStats] computes, in the words of the ledger. *)
Lemma recalculated_spec cfg mid subs :
  Single.recalculated cfg (submissionsOf mid subs)
  = mkStats (savingsOfVerified mid subs) (finesOfVerified mid subs)
      (countAll mid subs) (countWithStatus verified mid subs)
      (countWithStatus pending mid subs) (countWithStatus rejected mid subs)
      (savingsOfVerified mid subs
       >=? JS.setting (Single.interestEligibilityMin cfg) 10000).
Proof.
  unfold Single.recalculated. rewrite tally_fold. reflexivity.
Qed.

Lemma alter_lookup_insert {A} (f : A -> A) (m : gmap string A) i x :
  m !! i = Some x -> alter f i m = <[i := f x]> m.
Proof.
  intros Hx. apply map_eq. intros j. destruct (decide (i = j)) as [<-|Hne].
  - by rewrite lookup_alter_eq, lookup_insert_eq, Hx.
  - by rewrite lookup_alter_ne, lookup_insert_ne.
Qed.

Lemma with_stats_idem st m : with_stats st (with_stats st m) = with_stats st m.
Proof. reflexivity. Qed.

Lemma single_recalculate_cases cfg mid fs :
  match members fs !! mid with
  | None =>
      Single.recalculateMemberStats cfg mid fs = (fs, Throw MemberNotFound)
  | Some m =>
      let stats :=
        Single.recalculated cfg (submissionsOf mid (submissions fs)) in
      if bool_decide (mid ∈ write_denied fs)
      then Single.recalculateMemberStats cfg mid fs = (fs, Throw StoreFailure)
      else Single.recalculateMemberStats cfg mid fs
           = (set_members (insert mid (with_stats stats m)) fs, Ok stats)
  end.
Proof.
  unfold Single.recalculateMemberStats, bind, get.
  destruct (members fs !! mid) as [m|] eqn:Hm; [|reflexivity].
  cbv zeta.
  unfold attempt, updateMember, commit. cbn [forallb write_ok]. rewrite Hm.
  destruct (bool_decide (mid ∈ write_denied fs)); cbn; [reflexivity|].
  unfold set_members. by rewrite (alter_lookup_insert _ _ _ _ Hm).
Qed.

(** C5. [recalculateMemberStats] computes the totals over the member's
    verified submissions, the three status counts, the number of
    submissions examined and the eligibility flag from the fresh total,
    overwrites exactly these fields of the member record, and a second call
    right after returns the same values and leaves the store as it is. *)
Theorem recalculate_overwrites_and_is_idempotent cfg fs mid m :
  members fs !! mid = Some m ->
  mid ∉ write_denied fs ->
  let subs := submissions fs in
  let stats :=
    mkStats (savingsOfVerified mid subs) (finesOfVerified mid subs)
      (countAll mid subs) (countWithStatus verified mid subs)
      (countWithStatus pending mid subs) (countWithStatus rejected mid subs)
      (savingsOfVerified mid subs
       >=? JS.setting (Single.interestEligibilityMin cfg) 10000) in
  let fs' := set_members (insert mid (with_stats stats m)) fs in
  Single.recalculateMemberStats cfg mid fs = (fs', Ok stats)
  /\ Single.recalculateMemberStats cfg mid fs' = (fs', Ok stats).
Proof.
  intros Hm Hden. cbv zeta. rewrite <- recalculated_spec.
  set (stats := Single.recalculated cfg _).
  pose proof (single_recalculate_cases cfg mid fs) as H1.
  rewrite Hm in H1. cbv zeta in H1.
  rewrite bool_decide_eq_false_2 in H1 by done.
  split; [exact H1|].
  pose proof (single_recalculate_cases cfg mid
                (set_members (insert mid (with_stats stats m)) fs)) as H2.
  cbn [set_members members submissions write_denied] in H2.
  rewrite lookup_insert_eq in H2. cbv zeta in H2.
  rewrite bool_decide_eq_false_2 in H2 by done.
  rewrite H2. fold stats. unfold set_members. cbn.
  by rewrite insert_insert_eq.
Qed.

(** ** Bulk recalculation *)

Lemma insert_sorted_perm x l : Single.insert_sorted x l ≡ₚ x :: l.
Proof.
  induction l as [|y l IH]; simpl; [reflexivity|].
  destruct (Single.member_leb x y); [reflexivity|].
  rewrite IH. apply Permutation_swap.
Qed.

Lemma getMembers_perm fs : Single.getMembers fs ≡ₚ map_to_list (members fs).
Proof.
  unfold Single.getMembers.
  induction (map_to_list (members fs)) as [|x l IH]; simpl; [reflexivity|].
  rewrite insert_sorted_perm. by rewrite IH.
Qed.

Lemma getMembers_NoDup fs : NoDup (fst <$> Single.getMembers fs).
Proof.
  rewrite (fmap_Permutation fst _ _ (getMembers_perm fs)).
  apply NoDup_fst_map_to_list.
Qed.

Lemma getMembers_elem fs mid :
  mid ∈ (fst <$> Single.getMembers fs) <-> is_Some (members fs !! mid).
Proof.
  rewrite (fmap_Permutation fst _ _ (getMembers_perm fs)).
  rewrite list_elem_of_fmap. split.
  - intros [[i m] [-> Hin]]. apply elem_of_map_to_list in Hin. eauto.
  - intros [m Hm]. exists (mid, m). split; [done|].
    by apply elem_of_map_to_list.
Qed.

Lemma getMembers_length fs :
  length (fst <$> Single.getMembers fs) = size (members fs).
Proof.
  rewrite length_fmap, (Permutation_length (getMembers_perm fs)).
  apply length_map_to_list.
Qed.

(** The loop over a prefix of members whose writes all succeed. *)
Lemma recalculateLoop_prefix cfg pre :
  forall rest fs count,
    NoDup pre ->
    (forall id, id ∈ pre ->
       is_Some (members fs !! id) /\ id ∉ write_denied fs) ->
    exists fs',
      Single.recalculateLoop cfg (pre ++ rest) count fs
      = Single.recalculateLoop cfg rest (count + Z.of_nat (length pre)) fs'
      /\ submissions fs' = submissions fs
      /\ interestPool fs' = interestPool fs
      /\ auditLogs fs' = auditLogs fs
      /\ write_denied fs' = write_denied fs
      /\ forall mid,
           members fs' !! mid
           = if bool_decide (mid ∈ pre)
             then with_stats
                    (Single.recalculated cfg
                       (submissionsOf mid (submissions fs)))
                  <$> members fs !! mid
             else members fs !! mid.
Proof.
  induction pre as [|id pre IH]; intros rest fs count Hnd Hpre.
  - exists fs. simpl. rewrite Z.add_0_r. repeat split.
  - apply NoDup_cons in Hnd as [Hnotin Hnd].
    destruct (Hpre id) as [[m Hm] Hden]; [apply elem_of_cons; by left|].
    pose proof (single_recalculate_cases cfg id fs) as Hc.
    rewrite Hm in Hc. cbv zeta in Hc.
    rewrite bool_decide_eq_false_2 in Hc by done.
    set (fs1 := set_members _ fs) in Hc.
    destruct (IH rest fs1 (count + 1)) as (fs' & Hloop & Hs & Hp & Ha & Hw & Hmem).
    { exact Hnd. }
    { intros id' Hin. destruct (Hpre id') as [Hsome Hd];
        [apply elem_of_cons; by right|].
      split; [|exact Hd]. unfold fs1. cbn.
      destruct (decide (id = id')) as [<-|Hne].
      - rewrite lookup_insert_eq. eauto.
      - by rewrite lookup_insert_ne. }
    exists fs'. split; [|repeat split; try (etrans; [eassumption|reflexivity])].
    + cbn [app Single.recalculateLoop length]. unfold bind at 1.
      rewrite Hc, Hloop. f_equal. lia.
    + intros mid. rewrite Hmem. unfold fs1. cbn.
      destruct (decide (id = mid)) as [<-|Hne].
      * rewrite bool_decide_eq_false_2 by done.
        rewrite (bool_decide_eq_true_2 (id ∈ id :: pre))
          by (apply elem_of_cons; by left).
        by rewrite lookup_insert_eq, Hm.
      * rewrite lookup_insert_ne by done.
        case_bool_decide as Hin.
        -- rewrite (bool_decide_eq_true_2 (mid ∈ id :: pre))
             by (apply elem_of_cons; by right).
           reflexivity.
        -- rewrite (bool_decide_eq_false_2 (mid ∈ id :: pre)); [done|].
           intros [?|?]%elem_of_cons; congruence.
Qed.

(** C6 (as amended). [recalculateAllMemberStats] visits the members in the
    order of [getMembers].  When no member write is rejected it returns
    the number of members and every member record holds its recalculated
    values.  When the write of a member is rejected, the error is thrown to
    the caller: the members before it keep their recalculated values, that
    member and all members after it are left as they were, and no
    [stats_recalculated] entry is logged. *)
Theorem recalculate_all_stops_at_first_failure cfg fs :
  let ids := fst <$> Single.getMembers fs in
  let fresh mid :=
    with_stats (Single.recalculated cfg (submissionsOf mid (submissions fs))) in
  ((forall id, id ∈ ids -> id ∉ write_denied fs) ->
   exists fs',
     Single.recalculateAllMemberStats cfg fs
     = (fs', Ok (Z.of_nat (size (members fs))))
     /\ forall mid, members fs' !! mid = fresh mid <$> members fs !! mid)
  /\ (forall pre x post,
        ids = (pre ++ x :: post)%list ->
        (forall id, id ∈ pre -> id ∉ write_denied fs) ->
        x ∈ write_denied fs ->
        exists fs',
          Single.recalculateAllMemberStats cfg fs = (fs', Throw StoreFailure)
          /\ auditLogs fs' = auditLogs fs
          /\ forall mid,
               members fs' !! mid
               = if bool_decide (mid ∈ pre)
                 then fresh mid <$> members fs !! mid
                 else members fs !! mid).
Proof.
  cbv zeta. split.
  - intros Hok.
    destruct (recalculateLoop_prefix cfg (fst <$> Single.getMembers fs) []
                fs 0 (getMembers_NoDup fs))
      as (fs' & Hloop & _ & _ & _ & _ & Hmem).
    { intros id Hin. split; [by apply getMembers_elem|by apply Hok]. }
    exists (add_auditLog "stats_recalculated" "" fs'). split.
    + unfold Single.recalculateAllMemberStats, bind, get.
      rewrite app_nil_r in Hloop. rewrite Hloop. cbn.
      by rewrite getMembers_length.
    + intros mid. cbn. rewrite Hmem.
      case_bool_decide as Hin; [reflexivity|].
      destruct (members fs !! mid) as [m|] eqn:Hm; [|reflexivity].
      exfalso. apply Hin, getMembers_elem. eauto.
  - intros pre x post Hids Hpre Hx.
    pose proof (getMembers_NoDup fs) as Hnd. rewrite Hids in Hnd.
    apply NoDup_app in Hnd as (Hnd & _ & _).
    assert (forall id, id ∈ (pre ++ x :: post)%list ->
            is_Some (members fs !! id))
      as Hall.
    { intros id Hin. apply getMembers_elem. by rewrite Hids. }
    destruct (recalculateLoop_prefix cfg pre (x :: post) fs 0 Hnd)
      as (fs' & Hloop & Hs & _ & Ha & Hw & Hmem).
    { intros id Hin. split; [|by apply Hpre].
      apply Hall, elem_of_app. by left. }
    exists fs'. split; [|split; assumption].
    unfold Single.recalculateAllMemberStats, bind, get.
    rewrite Hids, Hloop. cbn [Single.recalculateLoop]. unfold bind.
    assert (is_Some (members fs' !! x)) as [m Hm].
    { rewrite Hmem. destruct (Hall x) as [m Hm];
        [apply elem_of_app; right; apply elem_of_cons; by left|].
      rewrite Hm. destruct (bool_decide (x ∈ pre)); simpl; eauto. }
    pose proof (single_recalculate_cases cfg x fs') as Hc.
    rewrite Hm in Hc. cbv zeta in Hc. rewrite Hw in Hc.
    rewrite bool_decide_eq_true_2 in Hc by done.
    by rewrite Hc.
Qed.

Lemma recalculate_all_witness :
  (exists fs',
     Single.recalculateAllMemberStats cfg0 (fs_two_members ∅) = (fs', Ok 2)
     /\ (totalSavings <$> members fs' !! "m2") = Some 300)
  /\ (exists fs',
        Single.recalculateAllMemberStats cfg0 (fs_two_members {[ "m2" ]})
        = (fs', Throw StoreFailure)
        /\ members fs' !! "m2" = Some bob).
Proof.
  split.
  - destruct (proj1 (recalculate_all_stops_at_first_failure cfg0
                       (fs_two_members ∅)))
      as (fs' & Hrun & Hmem).
    { intros id _. set_solver. }
    exists fs'. split; [exact Hrun|]. rewrite Hmem. reflexivity.
  - destruct (proj2 (recalculate_all_stops_at_first_failure cfg0
                       (fs_two_members {[ "m2" ]})) ["m1"] "m2" [])
      as (fs' & Hrun & _ & Hmem).
    + vm_compute. reflexivity.
    + intros id ->%list_elem_of_singleton. vm_compute. intros H.
      discriminate H.
    + set_solver.
    + exists fs'. split; [exact Hrun|]. rewrite Hmem. reflexivity.
Defined.

(** C6, the claim as stated fails: with two members, the write of the first
    one (Alice, in name order) rejected, the bulk run throws to its caller
    and Bob's drifted record is never recalculated. *)
Lemma recalculate_all_aborts_on_failure :
  snd (Single.recalculateAllMemberStats cfg0 (fs_two_members {[ "m1" ]}))
  = Throw StoreFailure
  /\ members (fst (Single.recalculateAllMemberStats cfg0
                     (fs_two_members {[ "m1" ]}))) !! "m2"
     = Some bob
  /\ (totalSavings <$>
        members (fst (Single.recalculateMemberStats cfg0 "m2"
                        (fs_two_members {[ "m1" ]}))) !! "m2")
     = Some 300.
Proof. vm_compute. repeat split; reflexivity. Qed.

Lemma fs_alice_consistent : ledger_consistent fs_alice.
Proof.
  split.
  - intros mid m Hm. unfold fs_alice in Hm. cbn [members] in Hm.
    apply lookup_singleton_Some in Hm as [<- <-].
    vm_compute. repeat split; reflexivity.
  - intros id s Hs. vm_compute in Hs. discriminate.
Qed.

(** C1. In the Firestore-only variant [approveSubmission] has no status
    check: approving the submission a second time succeeds and adds the
    amount and the fine again, so the member's [totalSavings] (600) and
    [totalFines] (100) no longer equal the sums over the verified
    submissions (300 and 50). *)
Theorem single_second_approval_double_counts :
  totals_match fs_alice
  /\ totals_match fs_approved
  /\ snd (Single.approveSubmission cfg0 2026 "s1" (Some "m1") fs_approved)
     = Ok tt
  /\ (totalSavings <$> members fs_approved_twice !! "m1") = Some 600
  /\ savingsOfVerified "m1" (submissions fs_approved_twice) = 300
  /\ (totalFines <$> members fs_approved_twice !! "m1") = Some 100
  /\ finesOfVerified "m1" (submissions fs_approved_twice) = 50
  /\ ~ totals_match fs_approved_twice.
Proof.
  split; [|split; [|repeat split; try (vm_compute; reflexivity)]].
  - intros mid m Hm. by apply member_matches_totals, fs_alice_consistent.
  - intros mid m.
    assert (members fs_approved = {[ "m1" := alice_approved_once ]}) as ->
      by (vm_compute; reflexivity).
    intros [<- <-]%lookup_singleton_Some.
    vm_compute. split; reflexivity.
  - intros H. destruct (H "m1" alice_approved_twice) as [Hs _].
    + vm_compute. reflexivity.
    + vm_compute in Hs. discriminate.
Qed.

(** C2. In the Firestore-only variant neither [approveSubmission] nor
    [rejectSubmission] looks at the status: on the already verified
    submission both succeed; the second approval changes the member record
    and the interest pool, and the rejection turns the verified submission
    into a rejected one and moves the member's counters. *)
Theorem single_processed_submission_is_processed_again :
  (status <$> submissions fs_approved !! "s1") = Some verified
  /\ snd (Single.approveSubmission cfg0 2026 "s1" (Some "m1") fs_approved)
     = Ok tt
  /\ (statsOfMember <$> members fs_approved !! "m1")
     = Some (mkStats 300 50 1 1 0 0 false)
  /\ (statsOfMember <$> members fs_approved_twice !! "m1")
     = Some (mkStats 600 100 2 2 (-1) 0 false)
  /\ (pool_totalFines <$> interestPool fs_approved !! Some 2024) = Some 50
  /\ (pool_totalFines <$> interestPool fs_approved_twice !! Some 2024)
     = Some 100
  /\ snd (Single.rejectSubmission "s1" "duplicate" fs_approved) = Ok tt
  /\ (status <$> submissions fs_rejected_after_approval !! "s1")
     = Some rejected
  /\ (statsOfMember <$> members fs_rejected_after_approval !! "m1")
     = Some (mkStats 300 50 1 1 (-1) 1 false).
Proof. vm_compute. repeat split; reflexivity. Qed.

(** C3. In the Firestore-only variant [submitPOP] increments only
    [pendingCount]: right after Alice's first submission her record has
    [submissionCount = 0] and [pendingCount = 1], so the count equation
    fails; [recalculateMemberStats] on the same store writes
    [submissionCount = 1]. *)
Theorem single_submit_breaks_count_equation :
  counts_add_up alice
  /\ (statsOfMember <$> members fs_submitted !! "m1")
     = Some (mkStats 0 0 0 0 1 0 false)
  /\ (exists m, members fs_submitted !! "m1" = Some m /\ ~ counts_add_up m)
  /\ snd (Single.recalculateMemberStats cfg0 "m1" fs_submitted)
     = Ok (mkStats 0 0 1 0 1 0 false).
Proof.
  split; [reflexivity|]. split; [vm_compute; reflexivity|].
  split; [|vm_compute; reflexivity].
  eexists. split; [vm_compute; reflexivity|].
  unfold counts_add_up. simpl. lia.
Qed.

(** ** The Firestore-only operations, case by case *)

Lemma single_approve_cases cfg year id marg fs :
  match submissions fs !! id with
  | None =>
      Single.approveSubmission cfg year id marg fs
      = (fs, Throw SubmissionNotFound)
  | Some sub =>
      match commit (Single.approveBatch cfg year id marg sub
                      (single_member_of fs marg)) fs with
      | Ok fs' =>
          Single.approveSubmission cfg year id marg fs
          = (add_auditLog "submission_approved" id fs', Ok tt)
      | Throw e => Single.approveSubmission cfg year id marg fs = (fs, Throw e)
      end
  end.
Proof.
  unfold Single.approveSubmission, single_member_of, bind, get.
  destruct (submissions fs !! id) as [sub|]; [|reflexivity].
  cbv zeta. unfold attempt.
  destruct (commit _ fs) as [fs'|e]; reflexivity.
Qed.

Lemma single_reject_cases id reason fs :
  match submissions fs !! id with
  | None => Single.rejectSubmission id reason fs = (fs, Throw SubmissionNotFound)
  | Some sub =>
      match commit (Single.rejectBatch id reason sub) fs with
      | Ok fs' =>
          Single.rejectSubmission id reason fs
          = (add_auditLog "submission_rejected" id fs', Ok tt)
      | Throw e => Single.rejectSubmission id reason fs = (fs, Throw e)
      end
  end.
Proof.
  unfold Single.rejectSubmission, bind, get.
  destruct (submissions fs !! id) as [sub|]; [|reflexivity].
  unfold attempt. destruct (commit _ fs) as [fs'|e]; reflexivity.
Qed.

Lemma single_approveBatch_effect cfg year id marg sub member fs :
  let fs' :=
    fold_left apply_write (Single.approveBatch cfg year id marg sub member) fs in
  let y := Single.paymentYear (paymentMonth sub) year in
  submissions fs'
  = alter (fun s => with_memberId marg (with_status verified s)) id
      (submissions fs)
  /\ interestPool fs'
     = if fineAmount sub >? 0
       then <[y := Single.mergeFine y (fineAmount sub) (interestPool fs !! y)]>
              (interestPool fs)
       else interestPool fs.
Proof.
  unfold Single.approveBatch.
  destruct (truthy_id marg) as [mid|], (fineAmount sub >? 0); simpl; done.
Qed.

Lemma single_rejectBatch_effect id reason sub fs :
  let fs' := fold_left apply_write (Single.rejectBatch id reason sub) fs in
  submissions fs'
  = alter (fun s => with_rejectionReason reason (with_status rejected s)) id
      (submissions fs)
  /\ interestPool fs' = interestPool fs.
Proof.
  unfold Single.rejectBatch.
  destruct (truthy_id (memberId sub)) as [mid|]; simpl; done.
Qed.

(** In the Firestore-only variant the status of the submission plays no
    part in an approval: two stores that differ only in that status give
    the same verdict. *)
Lemma single_approve_ignores_status cfg year id marg fs sub st :
  submissions fs !! id = Some sub ->
  snd (Single.approveSubmission cfg year id marg
         (set_submissions (insert id (with_status st sub)) fs))
  = snd (Single.approveSubmission cfg year id marg fs).
Proof.
  intros Hsub.
  pose proof (single_approve_cases cfg year id marg fs) as H1.
  pose proof (single_approve_cases cfg year id marg
                (set_submissions (insert id (with_status st sub)) fs)) as H2.
  rewrite Hsub in H1. cbn [set_submissions submissions] in H2.
  rewrite lookup_insert_eq in H2.
  unfold commit in *.
  assert (forallb (write_ok (set_submissions
                               (insert id (with_status st sub)) fs))
            (Single.approveBatch cfg year id marg (with_status st sub)
               (single_member_of
                  (set_submissions (insert id (with_status st sub)) fs) marg))
          = forallb (write_ok fs)
              (Single.approveBatch cfg year id marg sub
                 (single_member_of fs marg))) as Heq.
  { unfold Single.approveBatch, single_member_of.
    cbn [set_submissions members fineAmount with_status].
    destruct (truthy_id marg) as [mid|], (fineAmount sub >? 0);
      cbn [app forallb write_ok set_submissions submissions members
             write_denied];
      rewrite lookup_insert_eq, Hsub; reflexivity. }
  rewrite Heq in H2.
  destruct (forallb (write_ok fs) _); rewrite H1, H2; reflexivity.
Qed.

(** ** The year of a payment-month label *)

Lemma match_4digits_step a rest :
  JS.match_4digits (String a rest)
  = match digits4 (String a rest) with
    | Some v => Some v
    | None => JS.match_4digits rest
    end.
Proof.
  destruct rest as [|b [|c [|d r]]]; try reflexivity.
  cbn [JS.match_4digits digits4].
  destruct (JS.is_digit a && JS.is_digit b && JS.is_digit c && JS.is_digit d);
    reflexivity.
Qed.

Lemma drop_chars_empty n : drop_chars n EmptyString = EmptyString.
Proof. destruct n; reflexivity. Qed.

Lemma match_4digits_Some_iff label y :
  JS.match_4digits label = Some y <-> leftmost_year label y.
Proof.
  revert y. induction label as [|a rest IH]; intros y.
  - split; [discriminate|]. intros (n & Hn & _).
    rewrite drop_chars_empty in Hn. discriminate.
  - rewrite match_4digits_step.
    destruct (digits4 (String a rest)) as [v|] eqn:Hhead.
    + split.
      * intros [= <-]. exists 0%nat. split; [exact Hhead|]. intros k Hk. lia.
      * intros (n & Hn & Hmin). destruct n as [|n].
        -- cbn [drop_chars] in Hn. congruence.
        -- specialize (Hmin 0%nat ltac:(lia)). cbn [drop_chars] in Hmin. congruence.
    + rewrite IH. split.
      * intros (n & Hn & Hmin). exists (S n). split; [exact Hn|].
        intros [|k] Hk; [exact Hhead|]. apply Hmin. lia.
      * intros (n & Hn & Hmin). destruct n as [|n].
        -- cbn [drop_chars] in Hn. congruence.
        -- exists n. split; [exact Hn|]. intros k Hk.
           apply (Hmin (S k)). lia.
Qed.

Lemma match_4digits_None_iff label :
  JS.match_4digits label = None <-> no_year label.
Proof.
  induction label as [|a rest IH].
  - split; [|reflexivity]. intros _ n. by rewrite drop_chars_empty.
  - rewrite match_4digits_step.
    destruct (digits4 (String a rest)) as [v|] eqn:Hhead.
    + split; [discriminate|]. intros H. specialize (H 0%nat). cbn [drop_chars] in H.
      congruence.
    + rewrite IH. split.
      * intros H [|n]; [exact Hhead|]. apply H.
      * intros H n. apply (H (S n)).
Qed.

(** [extractYearFromMonth] returns the leftmost four-digit run of the label
    whatever the current year is, and the current year exactly when the
    label holds no such run. *)
Lemma extractYearFromMonth_spec label currentYear :
  (forall y, leftmost_year label y ->
     Dual.extractYearFromMonth label currentYear = y)
  /\ (no_year label -> Dual.extractYearFromMonth label currentYear = currentYear).
Proof.
  unfold Dual.extractYearFromMonth. split.
  - intros y Hy%match_4digits_Some_iff.
    destruct label; [discriminate|]. by rewrite Hy.
  - intros Hn%match_4digits_None_iff.
    destruct label; [reflexivity|]. by rewrite Hn.
Qed.

Lemma is_digit_cases a :
  JS.is_digit a = true ->
  a ∈ ["0"; "1"; "2"; "3"; "4"; "5"; "6"; "7"; "8"; "9"]%char.
Proof.
  destruct a as [[] [] [] [] [] [] [] []]; intros H;
    try (vm_compute in H; discriminate H);
    repeat (first [apply list_elem_of_here | apply list_elem_of_further]).
Qed.

Lemma parseInt_digits_head a b rest :
  JS.is_digit a = true -> JS.is_digit b = true ->
  JS.parseInt (String a (String b rest))
  = JS.read_digits (10 * (10 * 0 + JS.digit_val a) + JS.digit_val b) true rest.
Proof.
  intros Ha Hb.
  apply is_digit_cases in Ha. apply is_digit_cases in Hb.
  repeat (apply elem_of_cons in Ha as [->|Ha]);
    [..|by apply elem_of_nil in Ha];
    repeat (apply elem_of_cons in Hb as [->|Hb]);
    try (by apply elem_of_nil in Hb);
    reflexivity.
Qed.

Lemma parseInt_4digits a b c d :
  JS.is_digit a = true -> JS.is_digit b = true ->
  JS.is_digit c = true -> JS.is_digit d = true ->
  JS.parseInt (String a (String b (String c (String d EmptyString))))
  = Some (1000 * JS.digit_val a + 100 * JS.digit_val b
          + 10 * JS.digit_val c + JS.digit_val d).
Proof.
  intros Ha Hb Hc Hd. rewrite parseInt_digits_head by assumption.
  cbn [JS.read_digits]. rewrite Hc, Hd. f_equal. lia.
Qed.

Lemma split_space_no_space m :
  all_chars is_not_space m = true -> JS.split_space m = [m].
Proof.
  induction m as [|c m IH]; [reflexivity|].
  cbn [all_chars JS.split_space]. intros [Hc Hm]%andb_prop.
  unfold is_not_space in Hc. apply negb_true_iff in Hc. rewrite Hc.
  by rewrite (IH Hm).
Qed.

Lemma split_space_app m r :
  all_chars is_not_space m = true ->
  JS.split_space (m +:+ String " " r) = m :: JS.split_space r.
Proof.
  induction m as [|c m IH]; [reflexivity|].
  cbn [all_chars]. intros [Hc Hm]%andb_prop.
  unfold is_not_space in Hc. apply negb_true_iff in Hc.
  change (String c m +:+ String " " r) with (String c (m +:+ String " " r)).
  cbn [JS.split_space]. rewrite Hc. by rewrite (IH Hm).
Qed.

Lemma digit_is_not_space a : JS.is_digit a = true -> is_not_space a = true.
Proof.
  intros Ha%is_digit_cases.
  repeat (apply elem_of_cons in Ha as [->|Ha]);
    [..|by apply elem_of_nil in Ha]; reflexivity.
Qed.

(** On the labels the submission form builds, the Firestore-only variant
    reads the label's year. *)
Lemma single_paymentYear_form_label month a b c d currentYear :
  all_chars is_not_space month = true ->
  JS.is_digit a = true -> JS.is_digit b = true ->
  JS.is_digit c = true -> JS.is_digit d = true ->
  Single.paymentYear (form_label month a b c d) currentYear
  = Some (1000 * JS.digit_val a + 100 * JS.digit_val b
          + 10 * JS.digit_val c + JS.digit_val d).
Proof.
  intros Hm Ha Hb Hc Hd. unfold Single.paymentYear, form_label.
  rewrite split_space_app by done.
  rewrite split_space_no_space.
  - by apply parseInt_4digits.
  - cbn [all_chars]. by rewrite !digit_is_not_space.
Qed.

(** A label without a space sends the Firestore-only variant to the
    current year, whatever digits it holds. *)
Lemma single_paymentYear_one_part label currentYear :
  all_chars is_not_space label = true ->
  Single.paymentYear label currentYear = Some currentYear.
Proof.
  intros H. unfold Single.paymentYear. by rewrite split_space_no_space.
Qed.

(** So does the dual-store variant, when the month name holds no digit. *)
Lemma dual_extractYear_form_label month a b c d currentYear :
  all_chars is_not_digit month = true ->
  JS.is_digit a = true -> JS.is_digit b = true ->
  JS.is_digit c = true -> JS.is_digit d = true ->
  Dual.extractYearFromMonth (form_label month a b c d) currentYear
  = 1000 * JS.digit_val a + 100 * JS.digit_val b
    + 10 * JS.digit_val c + JS.digit_val d.
Proof.
  intros Hm Ha Hb Hc Hd.
  assert (JS.match_4digits (form_label month a b c d)
          = Some (1000 * JS.digit_val a + 100 * JS.digit_val b
                  + 10 * JS.digit_val c + JS.digit_val d)) as Hmatch.
  { unfold form_label. induction month as [|m month IH].
    - change (EmptyString +:+ ?s) with s.
      rewrite match_4digits_step. cbn [digits4].
      change (JS.is_digit " ") with false. cbn [andb].
      rewrite match_4digits_step. cbn [digits4].
      by rewrite Ha, Hb, Hc, Hd.
    - cbn [all_chars] in Hm. apply andb_prop in Hm as [Hm0 Hm].
      unfold is_not_digit in Hm0. apply negb_true_iff in Hm0.
      change (String m month +:+ ?s) with (String m (month +:+ s)).
      rewrite match_4digits_step.
      assert (digits4 (String m (month +:+ String " "
                (String a (String b (String c (String d EmptyString))))))
              = None) as ->.
      { unfold digits4. rewrite Hm0.
        destruct (month +:+ _) as [|? [|? [|? ?]]]; reflexivity. }
      by apply IH. }
  unfold Dual.extractYearFromMonth. rewrite Hmatch.
  unfold form_label. destruct month; reflexivity.
Qed.

(** ** Routing of fines to the interest pool *)

Lemma poolFines_merge_dual p y fine :
  poolFines (<[Some y := Dual.mergeFine y fine (p !! Some y)]> p) (Some y)
  = poolFines p (Some y) + fine.
Proof.
  unfold poolFines. rewrite lookup_insert_eq.
  destruct (p !! Some y); simpl; lia.
Qed.

Lemma poolFines_merge_single p y fine :
  poolFines (<[y := Single.mergeFine y fine (p !! y)]> p) y
  = poolFines p y + fine.
Proof.
  unfold poolFines. rewrite lookup_insert_eq.
  destruct (p !! y); simpl; lia.
Qed.

(** C7 (as amended). An approval of a submission with a fine adds the fine
    to exactly one pool document and leaves the others alone.  In the
    dual-store variant its key is the leftmost four-digit run of the label,
    whatever the current year, and the current year exactly when the label
    holds no such run.  In the Firestore-only variant its key is the
    integer read from the second space-separated part of the label: the
    label's year for every label the submission form builds, and the
    current year for a label without a space. *)
Theorem fine_goes_to_the_pool_of_the_label_year :
  (forall cfg currentYear id st sub,
     submissions (Dual.firestore st) !! id = Some sub ->
     fineAmount sub > 0 ->
     snd (Dual.approveSubmission cfg currentYear id st) = Ok tt ->
     let y := Dual.extractYearFromMonth (paymentMonth sub) currentYear in
     let p := interestPool (Dual.firestore st) in
     let p' :=
       interestPool
         (Dual.firestore (fst (Dual.approveSubmission cfg currentYear id st))) in
     poolFines p' (Some y) = poolFines p (Some y) + fineAmount sub
     /\ (forall key, key <> Some y -> p' !! key = p !! key)
     /\ (forall yl, leftmost_year (paymentMonth sub) yl -> y = yl)
     /\ (no_year (paymentMonth sub) -> y = currentYear))
  /\ (forall cfg currentYear id memberIdArg fs sub,
        submissions fs !! id = Some sub ->
        fineAmount sub > 0 ->
        snd (Single.approveSubmission cfg currentYear id memberIdArg fs)
        = Ok tt ->
        let y := Single.paymentYear (paymentMonth sub) currentYear in
        let p := interestPool fs in
        let p' :=
          interestPool
            (fst (Single.approveSubmission cfg currentYear id memberIdArg fs)) in
        poolFines p' y = poolFines p y + fineAmount sub
        /\ (forall key, key <> y -> p' !! key = p !! key)
        /\ (forall month a b c d,
              paymentMonth sub = form_label month a b c d ->
              all_chars is_not_space month = true ->
              JS.is_digit a = true -> JS.is_digit b = true ->
              JS.is_digit c = true -> JS.is_digit d = true ->
              y = Some (1000 * JS.digit_val a + 100 * JS.digit_val b
                        + 10 * JS.digit_val c + JS.digit_val d))
        /\ (all_chars is_not_space (paymentMonth sub) = true ->
            y = Some currentYear)).
Proof.
  split.
  - intros cfg currentYear id st sub Hsub Hfine Hok. cbv zeta.
    pose proof (dual_approve_cases cfg currentYear id st) as H.
    rewrite Hsub in H.
    destruct (bool_decide (status sub = pending));
      [|rewrite H in Hok; discriminate].
    cbv zeta in H.
    destruct (commit _ (Dual.firestore st)) as [fs'|e] eqn:Hc;
      [|rewrite H in Hok; discriminate].
    apply commit_ok in Hc as [-> _]. rewrite H.
    destruct (approveBatch_effect cfg id sub (dual_member_of st sub)
                (Dual.extractYearFromMonth (paymentMonth sub) currentYear)
                (Dual.firestore st)) as (_ & _ & Hp).
    cbn [fst Dual.firestore add_auditLog interestPool].
    rewrite Hp, or_default_0.
    destruct (Z.gtb_spec (fineAmount sub) 0) as [_|?]; [|lia].
    split; [apply poolFines_merge_dual|].
    split; [intros key Hne; by rewrite lookup_insert_ne|].
    apply extractYearFromMonth_spec.
  - intros cfg currentYear id marg fs sub Hsub Hfine Hok. cbv zeta.
    pose proof (single_approve_cases cfg currentYear id marg fs) as H.
    rewrite Hsub in H.
    destruct (commit _ fs) as [fs'|e] eqn:Hc;
      [|rewrite H in Hok; discriminate].
    apply commit_ok in Hc as [-> _]. rewrite H.
    destruct (single_approveBatch_effect cfg currentYear id marg sub
                (single_member_of fs marg) fs) as (_ & Hp).
    cbn [fst add_auditLog interestPool].
    rewrite Hp.
    destruct (Z.gtb_spec (fineAmount sub) 0) as [_|?]; [|lia].
    split; [apply poolFines_merge_single|].
    split; [intros key Hne; by rewrite lookup_insert_ne|].
    split.
    + intros month a b c d -> Hm Ha Hb Hc Hd.
      by apply single_paymentYear_form_label.
    + apply single_paymentYear_one_part.
Qed.

Lemma fine_goes_to_the_pool_witness :
  poolFines (interestPool (Dual.firestore dual_approved)) (Some 2024)
  = poolFines (interestPool (Dual.firestore dual_submitted)) (Some 2024) + 50
  /\ poolFines (interestPool fs_approved) (Some 2024)
     = poolFines (interestPool fs_submitted) (Some 2024) + 50.
Proof.
  split.
  - apply (proj1 fine_goes_to_the_pool_of_the_label_year
             Dual.DB_SETTINGS 2026 "s1" dual_submitted
             (mkSubmission "TRF-10001" "Alice" "0821234567" 300 50 true
                "December 2024" pending (Some "m1") None)).
    + vm_compute. reflexivity.
    + reflexivity.
    + vm_compute. reflexivity.
  - apply (proj2 fine_goes_to_the_pool_of_the_label_year
             cfg0 2026 "s1" (Some "m1") fs_submitted
             (mkSubmission "TRF-ABC234" "Alice" "0821234567" 300 50 true
                "December 2024" pending (Some "m1") None)).
    + vm_compute. reflexivity.
    + reflexivity.
    + vm_compute. reflexivity.
Defined.

(** C7, the claim as stated fails: in the Firestore-only variant the label
    ["2023-12"] holds the four-digit token 2023, yet an approval made in
    2026 files the fine under 2026, the year of the approval. *)
Lemma single_fine_filed_under_approval_year :
  JS.match_4digits "2023-12" = Some 2023
  /\ (fineAmount <$> submissions fs_iso_approved !! "s1") = Some 50
  /\ interestPool fs_iso_approved !! Some 2023 = None
  /\ (pool_totalFines <$> interestPool fs_iso_approved !! Some 2026)
     = Some 50.
Proof. vm_compute. repeat split; reflexivity. Qed.

(** ** The member link of a submission *)

Lemma lookup_alter_memberId (f : Submission -> Submission)
    (subs : gmap string Submission) id id' :
  (forall s, memberId (f s) = memberId s) ->
  memberId <$> alter f id subs !! id' = memberId <$> subs !! id'.
Proof.
  intros Hf. destruct (decide (id = id')) as [<-|Hne].
  - rewrite lookup_alter_eq. destruct (subs !! id); simpl; [|done].
    by rewrite Hf.
  - by rewrite lookup_alter_ne.
Qed.

(** C8 (as amended). [rejectSubmission] never changes the [memberId] of a
    submission, in either variant, and neither does [approveSubmission] of
    the dual-store variant.  [approveSubmission] of the Firestore-only
    variant stores its [memberId] argument ([null] when omitted) in the
    approved submission and leaves the link of every other submission
    alone. *)
Theorem memberId_after_approve_and_reject :
  (forall cfg currentYear id st id',
     memberId <$>
       submissions
         (Dual.firestore (fst (Dual.approveSubmission cfg currentYear id st)))
         !! id'
     = memberId <$> submissions (Dual.firestore st) !! id')
  /\ (forall id reason st id',
        memberId <$>
          submissions (Dual.firestore (fst (Dual.rejectSubmission id reason st)))
            !! id'
        = memberId <$> submissions (Dual.firestore st) !! id')
  /\ (forall id reason fs id',
        memberId <$>
          submissions (fst (Single.rejectSubmission id reason fs)) !! id'
        = memberId <$> submissions fs !! id')
  /\ (forall cfg currentYear id memberIdArg fs,
        match Single.approveSubmission cfg currentYear id memberIdArg fs with
        | (fs', Ok _) =>
            memberId <$> submissions fs' !! id = Some memberIdArg
            /\ forall id', id' <> id ->
                 memberId <$> submissions fs' !! id'
                 = memberId <$> submissions fs !! id'
        | (fs', Throw _) => fs' = fs
        end).
Proof.
  repeat split.
  - intros cfg currentYear id st id'.
    pose proof (dual_approve_cases cfg currentYear id st) as H.
    destruct (submissions (Dual.firestore st) !! id) as [sub|];
      [|by rewrite H].
    case_bool_decide; [|by rewrite H]. cbv zeta in H.
    destruct (commit _ (Dual.firestore st)) as [fs'|e] eqn:Hc;
      rewrite H; [|done].
    apply commit_ok in Hc as [-> _].
    destruct (approveBatch_effect cfg id sub (dual_member_of st sub)
                (Dual.extractYearFromMonth (paymentMonth sub) currentYear)
                (Dual.firestore st)) as (Hs & _).
    cbn [fst Dual.firestore add_auditLog submissions]. rewrite Hs.
    by apply lookup_alter_memberId.
  - intros id reason st id'.
    pose proof (dual_reject_cases id reason st) as H.
    destruct (submissions (Dual.firestore st) !! id) as [sub|];
      [|by rewrite H].
    case_bool_decide; [|by rewrite H].
    destruct (commit _ (Dual.firestore st)) as [fs'|e] eqn:Hc;
      rewrite H; [|done].
    apply commit_ok in Hc as [-> _].
    destruct (rejectBatch_effect id reason sub (Dual.firestore st))
      as (Hs & _).
    cbn [fst Dual.firestore add_auditLog submissions]. rewrite Hs.
    by apply lookup_alter_memberId.
  - intros id reason fs id'.
    pose proof (single_reject_cases id reason fs) as H.
    destruct (submissions fs !! id) as [sub|]; [|by rewrite H].
    destruct (commit _ fs) as [fs'|e] eqn:Hc; rewrite H; [|done].
    apply commit_ok in Hc as [-> _].
    destruct (single_rejectBatch_effect id reason sub fs) as (Hs & _).
    cbn [fst add_auditLog submissions]. rewrite Hs.
    by apply lookup_alter_memberId.
  - intros cfg currentYear id marg fs.
    pose proof (single_approve_cases cfg currentYear id marg fs) as H.
    destruct (submissions fs !! id) as [sub|] eqn:Hsub; [|by rewrite H].
    destruct (commit _ fs) as [fs'|e] eqn:Hc; rewrite H; [|done].
    apply commit_ok in Hc as [-> _].
    destruct (single_approveBatch_effect cfg currentYear id marg sub
                (single_member_of fs marg) fs) as (Hs & _).
    cbn [add_auditLog submissions]. rewrite Hs. split.
    + by rewrite lookup_alter_eq, Hsub.
    + intros id' Hne. by rewrite lookup_alter_ne.
Qed.

(** C8, the claim as stated fails: Alice's submission is linked to her at
    submit time; approving it in the Firestore-only variant without the
    [memberId] argument succeeds and erases the link. *)
Lemma single_approve_erases_member_link :
  (memberId <$> submissions fs_submitted !! "s1") = Some (Some "m1")
  /\ snd (Single.approveSubmission cfg0 2026 "s1" None fs_submitted) = Ok tt
  /\ (memberId <$> submissions fs_approved_without_member !! "s1")
     = Some None.
Proof. vm_compute. repeat split; reflexivity. Qed.

(** ** One-time codes *)

Lemma verifyOTP_cases now ph code codes key :
  SMSPortal.formatPhoneNumber ph = Some key ->
  match codes !! key with
  | None => SMSPortal.verifyOTP now ph code codes = (codes, false)
  | Some r =>
      (SMSPortal.used r = true ->
       SMSPortal.verifyOTP now ph code codes = (codes, false))
      /\ (SMSPortal.used r = false -> now > SMSPortal.expiresAt r ->
          SMSPortal.verifyOTP now ph code codes = (delete key codes, false))
      /\ (SMSPortal.used r = false -> SMSPortal.attempts r >= 3 ->
          SMSPortal.verifyOTP now ph code codes = (delete key codes, false))
      /\ (SMSPortal.used r = false -> now <= SMSPortal.expiresAt r ->
          SMSPortal.attempts r < 3 -> SMSPortal.otp r <> code ->
          SMSPortal.verifyOTP now ph code codes
          = (<[key := with_attempt r]> codes, false))
      /\ (SMSPortal.used r = false -> now <= SMSPortal.expiresAt r ->
          SMSPortal.attempts r < 3 -> SMSPortal.otp r = code ->
          SMSPortal.verifyOTP now ph code codes
          = (<[key := with_used r]> codes, true))
  end.
Proof.
  intros Hkey. unfold SMSPortal.verifyOTP. rewrite Hkey.
  destruct (codes !! key) as [r|]; [|reflexivity].
  destruct (SMSPortal.used r) eqn:Hused.
  { repeat split; intros; congruence. }
  destruct (Z.gtb_spec now (SMSPortal.expiresAt r)) as [Hexp|Hexp].
  { repeat split; intros; try reflexivity; lia. }
  destruct (Z.geb_spec (SMSPortal.attempts r) 3) as [Hatt|Hatt].
  { repeat split; intros; try reflexivity; lia. }
  destruct (String.eqb_spec (SMSPortal.otp r) code) as [Heq|Hne]; simpl.
  - repeat split; intros; try reflexivity; try lia; try congruence.
  - repeat split; intros; try reflexivity; try lia; try congruence.
    unfold with_attempt. by rewrite Hused.
Qed.

Lemma verifyOTP_absent now ph code codes key :
  SMSPortal.formatPhoneNumber ph = Some key -> codes !! key = None ->
  SMSPortal.verifyOTP now ph code codes = (codes, false).
Proof.
  intros Hkey Hnone. pose proof (verifyOTP_cases now ph code codes key Hkey) as H.
  by rewrite Hnone in H.
Qed.









(** The older module keeps no attempt counter and deletes nothing: after
    three wrong guesses the right code still verifies. *)
Lemma legacy_fourth_attempt_succeeds :
  snd (SMSLegacy.verifyOTP 1 "0821234567" "111111"
         (SMSLegacy.storeOTP 0 "123456" "0821234567" ∅)) = false
  /\ legacy_after_three_wrong !! "+27821234567"
     = Some (SMSLegacy.mkOtpDoc "123456" 600000 false)
  /\ snd (SMSLegacy.verifyOTP 4 "0821234567" "123456" legacy_after_three_wrong)
     = true.
Proof. vm_compute. repeat split; reflexivity. Qed.

(** ** Credentials *)

Lemma registerMember_ok sha256 docId d st st' r :
  Dual.registerMember sha256 docId d st = (st', Ok r) ->
  exists m,
    members (Dual.firestore st') = <[docId := m]> (members (Dual.firestore st))
    /\ passwordHash m = Some (Dual.hashPassword sha256 (Dual.rd_password d))
    /\ phone m = JS.strip_spaces_dashes (Dual.rd_phone d).
Proof.
  unfold Dual.registerMember, bind, get.
  destruct (getMemberByPhone _ _); [discriminate|].
  destruct (getMemberByIdNumber _ _); [discriminate|].
  unfold Dual.generateMemberRef, Dual.createAuditLog, bind, get, modify, ret.
  cbn. intros [= <- <-]. cbn. eexists. repeat split.
Qed.

Lemma verifyMemberLogin_result sha256 ph password st :
  snd (Dual.verifyMemberLogin sha256 ph password st)
  = Ok match getMemberByPhone (Dual.firestore st) ph with
       | Some (mid, m) =>
           if bool_decide
                (passwordHash m = Some (Dual.hashPassword sha256 password))
           then Some (mid, m)
           else None
       | None => None
       end.
Proof.
  unfold Dual.verifyMemberLogin, bind, get.
  destruct (getMemberByPhone _ _) as [[mid m]|]; [|reflexivity].
  destruct (bool_decide _); reflexivity.
Qed.

(** C10. [hashPassword] is the hexadecimal digest of the password and of
    nothing else; two members registered with the same password hold the
    same [passwordHash]; [verifyMemberLogin] returns a member exactly when
    [getMemberByPhone] finds it and its stored [passwordHash] equals
    [hashPassword] of the given password. *)
Theorem password_hash_is_unsalted_and_decides_login :
  forall sha256 : string -> string,
    (forall password,
       Dual.hashPassword sha256 password = JS.hex_string (sha256 password))
    /\ (forall id1 id2 d1 d2 st st1 st2 r1 r2,
          Dual.registerMember sha256 id1 d1 st = (st1, Ok r1) ->
          Dual.registerMember sha256 id2 d2 st1 = (st2, Ok r2) ->
          id1 <> id2 ->
          Dual.rd_password d1 = Dual.rd_password d2 ->
          exists m1 m2,
            members (Dual.firestore st2) !! id1 = Some m1
            /\ members (Dual.firestore st2) !! id2 = Some m2
            /\ passwordHash m1 = passwordHash m2
            /\ passwordHash m1
               = Some (Dual.hashPassword sha256 (Dual.rd_password d1)))
    /\ (forall ph password st mid m,
          snd (Dual.verifyMemberLogin sha256 ph password st)
          = Ok (Some (mid, m))
          <-> getMemberByPhone (Dual.firestore st) ph = Some (mid, m)
              /\ passwordHash m
                 = Some (Dual.hashPassword sha256 password))
    /\ (forall ph password st,
          exists found,
            snd (Dual.verifyMemberLogin sha256 ph password st) = Ok found).
Proof.
  intros sha256. split; [reflexivity|]. split; [|split].
  - intros id1 id2 d1 d2 st st1 st2 r1 r2 H1 H2 Hne Hpw.
    apply registerMember_ok in H1 as (m1 & Hm1 & Hh1 & _).
    apply registerMember_ok in H2 as (m2 & Hm2 & Hh2 & _).
    exists m1, m2. rewrite Hm2, Hm1.
    rewrite lookup_insert_ne, !lookup_insert_eq by done.
    repeat split; congruence.
  - intros ph password st mid m. rewrite verifyMemberLogin_result.
    destruct (getMemberByPhone _ _) as [[mid' m']|].
    + case_bool_decide as Hh; split.
      * intros [= <- <-]. by split.
      * intros [[= <- <-] _]. reflexivity.
      * discriminate.
      * intros [[= <- <-] Hh']. contradiction.
    + split; [discriminate|]. intros [? _]. discriminate.
  - intros ph password st. rewrite verifyMemberLogin_result. eauto.
Qed.

Lemma password_hash_witness :
  exists m1 m2,
    members (Dual.firestore dual_carol_dave) !! "m7" = Some m1
    /\ members (Dual.firestore dual_carol_dave) !! "m8" = Some m2
    /\ passwordHash m1 = passwordHash m2
    /\ passwordHash m1
       = Some (Dual.hashPassword stand_in_digest "secret-1").
Proof.
  apply (proj1 (proj2 (password_hash_is_unsalted_and_decides_login
                         stand_in_digest))
           "m7" "m8" carol dave dual_alice dual_carol dual_carol_dave
           ("m7", "TRF-M1001") ("m8", "TRF-M1002")).
  - vm_compute. reflexivity.
  - vm_compute. reflexivity.
  - discriminate.
  - reflexivity.
Defined.

(** The Firestore-only variant hashes the password followed by one fixed
    string, the same for every member. *)
Lemma single_hashPassword_fixed_salt sha256 password :
  Single.hashPassword sha256 password
  = Dual.hashPassword sha256 (password +:+ "tshikota_salt_2024").
Proof. reflexivity. Qed.

(** ** The amount of a submission *)

Lemma single_submit_cases cfg docId ref d fs :
  let doc := Single.pendingSubmission cfg ref d (single_linked fs d) in
  match single_linked fs d with
  | Some mid =>
      if bool_decide (mid ∈ write_denied fs)
      then Single.submitPOP cfg docId ref d fs
           = (set_submissions (insert docId doc) fs, Throw StoreFailure)
      else Single.submitPOP cfg docId ref d fs
           = (set_members (alter Single.submitMember mid)
                (set_submissions (insert docId doc) fs), Ok ref)
  | None =>
      Single.submitPOP cfg docId ref d fs
      = (set_submissions (insert docId doc) fs, Ok ref)
  end.
Proof.
  unfold Single.submitPOP, single_linked, bind, get, modify, ret.
  cbn [fst snd].
  destruct (getMemberByPhone fs (JS.strip_spaces_dashes (Single.sd_phone d)))
    as [[mid m]|] eqn:Hget; cbn [fmap option_fmap option_map fst].
  - destruct (truthy_id (Some mid)) as [mid'|] eqn:Ht.
    + apply truthy_id_Some in Ht as [= <-].
      apply getMemberByPhone_Some in Hget as [Hm _].
      unfold attempt, updateMember, commit.
      cbn [forallb write_ok set_submissions members write_denied].
      rewrite Hm.
      destruct (bool_decide (mid ∈ write_denied fs)); reflexivity.
    + reflexivity.
  - reflexivity.
Qed.

(** In the Firestore-only variant, a submission by a registered member
    whose counters added up leaves them not adding up. *)
Lemma single_submit_always_breaks_counts cfg docId ref d fs mid m :
  single_linked fs d = Some mid -> mid ∉ write_denied fs ->
  members fs !! mid = Some m -> counts_add_up m ->
  exists m',
    members (fst (Single.submitPOP cfg docId ref d fs)) !! mid = Some m'
    /\ ~ counts_add_up m'.
Proof.
  intros Hl Hden Hm Hok.
  pose proof (single_submit_cases cfg docId ref d fs) as H. cbv zeta in H.
  rewrite Hl in H. rewrite bool_decide_eq_false_2 in H by done.
  rewrite H. cbn. rewrite lookup_alter_eq, Hm. eexists. split; [reflexivity|].
  unfold counts_add_up in *. simpl. lia.
Qed.




(** ** Further examples *)

Lemma recalculate_witness :
  Single.recalculateMemberStats cfg0 "m1" fs_approved_twice
  = (fs_recalculated, Ok (mkStats 300 50 1 1 0 0 false))
  /\ Single.recalculateMemberStats cfg0 "m1" fs_recalculated
     = (fs_recalculated, Ok (mkStats 300 50 1 1 0 0 false)).
Proof.
  apply (recalculate_overwrites_and_is_idempotent cfg0 fs_approved_twice
           "m1" alice_approved_twice).
  - vm_compute. reflexivity.
  - vm_compute. intros H. discriminate H.
Defined.

Lemma memberId_witness :
  memberId <$> submissions (Dual.firestore dual_approved) !! "s1"
  = memberId <$> submissions (Dual.firestore dual_submitted) !! "s1".
Proof.
  apply (proj1 memberId_after_approve_and_reject
           Dual.DB_SETTINGS 2026 "s1" dual_submitted "s1").
Defined.

(** The dual-store variant on the same scenario: the second approval and a
    late rejection are refused and change nothing. *)
Lemma dual_second_approval_is_refused :
  (statsOfMember <$> members (Dual.firestore dual_approved) !! "m1")
  = Some (mkStats 300 50 1 1 0 0 false)
  /\ Dual.approveSubmission Dual.DB_SETTINGS 2026 "s1" dual_approved
     = (dual_approved, Throw SubmissionAlreadyProcessed)
  /\ Dual.rejectSubmission "s1" "duplicate" dual_approved
     = (dual_approved, Throw SubmissionAlreadyProcessed).
Proof.
  split; [vm_compute; reflexivity|].
  assert (submissions (Dual.firestore dual_approved) !! "s1"
          = Some (mkSubmission "TRF-10001" "Alice" "0821234567" 300 50 true
                    "December 2024" verified (Some "m1") None)) as Hs
    by (vm_compute; reflexivity).
  split.
  - by apply (proj2 (dual_approve_requires_pending Dual.DB_SETTINGS 2026 "s1"
                       dual_approved) _ Hs).
  - by apply (proj2 (dual_reject_requires_pending "s1" "duplicate"
                       dual_approved) _ Hs).
Qed.

(** ** The dual-store variant upholds the ledger invariants *)

(** In the dual-store variant, over a store that denies no write, every
    state reached from a consistent one by submissions, approvals and
    rejections gives every member a [totalSavings] and a [totalFines] equal
    to the sums over that member's verified submissions, and counters that
    add up. *)
Theorem dual_ledger_invariants_hold cfg st st' mid m :
  write_denied (Dual.firestore st) = ∅ ->
  ledger_consistent (Dual.firestore st) ->
  rtc (dual_step cfg) st st' ->
  members (Dual.firestore st') !! mid = Some m ->
  totalSavings m = savingsOfVerified mid (submissions (Dual.firestore st'))
  /\ totalFines m = finesOfVerified mid (submissions (Dual.firestore st'))
  /\ submissionCount m = verifiedCount m + pendingCount m + rejectedCount m.
Proof. apply dual_reachable_invariants. Qed.

Lemma dual_ledger_invariants_witness :
  let m := default alice (members (Dual.firestore dual_approved) !! "m1") in
  totalSavings m
  = savingsOfVerified "m1" (submissions (Dual.firestore dual_approved))
  /\ totalFines m
     = finesOfVerified "m1" (submissions (Dual.firestore dual_approved))
  /\ submissionCount m = verifiedCount m + pendingCount m + rejectedCount m.
Proof.
  apply (dual_ledger_invariants_hold Dual.DB_SETTINGS dual_alice dual_approved
           "m1").
  - reflexivity.
  - exact fs_alice_consistent.
  - apply (rtc_l _ _ dual_submitted).
    + apply (dual_step_intro Dual.DB_SETTINGS (DSubmit "s1" 2 dual_pop300)).
      reflexivity.
    + apply (rtc_l _ _ dual_approved); [|apply rtc_refl].
      apply (dual_step_intro Dual.DB_SETTINGS (DApprove 2026 "s1")).
      exact I.
  - vm_compute. reflexivity.
Defined.

(** In the dual-store variant [approveSubmission] and [rejectSubmission]
    refuse a submission that is missing or whose status is not [pending],
    and leave both stores and the audit log exactly as they were. *)
Theorem dual_guard_refuses_processed_submissions :
  forall cfg currentYear id reason st,
    match submissions (Dual.firestore st) !! id with
    | None =>
        Dual.approveSubmission cfg currentYear id st
        = (st, Throw SubmissionNotFound)
        /\ Dual.rejectSubmission id reason st = (st, Throw SubmissionNotFound)
    | Some sub =>
        if bool_decide (status sub = pending) then True
        else
          Dual.approveSubmission cfg currentYear id st
          = (st, Throw SubmissionAlreadyProcessed)
          /\ Dual.rejectSubmission id reason st
             = (st, Throw SubmissionAlreadyProcessed)
    end.
Proof.
  intros cfg currentYear id reason st.
  destruct (submissions (Dual.firestore st) !! id) as [sub|] eqn:Hs.
  - case_bool_decide as Hp; [exact I|]. split.
    + by apply (proj2 (dual_approve_requires_pending cfg currentYear id st) sub).
    + by apply (proj2 (dual_reject_requires_pending id reason st) sub).
  - split.
    + by apply (proj1 (dual_approve_requires_pending cfg currentYear id st)).
    + by apply (proj1 (dual_reject_requires_pending id reason st)).
Qed.

(** ** Identity numbers *)

Lemma is_digit_val c : JS.is_digit c = true -> 0 <= JS.digit_val c <= 9.
Proof.
  unfold JS.is_digit, JS.digit_val. intros H.
  apply andb_true_iff in H as [H1 H2].
  apply Nat.leb_le in H1, H2. lia.
Qed.

Lemma digit_val_inj a b : JS.digit_val a = JS.digit_val b -> a = b.
Proof.
  unfold JS.digit_val. intros H.
  rewrite <- (ascii_nat_embedding a), <- (ascii_nat_embedding b).
  f_equal. lia.
Qed.

Lemma luhnLoop_sum i s sum :
  SAFinance.luhnLoop i s sum = sum + SAFinance.luhnLoop i s 0.
Proof.
  revert i sum. induction s as [|c r IH]; intros i sum; simpl; [lia|].
  rewrite (IH _ (SAFinance.luhnStep i c sum)), (IH _ (SAFinance.luhnStep i c 0)).
  unfold SAFinance.luhnStep. lia.
Qed.

Lemma luhnStep_bounds i c :
  JS.is_digit c = true -> 0 <= SAFinance.luhnStep i c 0 <= 9.
Proof.
  intros H%is_digit_val. unfold SAFinance.luhnStep.
  destruct (Nat.odd i); [|lia].
  destruct (Z.gtb_spec (JS.digit_val c * 2) 9); lia.
Qed.

Lemma luhnLoop_nonneg s : forall i,
  all_chars JS.is_digit s = true -> 0 <= SAFinance.luhnLoop i s 0.
Proof.
  induction s as [|c r IH]; intros i H; simpl; [lia|].
  apply andb_true_iff in H as [Hc Hr].
  rewrite luhnLoop_sum. pose proof (luhnStep_bounds i c Hc).
  pose proof (IH (S i) Hr). lia.
Qed.

Lemma luhnLoop_app a : forall i b sum,
  SAFinance.luhnLoop i (a +:+ b) sum
  = SAFinance.luhnLoop (i + String.length a) b (SAFinance.luhnLoop i a sum).
Proof.
  induction a as [|c r IH]; intros i b sum; simpl.
  - by rewrite Nat.add_0_r.
  - rewrite IH. f_equal. lia.
Qed.

Lemma set_char_length n c s : String.length (set_char n c s) = String.length s.
Proof.
  revert n. induction s as [|a r IH]; intros [|n]; simpl; auto.
Qed.

Lemma set_char_all_chars p n c s :
  p c = true -> all_chars p s = true -> all_chars p (set_char n c s) = true.
Proof.
  intros Hc. revert n. induction s as [|a r IH]; intros [|n]; simpl; auto.
  - intros [_ ?]%andb_true_iff. by rewrite Hc.
  - intros [-> ?]%andb_true_iff. simpl. auto.
Qed.

Lemma luhnLoop_set_char s : forall i n c,
  (n < String.length s)%nat ->
  SAFinance.luhnLoop i (set_char n c s) 0
  = SAFinance.luhnLoop i s 0
    - SAFinance.luhnStep (i + n) (char_at n s) 0
    + SAFinance.luhnStep (i + n) c 0.
Proof.
  induction s as [|a r IH]; intros i [|n] c Hn; simpl in *; try lia.
  - rewrite Nat.add_0_r. rewrite (luhnLoop_sum _ _ (SAFinance.luhnStep i c 0)).
    rewrite (luhnLoop_sum _ _ (SAFinance.luhnStep i a 0)).
    change (char_at 0 (String a r)) with a. lia.
  - rewrite (luhnLoop_sum _ (set_char n c r)), (luhnLoop_sum _ r).
    rewrite IH by lia. change (char_at (S n) (String a r)) with (char_at n r).
    replace (S i + n)%nat with (i + S n)%nat by lia. lia.
Qed.

Lemma char_at_digit n s :
  (n < String.length s)%nat -> all_chars JS.is_digit s = true ->
  JS.is_digit (char_at n s) = true.
Proof.
  revert n. induction s as [|a r IH]; intros [|n] Hn H; simpl in *; try lia.
  - by apply andb_true_iff in H as [? _].
  - apply andb_true_iff in H as [_ ?]. apply IH; [lia|done].
Qed.

(** The weight of a digit is a one-to-one function of the digit. *)
Lemma luhnStep_inj i a b :
  JS.is_digit a = true -> JS.is_digit b = true ->
  SAFinance.luhnStep i a 0 = SAFinance.luhnStep i b 0 -> a = b.
Proof.
  intros Ha%is_digit_val Hb%is_digit_val H. apply digit_val_inj.
  unfold SAFinance.luhnStep in H. destruct (Nat.odd i); [|lia].
  destruct (Z.gtb_spec (JS.digit_val a * 2) 9),
    (Z.gtb_spec (JS.digit_val b * 2) 9); lia.
Qed.

Lemma validateSAID_iff s :
  SAFinance.validateSAID s = true
  <-> String.length s = 13%nat /\ all_chars JS.is_digit s = true
      /\ SAFinance.luhnLoop 0 s 0 mod 10 = 0.
Proof.
  unfold SAFinance.validateSAID, SAFinance.is13Digits.
  destruct (Nat.eqb_spec (String.length s) 13) as [Hl|Hl]; simpl.
  - destruct (all_chars JS.is_digit s) eqn:Hd.
    + rewrite Z.rem_mod_nonneg by (auto using luhnLoop_nonneg; lia).
      rewrite Z.eqb_eq. tauto.
    + split; [discriminate|]. intros (_ & ? & _). discriminate.
  - split; [discriminate|]. tauto.
Qed.

(** [validateSAID] detects every single-digit error: in an identity number
    it accepts, replacing the digit at any of the thirteen places by a
    different digit gives a number it rejects. *)
Theorem validateSAID_detects_single_digit_error idNumber n c :
  SAFinance.validateSAID idNumber = true ->
  (n < 13)%nat -> JS.is_digit c = true -> c <> char_at n idNumber ->
  SAFinance.validateSAID (set_char n c idNumber) = false.
Proof.
  intros (Hl & Hd & Hs)%validateSAID_iff Hn Hc Hne.
  apply not_true_is_false. intros (_ & _ & Hs')%validateSAID_iff.
  rewrite luhnLoop_set_char in Hs' by lia.
  pose proof (char_at_digit n idNumber ltac:(lia) Hd) as Ho.
  pose proof (luhnStep_bounds (0 + n) c Hc).
  pose proof (luhnStep_bounds (0 + n) _ Ho).
  apply Hne, (luhnStep_inj (0 + n)); [done..|].
  Z.to_euclidean_division_equations. lia.
Qed.

Lemma validateSAID_single_digit_witness :
  SAFinance.validateSAID (set_char 12 "3" "8001015009087") = false.
Proof.
  apply validateSAID_detects_single_digit_error.
  - vm_compute. reflexivity.
  - lia.
  - reflexivity.
  - vm_compute. discriminate.
Defined.

Lemma string_length_app a b :
  String.length (a +:+ b) = (String.length a + String.length b)%nat.
Proof. induction a as [|c a IH]; simpl; [done|]. by rewrite IH. Qed.

Lemma all_chars_app p a b :
  all_chars p (a +:+ b) = all_chars p a && all_chars p b.
Proof.
  induction a as [|c a IH]; simpl; [done|]. by rewrite IH, andb_assoc.
Qed.

Lemma digit_of_value k :
  0 <= k <= 9 ->
  JS.is_digit (ascii_of_nat (48 + Z.to_nat k)) = true
  /\ JS.digit_val (ascii_of_nat (48 + Z.to_nat k)) = k.
Proof.
  intros Hk. unfold JS.is_digit, JS.digit_val.
  rewrite nat_ascii_embedding by lia. split; [|lia].
  apply andb_true_iff. split; apply Nat.leb_le; lia.
Qed.

(** Twelve digits fix the thirteenth: exactly one character at the end makes
    [validateSAID] accept, and that character is a digit. *)
Theorem validateSAID_check_digit first12 :
  String.length first12 = 12%nat -> all_chars JS.is_digit first12 = true ->
  exists c,
    JS.is_digit c = true
    /\ SAFinance.validateSAID (first12 +:+ String c "") = true
    /\ forall c',
         SAFinance.validateSAID (first12 +:+ String c' "") = true -> c' = c.
Proof.
  intros Hl Hd.
  assert (forall c, SAFinance.validateSAID (first12 +:+ String c "") = true
          <-> JS.is_digit c = true
              /\ (SAFinance.luhnLoop 0 first12 0 + JS.digit_val c) mod 10 = 0)
    as Hiff.
  { intros c. rewrite validateSAID_iff, string_length_app, all_chars_app, Hl, Hd.
    rewrite luhnLoop_app, Hl. cbn [all_chars SAFinance.luhnLoop String.length].
    unfold SAFinance.luhnStep. cbn [Nat.add Nat.odd Nat.even].
    rewrite andb_true_r. simpl andb. tauto. }
  set (total := SAFinance.luhnLoop 0 first12 0) in *.
  set (k := (10 - total mod 10) mod 10).
  assert (0 <= k <= 9) as Hk by (unfold k; Z.to_euclidean_division_equations; lia).
  destruct (digit_of_value k Hk) as [Hc Hv].
  exists (ascii_of_nat (48 + Z.to_nat k)). split; [done|]. split.
  - apply Hiff. split; [done|]. rewrite Hv. unfold k.
    Z.to_euclidean_division_equations. lia.
  - intros c' [Hc' Hs']%Hiff. apply digit_val_inj. rewrite Hv.
    apply is_digit_val in Hc'. unfold k in *.
    Z.to_euclidean_division_equations. lia.
Qed.

Lemma validateSAID_check_digit_witness :
  exists c,
    JS.is_digit c = true
    /\ SAFinance.validateSAID ("800101500908" +:+ String c "") = true
    /\ forall c',
         SAFinance.validateSAID ("800101500908" +:+ String c' "") = true ->
         c' = c.
Proof.
  apply validateSAID_check_digit; reflexivity.
Defined.

Lemma swap_chars_length n s : String.length (swap_chars n s) = String.length s.
Proof.
  revert n. induction s as [|a r IH]; intros [|n]; try reflexivity.
  - by destruct r.
  - specialize (IH n). destruct r; [by destruct n|].
    change (swap_chars (S n) (String a (String a0 r)))
      with (String a (swap_chars n (String a0 r))).
    cbn [String.length] in *. by rewrite IH.
Qed.

Lemma swap_chars_all_chars p n s :
  all_chars p (swap_chars n s) = all_chars p s.
Proof.
  revert n. induction s as [|a r IH]; intros [|n]; try reflexivity.
  - destruct r as [|b r]; simpl; [done|].
    rewrite !andb_assoc. f_equal. apply andb_comm.
  - destruct r as [|b r]; [by destruct n|].
    change (all_chars p (String a (swap_chars n (String b r)))
            = p a && all_chars p (String b r)).
    cbn [all_chars]. f_equal. apply (IH n).
Qed.

Lemma luhnLoop_cons i a r :
  SAFinance.luhnLoop i (String a r) 0
  = SAFinance.luhnStep i a 0 + SAFinance.luhnLoop (S i) r 0.
Proof. simpl. apply luhnLoop_sum. Qed.

Lemma luhnLoop_swap_chars s : forall i n,
  (S n < String.length s)%nat ->
  SAFinance.luhnLoop i (swap_chars n s) 0
  = SAFinance.luhnLoop i s 0
    - SAFinance.luhnStep (i + n) (char_at n s) 0
    - SAFinance.luhnStep (i + S n) (char_at (S n) s) 0
    + SAFinance.luhnStep (i + n) (char_at (S n) s) 0
    + SAFinance.luhnStep (i + S n) (char_at n s) 0.
Proof.
  induction s as [|a r IH]; intros i [|n] Hn; simpl in Hn; try lia.
  - destruct r as [|b r]; simpl in Hn; [lia|].
    change (char_at 0 (String a (String b r))) with a.
    change (char_at 1 (String a (String b r))) with b.
    cbn [swap_chars SAFinance.luhnLoop].
    rewrite Nat.add_0_r, Nat.add_1_r.
    rewrite !(luhnLoop_sum _ r (SAFinance.luhnStep _ _ _)).
    unfold SAFinance.luhnStep. lia.
  - destruct r as [|b r]; simpl in Hn; [lia|].
    change (swap_chars (S n) (String a (String b r)))
      with (String a (swap_chars n (String b r))).
    change (char_at (S n) (String a (String b r)))
      with (char_at n (String b r)).
    change (char_at (S (S n)) (String a (String b r)))
      with (char_at (S n) (String b r)).
    rewrite (luhnLoop_cons i a (swap_chars n (String b r))).
    rewrite (luhnLoop_cons i a (String b r)).
    rewrite IH by (simpl; lia).
    replace (S i + n)%nat with (i + S n)%nat by lia.
    replace (S i + S n)%nat with (i + S (S n))%nat by lia. lia.
Qed.

Lemma ascii_eqb_digit_val a b :
  Ascii.eqb a b = (JS.digit_val a =? JS.digit_val b).
Proof.
  destruct (Ascii.eqb_spec a b) as [->|Hne].
  - by rewrite Z.eqb_refl.
  - symmetry. apply Z.eqb_neq. intros H. by apply Hne, digit_val_inj.
Qed.

(** Exchanging two neighbouring digits of an identity number [validateSAID]
    accepts is detected, except when the two digits are equal or are 0 and
    9: those exchanges, and only those, are accepted again. *)
Theorem validateSAID_adjacent_transposition idNumber n :
  SAFinance.validateSAID idNumber = true -> (n < 12)%nat ->
  let a := char_at n idNumber in
  let b := char_at (S n) idNumber in
  SAFinance.validateSAID (swap_chars n idNumber)
  = Ascii.eqb a b
    || (Ascii.eqb a "0" && Ascii.eqb b "9")
    || (Ascii.eqb a "9" && Ascii.eqb b "0").
Proof.
  intros (Hl & Hd & Hs)%validateSAID_iff Hn a b.
  pose proof (char_at_digit n idNumber ltac:(lia) Hd) as Ha%is_digit_val.
  pose proof (char_at_digit (S n) idNumber ltac:(lia) Hd) as Hb%is_digit_val.
  fold a in Ha. fold b in Hb.
  rewrite !ascii_eqb_digit_val.
  change (JS.digit_val "0") with 0. change (JS.digit_val "9") with 9.
  assert (SAFinance.validateSAID (swap_chars n idNumber) = true
          <-> SAFinance.luhnLoop 0 (swap_chars n idNumber) 0 mod 10 = 0)
    as Hiff.
  { rewrite validateSAID_iff, swap_chars_length, swap_chars_all_chars. tauto. }
  rewrite luhnLoop_swap_chars in Hiff by lia.
  fold a b in Hiff. cbn [Nat.add] in Hiff.
  unfold SAFinance.luhnStep in Hiff. rewrite Nat.odd_succ in Hiff.
  rewrite <- Nat.negb_odd in Hiff.
  set (x := JS.digit_val a) in *. set (y := JS.digit_val b) in *.
  set (total := SAFinance.luhnLoop 0 idNumber 0) in *.
  apply eq_true_iff_eq. rewrite Hiff. clear Hiff.
  rewrite !orb_true_iff, !andb_true_iff, !Z.eqb_eq.
  destruct (Nat.odd n); cbn [negb];
    destruct (Z.gtb_spec (x * 2) 9), (Z.gtb_spec (y * 2) 9);
    Z.to_euclidean_division_equations; lia.
Qed.

Lemma validateSAID_adjacent_transposition_witness :
  SAFinance.validateSAID (swap_chars 0 "8001015009087") = false.
Proof.
  apply (validateSAID_adjacent_transposition "8001015009087" 0).
  - vm_compute. reflexivity.
  - lia.
Defined.

Ltac explode_string s Hl :=
  repeat match type of Hl with
  | String.length s = S _ =>
      destruct s as [|? s]; [discriminate Hl|];
      cbn [String.length] in Hl; apply Nat.succ_inj in Hl
  | String.length s = O => destruct s; [clear Hl|discriminate Hl]
  end.

Ltac split_digits H :=
  cbn [all_chars] in H;
  repeat match type of H with
  | _ && _ = true => let H1 := fresh "Hd" in apply andb_true_iff in H as [H1 H]
  end.

(** [getGenderFromID] is decided by the seventh digit alone: male from 5 up,
    female below.  It answers for every string of thirteen digits, whether
    [validateSAID] accepts it or not, and [unknown] for anything else. *)
Theorem getGenderFromID_seventh_digit idNumber :
  SAFinance.getGenderFromID idNumber
  = if SAFinance.is13Digits idNumber
    then if 5 <=? JS.digit_val (char_at 6 idNumber) then "male" else "female"
    else "unknown".
Proof.
  unfold SAFinance.getGenderFromID.
  destruct (SAFinance.is13Digits idNumber) eqn:H; [|reflexivity].
  apply andb_true_iff in H as [Hl Hd]. apply Nat.eqb_eq in Hl.
  explode_string idNumber Hl. split_digits Hd.
  cbn [String.substring]. rewrite parseInt_4digits by assumption.
  change (char_at 6 _) with a5.
  repeat match goal with
  | H : JS.is_digit _ = true |- _ => apply is_digit_val in H
  end.
  destruct (Z.geb_spec (1000 * JS.digit_val a5 + 100 * JS.digit_val a6
                        + 10 * JS.digit_val a7 + JS.digit_val a8) 5000),
    (Z.leb_spec 5 (JS.digit_val a5)); try reflexivity; lia.
Qed.

Lemma parseInt_2digits a b :
  JS.is_digit a = true -> JS.is_digit b = true ->
  JS.parseInt (String a (String b EmptyString))
  = Some (10 * JS.digit_val a + JS.digit_val b).
Proof.
  intros Ha Hb. rewrite parseInt_digits_head by assumption.
  cbn [JS.read_digits]. f_equal; lia.
Qed.

(** While the current year lies in 2000..2099, [getDOBFromID] returns a date
    exactly for the numbers [validateSAID] accepts.  The year ends in the
    first two digits and lies within the hundred years up to the current
    one; the month handed to [Date] is digits 3-4 less one and the day is
    digits 5-6, neither checked against the calendar. *)
Theorem getDOBFromID_birth_year currentYear idNumber :
  2000 <= currentYear <= 2099 ->
  match SAFinance.getDOBFromID currentYear idNumber with
  | Some (fullYear, month, day) =>
      SAFinance.validateSAID idNumber = true
      /\ currentYear - 99 <= fullYear <= currentYear
      /\ fullYear mod 100
         = 10 * JS.digit_val (char_at 0 idNumber)
           + JS.digit_val (char_at 1 idNumber)
      /\ month
         = 10 * JS.digit_val (char_at 2 idNumber)
           + JS.digit_val (char_at 3 idNumber) - 1
      /\ day
         = 10 * JS.digit_val (char_at 4 idNumber)
           + JS.digit_val (char_at 5 idNumber)
  | None => SAFinance.validateSAID idNumber = false
  end.
Proof.
  intros Hy. unfold SAFinance.getDOBFromID.
  destruct (SAFinance.validateSAID idNumber) eqn:Hv; [|reflexivity].
  apply validateSAID_iff in Hv as (Hl & Hd & _).
  explode_string idNumber Hl. split_digits Hd.
  cbn [String.substring]. rewrite !parseInt_2digits by assumption.
  cbn [mbind option_bind].
  change (char_at 0 _) with a. change (char_at 1 _) with a0.
  change (char_at 2 _) with a1. change (char_at 3 _) with a2.
  change (char_at 4 _) with a3. change (char_at 5 _) with a4.
  rewrite Z.rem_mod_nonneg by lia.
  apply is_digit_val in Hd0, Hd1.
  split; [reflexivity|].
  destruct (Z.leb_spec (10 * JS.digit_val a + JS.digit_val a0)
              (currentYear mod 100));
    repeat split; try reflexivity; Z.to_euclidean_division_equations; lia.
Qed.

Lemma getDOBFromID_birth_year_witness :
  match SAFinance.getDOBFromID 2026 "8001015009087" with
  | Some (fullYear, month, day) =>
      SAFinance.validateSAID "8001015009087" = true
      /\ 2026 - 99 <= fullYear <= 2026
      /\ fullYear mod 100 = 10 * 8 + 0
      /\ month = 10 * 0 + 1 - 1
      /\ day = 10 * 0 + 1
  | None => SAFinance.validateSAID "8001015009087" = false
  end.
Proof. apply (getDOBFromID_birth_year 2026 "8001015009087"). lia. Defined.

(** ** Phone numbers *)

Lemma filter_chars_all p s : all_chars p (JS.filter_chars p s) = true.
Proof.
  induction s as [|c r IH]; simpl; [done|].
  destruct (p c) eqn:Hc; simpl; [by rewrite Hc|done].
Qed.

Lemma filter_chars_id p s :
  all_chars p s = true -> JS.filter_chars p s = s.
Proof.
  induction s as [|c r IH]; simpl; [done|].
  intros [-> Hr]%andb_true_iff. by rewrite IH.
Qed.

Lemma digits_only_idem s : JS.digits_only (JS.digits_only s) = JS.digits_only s.
Proof. apply filter_chars_id, filter_chars_all. Qed.

Lemma prefix_cons a s1 b s2 :
  String.prefix (String a s1) (String b s2)
  = Ascii.eqb a b && String.prefix s1 s2.
Proof.
  cbn [String.prefix]. destruct (ascii_dec a b) as [->|Hne].
  - by rewrite Ascii.eqb_refl.
  - apply Ascii.eqb_neq in Hne. by rewrite Hne.
Qed.

Lemma prefix_empty s : String.prefix "" s = true.
Proof. by destruct s. Qed.

Lemma prefix_27 s :
  String.prefix "27" s = true -> s = "27" +:+ drop_chars 2 s.
Proof.
  destruct s as [|a [|b r]]; try discriminate.
  - rewrite prefix_cons. intros [_ H]%andb_true_iff. discriminate H.
  - rewrite !prefix_cons.
    intros [->%Ascii.eqb_eq [->%Ascii.eqb_eq _]%andb_true_iff]%andb_true_iff.
    reflexivity.
Qed.

Lemma prefix_0 s : String.prefix "0" s = true -> s = "0" +:+ drop_chars 1 s.
Proof.
  destruct s as [|a r]; try discriminate.
  rewrite prefix_cons. intros [->%Ascii.eqb_eq _]%andb_true_iff. reflexivity.
Qed.

Lemma substring_all s : String.substring 0 (String.length s) s = s.
Proof. induction s as [|c r IH]; simpl; [done|]. by rewrite IH. Qed.

(** [formatPhoneNumber] reads its argument through the digits only. *)
Lemma portal_format_digits ph :
  SMSPortal.formatPhoneNumber ph
  = let cleaned := JS.digits_only ph in
    let len := String.length cleaned in
    if SMSPortal.starts_with "27" cleaned && (len =? 11)%nat then Some cleaned
    else if SMSPortal.starts_with "0" cleaned && (len =? 10)%nat
    then Some ("27" +:+ drop_chars 1 cleaned)
    else if (len =? 9)%nat && negb (SMSPortal.starts_with "0" cleaned)
    then Some ("27" +:+ cleaned)
    else None.
Proof.
  destruct ph as [|c r]; [reflexivity|]. unfold SMSPortal.formatPhoneNumber.
  cbv zeta. set (cleaned := JS.digits_only (String c r)).
  destruct (SMSPortal.starts_with "27" cleaned && _); [reflexivity|].
  destruct (SMSPortal.starts_with "0" cleaned) eqn:H0; [|reflexivity].
  destruct (Nat.eqb_spec (String.length cleaned) 10) as [Hl|]; [|reflexivity].
  simpl andb. cbv iota. do 2 f_equal.
  apply prefix_0 in H0. rewrite H0 at 2. rewrite Hl. simpl Nat.sub.
  unfold String.append; cbn [String.substring].
  rewrite H0 in Hl. unfold String.append in Hl; cbn [String.length] in Hl.
  apply Nat.succ_inj in Hl. rewrite <- Hl. apply substring_all.
Qed.

Lemma portal_format_of_digits ph :
  SMSPortal.formatPhoneNumber ph
  = SMSPortal.formatPhoneNumber (JS.digits_only ph).
Proof. by rewrite !portal_format_digits, digits_only_idem. Qed.

(** What [formatPhoneNumber] returns is always [27] followed by nine
    digits and is left as it is by a second call; [isValidSAPhone] holds of
    exactly the inputs [formatPhoneNumber] does not turn down. *)
Theorem formatPhoneNumber_shape ph :
  match SMSPortal.formatPhoneNumber ph with
  | Some formatted =>
      SMSPortalPhone.isValidSAPhone ph = true
      /\ SMSPortal.formatPhoneNumber formatted = Some formatted
      /\ exists d,
           formatted = "27" +:+ d /\ String.length d = 9%nat
           /\ all_chars JS.is_digit d = true
  | None => SMSPortalPhone.isValidSAPhone ph = false
  end.
Proof.
  assert (forall d, String.length d = 9%nat -> all_chars JS.is_digit d = true ->
          SMSPortal.formatPhoneNumber ("27" +:+ d) = Some ("27" +:+ d)) as Hidem.
  { intros d Hl Hd. rewrite portal_format_digits. cbv zeta.
    unfold JS.digits_only. rewrite filter_chars_id by (by simpl).
    unfold String.append; cbn [String.length]. rewrite Hl.
    unfold SMSPortal.starts_with. rewrite !prefix_cons, prefix_empty.
    reflexivity. }
  assert (forall k d, k = "27" +:+ d -> String.length d = 9%nat ->
          all_chars JS.is_digit d = true ->
          SMSPortal.formatPhoneNumber ph = Some k ->
          SMSPortalPhone.isValidSAPhone ph = true
          /\ SMSPortal.formatPhoneNumber k = Some k
          /\ exists d, k = "27" +:+ d /\ String.length d = 9%nat
                       /\ all_chars JS.is_digit d = true) as Hall.
  { intros k d -> Hl Hd Hf. split; [|split; [by apply Hidem|by exists d]].
    unfold SMSPortalPhone.isValidSAPhone. rewrite Hf. unfold String.append.
    by rewrite Hl, Hd. }
  destruct (SMSPortal.formatPhoneNumber ph) as [k|] eqn:Hf;
    [|unfold SMSPortalPhone.isValidSAPhone; by rewrite Hf].
  pose proof Hf as Hf'. rewrite portal_format_digits in Hf'. cbv zeta in Hf'.
  pose proof (filter_chars_all JS.is_digit ph) as Hd.
  fold (JS.digits_only ph) in Hd.
  set (cleaned := JS.digits_only ph) in *.
  destruct (SMSPortal.starts_with "27" cleaned) eqn:H27;
    [destruct (Nat.eqb_spec (String.length cleaned) 11) as [Hl|Hl]|];
    cbn [andb] in Hf'.
  - injection Hf' as <-. apply prefix_27 in H27.
    apply (Hall _ (drop_chars 2 cleaned)); [done| |..|done].
    + rewrite H27 in Hl. unfold String.append in Hl; cbn [String.length] in Hl. lia.
    + rewrite H27 in Hd. unfold String.append in Hd; cbn [all_chars] in Hd.
      by apply andb_true_iff in Hd as [_ [_ ?]%andb_true_iff].
  - destruct (SMSPortal.starts_with "0" cleaned) eqn:H0.
    { apply prefix_0 in H0. rewrite H0 in H27. discriminate H27. }
    cbn [andb negb] in Hf'. rewrite andb_true_r in Hf'.
    destruct (Nat.eqb_spec (String.length cleaned) 9); [|discriminate].
    injection Hf' as <-. by apply (Hall _ cleaned).
  - destruct (SMSPortal.starts_with "0" cleaned) eqn:H0.
    + destruct (Nat.eqb_spec (String.length cleaned) 10) as [Hl|Hl];
        cbn [andb negb] in Hf'.
      * injection Hf' as <-. apply prefix_0 in H0.
        apply (Hall _ (drop_chars 1 cleaned)); [done| |..|done].
        -- rewrite H0 in Hl. unfold String.append in Hl; cbn [String.length] in Hl. lia.
        -- rewrite H0 in Hd. unfold String.append in Hd; cbn [all_chars] in Hd.
           by apply andb_true_iff in Hd as [_ ?].
      * rewrite andb_false_r in Hf'. discriminate.
    + cbn [andb negb] in Hf'. rewrite andb_true_r in Hf'.
      destruct (Nat.eqb_spec (String.length cleaned) 9); [|discriminate].
      injection Hf' as <-. by apply (Hall _ cleaned).
Qed.

Lemma national_number_iff d :
  national_number d = true
  <-> String.length d = 9%nat /\ all_chars JS.is_digit d = true
      /\ String.prefix "0" d = false.
Proof.
  unfold national_number.
  rewrite !andb_true_iff, Nat.eqb_eq, negb_true_iff. tauto.
Qed.

(** The three spellings of a national number (nine digits not starting
    with 0): alone, behind [0] and behind [27], with any characters other
    than digits between them, are all sent to [27] and the national
    number. *)
Theorem formatPhoneNumber_accepted_formats d ph :
  national_number d = true ->
  JS.digits_only ph = d \/ JS.digits_only ph = "0" +:+ d
  \/ JS.digits_only ph = "27" +:+ d ->
  SMSPortal.formatPhoneNumber ph = Some ("27" +:+ d).
Proof.
  intros (Hl & Hd & H0)%national_number_iff Hph.
  rewrite portal_format_digits. cbv zeta. unfold SMSPortal.starts_with.
  destruct Hph as [->|[->| ->]]; unfold String.append; cbn [String.length];
    rewrite ?Hl, ?H0, ?prefix_cons, ?prefix_empty; cbn [drop_chars].
  - by rewrite andb_false_r.
  - reflexivity.
  - reflexivity.
Qed.

Lemma formatPhoneNumber_accepted_formats_witness :
  SMSPortal.formatPhoneNumber "+27 (82) 123-4567" = Some "27821234567".
Proof.
  apply (formatPhoneNumber_accepted_formats "821234567").
  - reflexivity.
  - right. right. reflexivity.
Defined.

Lemma digits_only_app a b :
  JS.digits_only (a +:+ b) = JS.digits_only a +:+ JS.digits_only b.
Proof.
  unfold JS.digits_only. induction a as [|c a IH]; [done|].
  change (String c a +:+ b) with (String c (a +:+ b)).
  cbn [JS.filter_chars]. rewrite IH. by destruct (JS.is_digit c).
Qed.

(** The display form of ten digits holds those ten digits and two spaces. *)
Lemma digits_only_display l :
  String.length l = 10%nat -> all_chars JS.is_digit l = true ->
  JS.digits_only (String.substring 0 3 l +:+ " " +:+ String.substring 3 3 l
                  +:+ " " +:+ drop_chars 6 l) = l.
Proof.
  intros Hl Hd. explode_string l Hl. split_digits Hd.
  cbn [String.substring drop_chars]. unfold String.append.
  unfold JS.digits_only. cbn [JS.filter_chars].
  change (JS.is_digit " ") with false. cbv iota.
  repeat match goal with
  | H : JS.is_digit ?c = true |- context [JS.is_digit ?c] => rewrite H
  end.
  reflexivity.
Qed.

(** [formatForDisplay] keeps what [formatPhoneNumber] needs: formatting the
    display form of any input gives what formatting the input gives. *)
Theorem formatForDisplay_round_trip ph :
  SMSPortal.formatPhoneNumber (SMSPortalPhone.formatForDisplay ph)
  = SMSPortal.formatPhoneNumber ph.
Proof.
  unfold SMSPortalPhone.formatForDisplay. cbv zeta.
  pose proof (filter_chars_all JS.is_digit ph) as Hd.
  fold (JS.digits_only ph) in Hd.
  rewrite (portal_format_digits ph). cbv zeta.
  unfold SMSPortal.starts_with.
  set (cleaned := JS.digits_only ph) in *.
  set (local := if String.prefix "27" cleaned then _ else _).
  destruct (Nat.eqb_spec (String.length local) 10) as [Hl|Hl];
    [|subst cleaned; by rewrite <- portal_format_digits].
  assert (all_chars JS.is_digit local = true) as Hdl.
  { unfold local. destruct (String.prefix "27" cleaned) eqn:H27.
    - apply prefix_27 in H27. rewrite H27 in Hd.
      unfold String.append in *. cbn [all_chars] in *.
      by apply andb_true_iff in Hd as [_ [_ ?]%andb_true_iff].
    - destruct (String.prefix "0" cleaned); [done|].
      unfold String.append. cbn [all_chars negb]. by rewrite Hd. }
  rewrite portal_format_digits. cbv zeta.
  rewrite (digits_only_display local Hl Hdl). unfold SMSPortal.starts_with.
  rewrite Hl. unfold local in *. clear local.
  destruct (String.prefix "27" cleaned) eqn:H27.
  - apply prefix_27 in H27. unfold String.append in Hl.
    cbn [String.length] in Hl.
    assert (String.length cleaned = 11%nat) as ->.
    { rewrite H27. unfold String.append. cbn [String.length]. lia. }
    unfold String.append. rewrite !prefix_cons, prefix_empty.
    cbn [Ascii.eqb Bool.eqb andb Nat.eqb].
    change (drop_chars 1 (String "0" (drop_chars 2 cleaned)))
      with (drop_chars 2 cleaned).
    f_equal. symmetry. exact H27.
  - destruct (String.prefix "0" cleaned) eqn:H0; cbn [negb] in *.
    + rewrite Hl, H0. rewrite andb_false_r. reflexivity.
    + unfold String.append in Hl. cbn [String.length] in Hl.
      assert (String.length cleaned = 9%nat) as -> by lia.
      unfold String.append. rewrite !prefix_cons, prefix_empty.
      reflexivity.
Qed.

Lemma substring_tail s :
  String.substring 1 (String.length s - 1) s = drop_chars 1 s.
Proof.
  destruct s as [|c r]; [reflexivity|].
  cbn [String.length Nat.sub String.substring drop_chars].
  rewrite Nat.sub_0_r. apply substring_all.
Qed.

Lemma legacy_format_cases ph :
  SMSLegacy.formatPhoneNumber ph
  = let kept := digits_and_plus ph in
    let hasPlus := String.prefix "+" kept in
    let cleaned := if hasPlus then drop_chars 1 kept else kept in
    let len := String.length cleaned in
    if String.prefix "27" cleaned && (len =? 11)%nat then "+" +:+ cleaned
    else if String.prefix "0" cleaned && (len =? 10)%nat
    then "+27" +:+ drop_chars 1 cleaned
    else if (len =? 9)%nat
            && match cleaned with
               | String c _ =>
                   (54 <=? nat_of_ascii c)%nat && (nat_of_ascii c <=? 56)%nat
               | EmptyString => false
               end
    then "+27" +:+ cleaned
    else if hasPlus then "+" +:+ cleaned else "+27" +:+ cleaned.
Proof.
  unfold SMSLegacy.formatPhoneNumber. fold (digits_and_plus ph). cbv zeta.
  by rewrite !substring_tail.
Qed.

Lemma mobile_number_iff d :
  mobile_number d = true
  <-> exists c r,
        d = String c r
        /\ ((54 <=? nat_of_ascii c)%nat && (nat_of_ascii c <=? 56)%nat = true)
        /\ String.length r = 8%nat /\ all_chars JS.is_digit r = true.
Proof.
  unfold mobile_number. split.
  - destruct d as [|c r]; [discriminate|].
    rewrite !andb_true_iff, Nat.eqb_eq. intros [[[H1 H2] Hl] Hd].
    exists c, r. rewrite H1, H2. done.
  - intros (c & r & -> & Hc & Hl & Hd). by rewrite Hc, Hl, Hd.
Qed.

Lemma six_to_eight c :
  (54 <=? nat_of_ascii c)%nat && (nat_of_ascii c <=? 56)%nat = true ->
  Ascii.eqb "+" c = false /\ Ascii.eqb "0" c = false
  /\ Ascii.eqb "2" c = false /\ JS.is_digit c = true.
Proof.
  intros [H1%Nat.leb_le H2%Nat.leb_le]%andb_true_iff.
  repeat split;
    try (apply Ascii.eqb_neq; intros <-; vm_compute in H1, H2; lia).
  unfold JS.is_digit. apply andb_true_iff. split; apply Nat.leb_le; lia.
Qed.

(** In the older module, the four spellings of a mobile national number
    (nine digits starting with 6, 7 or 8): alone, behind [0], behind [27]
    and behind [+27], are all sent to [+27] and the national number, and
    [isValidSAMobile] accepts them. *)
Theorem legacy_formatPhoneNumber_accepted_formats d ph :
  mobile_number d = true ->
  digits_and_plus ph = d \/ digits_and_plus ph = "0" +:+ d
  \/ digits_and_plus ph = "27" +:+ d \/ digits_and_plus ph = "+27" +:+ d ->
  SMSLegacy.formatPhoneNumber ph = "+27" +:+ d
  /\ SMSLegacyPhone.isValidSAMobile ph = true.
Proof.
  intros (c & r & -> & Hc & Hl & Hd)%mobile_number_iff Hph.
  destruct (six_to_eight c Hc) as (Hp & H0 & H2 & Hdc).
  assert (SMSLegacy.formatPhoneNumber ph = "+27" +:+ String c r) as Hf.
  { rewrite legacy_format_cases. cbv zeta.
    destruct Hph as [->|[->|[->| ->]]]; unfold String.append;
      rewrite ?prefix_cons, ?prefix_empty, ?Hp, ?H0, ?H2;
      cbn [andb Ascii.eqb Bool.eqb drop_chars String.length];
      rewrite ?prefix_cons, ?prefix_empty, ?Hp, ?H0, ?H2, ?Hl, ?Hc;
      reflexivity. }
  split; [exact Hf|].
  unfold SMSLegacyPhone.isValidSAMobile. rewrite Hf. unfold String.append.
  by rewrite Hc, Hl, Hd.
Qed.

Lemma legacy_formatPhoneNumber_accepted_formats_witness :
  SMSLegacy.formatPhoneNumber "082 123 4567" = "+27821234567"
  /\ SMSLegacyPhone.isValidSAMobile "082 123 4567" = true.
Proof.
  apply (legacy_formatPhoneNumber_accepted_formats "821234567").
  - reflexivity.
  - right. left. reflexivity.
Defined.

Lemma drop_chars_all p n s :
  all_chars p s = true -> all_chars p (drop_chars n s) = true.
Proof.
  revert s. induction n as [|n IH]; intros [|c r]; simpl; auto.
  intros [_ ?]%andb_true_iff. auto.
Qed.

(** [formatPhoneNumber] of the older module is idempotent on every input,
    also on the ones it cannot recognise. *)
Theorem legacy_formatPhoneNumber_idempotent ph :
  SMSLegacy.formatPhoneNumber (SMSLegacy.formatPhoneNumber ph)
  = SMSLegacy.formatPhoneNumber ph.
Proof.
  set (ok := fun c => JS.is_digit c || Ascii.eqb c "+").
  assert (forall Y, all_chars ok Y = true ->
          SMSLegacy.formatPhoneNumber ("+" +:+ Y)
          = if String.prefix "27" Y && (String.length Y =? 11)%nat
            then "+" +:+ Y
            else if String.prefix "0" Y && (String.length Y =? 10)%nat
            then "+27" +:+ drop_chars 1 Y
            else if (String.length Y =? 9)%nat
                    && match Y with
                       | String c _ =>
                           (54 <=? nat_of_ascii c)%nat
                           && (nat_of_ascii c <=? 56)%nat
                       | EmptyString => false
                       end
            then "+27" +:+ Y
            else "+" +:+ Y) as Hplus.
  { intros Y HY. rewrite legacy_format_cases. cbv zeta.
    unfold digits_and_plus. fold ok.
    rewrite (filter_chars_id ok ("+" +:+ Y)) by (by unfold String.append).
    change ("+" +:+ Y) with (String "+" Y).
    rewrite (prefix_cons "+" "" "+" Y), prefix_empty.
    change (Ascii.eqb "+" "+" && true) with true. cbv iota.
    change (drop_chars 1 (String "+" Y)) with Y. reflexivity. }
  rewrite (legacy_format_cases ph). cbv zeta.
  pose proof (filter_chars_all ok ph) as Hk. fold (digits_and_plus ph) in Hk.
  set (kept := digits_and_plus ph) in *.
  set (hasPlus := String.prefix "+" kept).
  set (cleaned := if hasPlus then drop_chars 1 kept else kept).
  assert (all_chars ok cleaned = true) as Hc.
  { unfold cleaned. destruct hasPlus; [by apply drop_chars_all|done]. }
  destruct (String.prefix "27" cleaned && (String.length cleaned =? 11)%nat)
    eqn:C1.
  { rewrite Hplus by done. by rewrite C1. }
  destruct (String.prefix "0" cleaned && (String.length cleaned =? 10)%nat)
    eqn:C2.
  { apply andb_true_iff in C2 as [H0%prefix_0 Hl%Nat.eqb_eq].
    change ("+27" +:+ drop_chars 1 cleaned)
      with ("+" +:+ ("27" +:+ drop_chars 1 cleaned)).
    rewrite Hplus.
    - unfold String.append at 1 2. rewrite !prefix_cons, prefix_empty.
      cbn [String.length]. rewrite H0 in Hl. unfold String.append in Hl.
      cbn [String.length] in Hl. apply Nat.succ_inj in Hl. rewrite Hl.
      reflexivity.
    - unfold String.append. cbn [all_chars]. by apply drop_chars_all. }
  destruct ((String.length cleaned =? 9)%nat && _) eqn:C3.
  { apply andb_true_iff in C3 as [Hl%Nat.eqb_eq _].
    change ("+27" +:+ cleaned) with ("+" +:+ ("27" +:+ cleaned)).
    rewrite Hplus by (by unfold String.append).
    unfold String.append at 1 2. rewrite !prefix_cons, prefix_empty.
    cbn [String.length]. rewrite Hl. reflexivity. }
  destruct hasPlus.
  { rewrite Hplus by done. by rewrite C1, C2, C3. }
  change ("+27" +:+ cleaned) with ("+" +:+ String "2" (String "7" cleaned)).
  rewrite Hplus by done.
  rewrite !prefix_cons, !prefix_empty.
  change (Ascii.eqb "2" "2") with true. change (Ascii.eqb "7" "7") with true.
  change (Ascii.eqb "0" "2") with false.
  change ((54 <=? nat_of_ascii "2")%nat) with false.
  cbn [andb String.length]. rewrite andb_false_r.
  destruct (S (S (String.length cleaned)) =? 11)%nat; reflexivity.
Qed.

(** ** One-time codes: issue, verify, and the records of other phones *)

(** A code issued by [sendPasswordResetOTP] for a phone number the module
    can format is stored only when the message went out.  Stored, it
    verifies up to its expiry ten minutes later and is then marked used;
    after the expiry any attempt fails and removes the record; a different
    code never verifies.  Not stored, every attempt fails and
    changes nothing.  The records of other phones are left alone. *)
Theorem portal_otp_issue_then_verify now code delivered ph codes key :
  SMSPortal.formatPhoneNumber ph = Some key ->
  let issued :=
    fst (SMSPortal.sendPasswordResetOTP now code delivered ph codes) in
  let record := SMSPortal.mkOtpDoc code key (now + 10 * 60 * 1000) false 0 in
  snd (SMSPortal.sendPasswordResetOTP now code delivered ph codes) = delivered
  /\ (delivered = true ->
      issued !! key = Some record
      /\ (forall t, t <= now + 10 * 60 * 1000 ->
            SMSPortal.verifyOTP t ph code issued
            = (<[key := with_used record]> issued, true))
      /\ (forall t code', t > now + 10 * 60 * 1000 ->
            SMSPortal.verifyOTP t ph code' issued
            = (delete key issued, false))
      /\ (forall t code', code' <> code ->
            snd (SMSPortal.verifyOTP t ph code' issued) = false))
  /\ (delivered = false ->
      issued !! key = None
      /\ forall t code', SMSPortal.verifyOTP t ph code' issued = (issued, false))
  /\ (forall key', key' <> key -> issued !! key' = codes !! key').
Proof.
  intros Hkey. cbv zeta. unfold SMSPortal.sendPasswordResetOTP. rewrite Hkey.
  set (record := SMSPortal.mkOtpDoc code key _ false 0).
  destruct delivered; cbn [fst snd]; (split; [reflexivity|]).
  - split; [|split; [discriminate|]].
    + intros _. split; [apply lookup_insert_eq|].
      assert (forall t c,
                (now + 10 * 60 * 1000 < t ->
                 SMSPortal.verifyOTP t ph c (<[key:=record]> codes)
                 = (delete key (<[key:=record]> codes), false))
                /\ (t <= now + 10 * 60 * 1000 -> code <> c ->
                    SMSPortal.verifyOTP t ph c (<[key:=record]> codes)
                    = (<[key:=with_attempt record]> (<[key:=record]> codes),
                       false))
                /\ (t <= now + 10 * 60 * 1000 ->
                    SMSPortal.verifyOTP t ph code (<[key:=record]> codes)
                    = (<[key:=with_used record]> (<[key:=record]> codes),
                       true))) as Hc.
      { intros t c.
        pose proof (verifyOTP_cases t ph c (<[key:=record]> codes) key Hkey)
          as Hc.
        pose proof (verifyOTP_cases t ph code (<[key:=record]> codes) key Hkey)
          as Hc'.
        rewrite lookup_insert_eq in Hc, Hc'.
        destruct Hc as (_ & Hexp & _ & Hmis & _).
        destruct Hc' as (_ & _ & _ & _ & Hok).
        split; [|split].
        - intros Ht. apply Hexp; [done|simpl; lia].
        - intros Ht Hne. apply Hmis; [done|simpl; lia|simpl; lia|done].
        - intros Ht. apply Hok; [done|simpl; lia|simpl; lia|done]. }
      split; [|split].
      * intros t Ht. by apply (Hc t code).
      * intros t code' Ht. apply (Hc t code'). lia.
      * intros t code' Hne.
        destruct (Z.le_gt_cases t (now + 10 * 60 * 1000)) as [Ht|Ht].
        -- by rewrite (proj1 (proj2 (Hc t code')) Ht (not_eq_sym Hne)).
        -- by rewrite (proj1 (Hc t code') Ht).
    + intros key' Hne. by rewrite lookup_insert_ne.
  - split; [discriminate|]. split.
    + intros _. split; [apply lookup_delete_eq|].
      intros t code'. apply (verifyOTP_absent _ _ _ _ key Hkey).
      apply lookup_delete_eq.
    + intros key' Hne. by rewrite lookup_delete_ne, lookup_insert_ne.
Qed.

Lemma portal_otp_issue_then_verify_witness :
  SMSPortal.verifyOTP 599999 "082 123 4567" "123456" codes_issued
  = (<[ "27821234567" :=
          SMSPortal.mkOtpDoc "123456" "27821234567" 600000 true 0 ]>
       codes_issued, true).
Proof.
  apply (proj1 (proj2 (proj1 (proj2 (portal_otp_issue_then_verify
           0 "123456" true "0821234567" ∅ "27821234567" eq_refl)) eq_refl))
           599999).
  lia.
Defined.

(** [verifyOTP] touches no record but the one of its own phone. *)
Theorem portal_verifyOTP_other_phones now ph code codes key' :
  SMSPortal.formatPhoneNumber ph <> Some key' ->
  fst (SMSPortal.verifyOTP now ph code codes) !! key' = codes !! key'.
Proof.
  intros Hne. unfold SMSPortal.verifyOTP.
  destruct (SMSPortal.formatPhoneNumber ph) as [key|]; [|reflexivity].
  assert (key <> key') by congruence.
  destruct (codes !! key) as [r|]; [|reflexivity].
  repeat match goal with
  | |- context [if ?b then _ else _] => destruct b
  end; cbn [fst]; rewrite ?lookup_delete_ne, ?lookup_insert_ne by done;
    reflexivity.
Qed.

Lemma portal_verifyOTP_other_phones_witness :
  fst (SMSPortal.verifyOTP 1 "0837654321" "123456" codes_issued)
    !! "27821234567"
  = codes_issued !! "27821234567".
Proof.
  apply portal_verifyOTP_other_phones. vm_compute. discriminate.
Defined.

(** In the older module a stored code verifies before its expiry ten
    minutes later and is then marked used; at or after the expiry, or with
    another code, verification fails.  After any successful verification
    every further attempt for that phone fails; a failed attempt changes
    nothing; the records of other phones are left alone. *)
Theorem legacy_otp_life_cycle now code ph codes :
  let key := SMSLegacy.formatPhoneNumber ph in
  let issued := SMSLegacy.storeOTP now code ph codes in
  let record := SMSLegacy.mkOtpDoc code (now + 10 * 60 * 1000) in
  (forall t, t < now + 10 * 60 * 1000 ->
     SMSLegacy.verifyOTP t ph code issued
     = (<[key := record true]> issued, true))
  /\ (forall t c, now + 10 * 60 * 1000 <= t ->
        SMSLegacy.verifyOTP t ph c issued = (issued, false))
  /\ (forall t c, c <> code ->
        SMSLegacy.verifyOTP t ph c issued = (issued, false))
  /\ (forall t c codes0 codes',
        SMSLegacy.verifyOTP t ph c codes0 = (codes', true) ->
        forall t' c', SMSLegacy.verifyOTP t' ph c' codes' = (codes', false))
  /\ (forall t c codes0,
        snd (SMSLegacy.verifyOTP t ph c codes0) = false ->
        fst (SMSLegacy.verifyOTP t ph c codes0) = codes0)
  /\ (forall t c codes0 key',
        key' <> key ->
        fst (SMSLegacy.verifyOTP t ph c codes0) !! key' = codes0 !! key').
Proof.
  cbv zeta. unfold SMSLegacy.verifyOTP, SMSLegacy.storeOTP.
  set (key := SMSLegacy.formatPhoneNumber ph).
  repeat split.
  - intros t Ht. rewrite lookup_insert_eq.
    cbn [SMSLegacy.otp SMSLegacy.used SMSLegacy.expiresAt negb andb].
    rewrite String.eqb_refl. destruct (Z.gtb_spec (now + 10 * 60 * 1000) t); [done|lia].
  - intros t c Ht. rewrite lookup_insert_eq.
    cbn [SMSLegacy.otp SMSLegacy.used SMSLegacy.expiresAt negb andb].
    destruct (Z.gtb_spec (now + 10 * 60 * 1000) t); [lia|].
    by rewrite andb_false_r.
  - intros t c Hne. rewrite lookup_insert_eq.
    cbn [SMSLegacy.otp SMSLegacy.used SMSLegacy.expiresAt negb andb].
    destruct (String.eqb_spec code c); [congruence|done].
  - intros t c codes0 codes'. destruct (codes0 !! key) as [r|]; [|discriminate].
    destruct (_ && _ && _); [|discriminate].
    intros [= <-] t' c'. rewrite lookup_insert_eq.
    cbn [SMSLegacy.otp SMSLegacy.used SMSLegacy.expiresAt negb andb].
    by rewrite andb_false_r.
  - intros t c codes0. destruct (codes0 !! key) as [r|]; [|done].
    by destruct (_ && _ && _).
  - intros t c codes0 key' Hne. destruct (codes0 !! key) as [r|]; [|done].
    destruct (_ && _ && _); cbn [fst]; [|done]. by rewrite lookup_insert_ne.
Qed.

(** ** Accounts *)

Lemma strip_spaces_dashes_idem s :
  JS.strip_spaces_dashes (JS.strip_spaces_dashes s) = JS.strip_spaces_dashes s.
Proof. apply filter_chars_id, filter_chars_all. Qed.

Lemma first_by_id_is_Some {A} (l : list (string * A)) x :
  x ∈ l -> is_Some (first_by_id l).
Proof.
  intros Hin. destruct (first_by_id l) eqn:H; [eauto|].
  apply first_by_id_None in H. subst l. by apply elem_of_nil in Hin.
Qed.

(** A query by phone finds the member when no other member has the phone. *)
Lemma getMemberByPhone_found fs ph mid m :
  members fs !! mid = Some m ->
  phone m = JS.strip_spaces_dashes ph ->
  (forall mid' m', members fs !! mid' = Some m' ->
     phone m' = JS.strip_spaces_dashes ph -> mid' = mid) ->
  getMemberByPhone fs ph = Some (mid, m).
Proof.
  intros Hm Hph Huniq.
  destruct (getMemberByPhone fs ph) as [[mid' m']|] eqn:Hget.
  - apply getMemberByPhone_Some in Hget as [Hm' Hph'].
    assert (mid' = mid) as -> by eauto. congruence.
  - exfalso. by apply (getMemberByPhone_None fs ph mid m).
Qed.

Lemma getMemberByIdNumber_None fs idn mid m :
  getMemberByIdNumber fs idn = None ->
  members fs !! mid = Some m -> idNumber m <> idn.
Proof.
  unfold getMemberByIdNumber. intros H%first_by_id_None Hm Hid.
  apply elem_of_map_to_list, list_elem_of_In in Hm.
  assert (In (mid, m)
            (List.filter (fun p => String.eqb (idNumber (snd p)) idn)
               (map_to_list (members fs)))) as Hin.
  { apply filter_In. split; [exact Hm|]. simpl. by apply String.eqb_eq. }
  rewrite H in Hin. destruct Hin.
Qed.

Lemma getMemberByIdNumber_Some fs idn mid m :
  getMemberByIdNumber fs idn = Some (mid, m) ->
  members fs !! mid = Some m /\ idNumber m = idn.
Proof.
  unfold getMemberByIdNumber. intros H%first_by_id_elem.
  apply list_elem_of_In, filter_In in H as [Hin Hid].
  apply list_elem_of_In, elem_of_map_to_list in Hin.
  split; [exact Hin|]. simpl in Hid. by apply String.eqb_eq in Hid.
Qed.

Lemma unique_by_insert f ms id m :
  unique_by f ms ->
  (forall id' m', ms !! id' = Some m' -> id' <> id -> f m' <> f m) ->
  unique_by f (<[id := m]> ms).
Proof.
  intros Hu Hnew id1 id2 m1 m2 H1 H2 Hf.
  destruct (decide (id1 = id)) as [->|Hn1], (decide (id2 = id)) as [->|Hn2];
    [done|..].
  - rewrite lookup_insert_eq in H1. rewrite lookup_insert_ne in H2 by done.
    injection H1 as <-. exfalso. by apply (Hnew id2 m2).
  - rewrite lookup_insert_eq in H2. rewrite lookup_insert_ne in H1 by done.
    injection H2 as <-. exfalso. by apply (Hnew id1 m1).
  - rewrite lookup_insert_ne in H1, H2 by done. eauto.
Qed.

Lemma single_register_cases sha256 docId ref d fs :
  let p := JS.strip_spaces_dashes (SingleAccounts.rd_phone d) in
  match getMemberByPhone fs p with
  | Some _ =>
      SingleAccounts.registerMember sha256 docId ref d fs
      = (fs, Throw PhoneAlreadyRegistered)
  | None =>
      match getMemberByIdNumber fs (SingleAccounts.rd_idNumber d) with
      | Some _ =>
          SingleAccounts.registerMember sha256 docId ref d fs
          = (fs, Throw IdNumberAlreadyRegistered)
      | None =>
          SingleAccounts.registerMember sha256 docId ref d fs
          = (set_members
               (insert docId
                  (mkMember (trim (SingleAccounts.rd_name d)) p
                     (SingleAccounts.rd_idNumber d)
                     (Some (Single.hashPassword sha256
                              (SingleAccounts.rd_password d)))
                     ref 0 0 0 0 0 0 0 0 None false)) fs,
             Ok (docId, ref))
      end
  end.
Proof.
  cbv zeta. unfold SingleAccounts.registerMember, bind, get.
  destruct (getMemberByPhone _ _); [reflexivity|].
  destruct (getMemberByIdNumber _ _); reflexivity.
Qed.

Lemma updateMember_id mid fs :
  updateMember mid (fun m => m) fs
  = if bool_decide (is_Some (members fs !! mid))
       && negb (bool_decide (mid ∈ write_denied fs))
    then Ok fs else Throw StoreFailure.
Proof.
  unfold updateMember, commit. cbn [forallb write_ok].
  rewrite andb_true_r.
  destruct (_ && _); [|reflexivity]. cbn. f_equal.
  destruct fs as [ms ss ps ls wd]. unfold set_members. cbn. f_equal.
  apply map_eq. intros i. destruct (decide (mid = i)) as [->|Hne].
  - rewrite lookup_alter_eq. by destruct (ms !! i).
  - by rewrite lookup_alter_ne.
Qed.

(** A member who registered can log in: after a successful
    [registerMember] the new document holds the normalised phone and zero
    aggregates, and [authenticateMember] with the registration phone and
    password returns that member, unless the write of the login time is
    refused, in which case it reports a failed login.  A password with a
    different hash is answered with [Incorrect password.]. *)
Theorem single_register_then_authenticate sha256 docId ref d fs fs' r :
  SingleAccounts.registerMember sha256 docId ref d fs = (fs', Ok r) ->
  Single.hashPassword sha256 (SingleAccounts.rd_password d) <> "" ->
  exists m,
    r = (docId, ref)
    /\ members fs' !! docId = Some m
    /\ phone m = JS.strip_spaces_dashes (SingleAccounts.rd_phone d)
    /\ statsOfMember m = mkStats 0 0 0 0 0 0 false
    /\ (docId ∉ write_denied fs ->
        SingleAccounts.authenticateMember sha256 (SingleAccounts.rd_phone d)
          (SingleAccounts.rd_password d) fs'
        = (fs', Ok (SingleAccounts.Authenticated docId m)))
    /\ (docId ∈ write_denied fs ->
        SingleAccounts.authenticateMember sha256 (SingleAccounts.rd_phone d)
          (SingleAccounts.rd_password d) fs'
        = (fs', Ok (SingleAccounts.AuthFailed
                      "Login failed. Please try again.")))
    /\ (forall password,
          Single.hashPassword sha256 password
          <> Single.hashPassword sha256 (SingleAccounts.rd_password d) ->
          SingleAccounts.authenticateMember sha256 (SingleAccounts.rd_phone d)
            password fs'
          = (fs', Ok (SingleAccounts.AuthFailed "Incorrect password."))).
Proof.
  intros Hreg Hhash.
  pose proof (single_register_cases sha256 docId ref d fs) as Hc.
  cbv zeta in Hc.
  destruct (getMemberByPhone fs _) eqn:Hph; [congruence|].
  destruct (getMemberByIdNumber fs _) eqn:Hid; [congruence|].
  rewrite Hc in Hreg. injection Hreg as <- <-.
  set (p := JS.strip_spaces_dashes (SingleAccounts.rd_phone d)) in *.
  remember (Single.hashPassword sha256 (SingleAccounts.rd_password d)) as h
    eqn:Hh.
  set (m := mkMember _ p _ (Some h) ref 0 0 0 0 0 0 0 0 None false).
  set (fs' := set_members (insert docId m) fs).
  assert (getMemberByPhone fs' (SingleAccounts.rd_phone d) = Some (docId, m))
    as Hget.
  { apply getMemberByPhone_found.
    - apply lookup_insert_eq.
    - reflexivity.
    - intros mid' m' Hm' Hp'. destruct (decide (mid' = docId)) as [|Hne]; [done|].
      unfold fs' in Hm'. cbn in Hm'. rewrite lookup_insert_ne in Hm' by done.
      exfalso. apply (getMemberByPhone_None fs p mid' m' Hph Hm').
      unfold p. by rewrite strip_spaces_dashes_idem. }
  assert (forall password,
            SingleAccounts.authenticateMember sha256
              (SingleAccounts.rd_phone d) password fs'
            = if String.eqb (Single.hashPassword sha256 password) h
              then if bool_decide (docId ∈ write_denied fs)
                   then (fs', Ok (SingleAccounts.AuthFailed
                                    "Login failed. Please try again."))
                   else (fs', Ok (SingleAccounts.Authenticated docId m))
              else (fs', Ok (SingleAccounts.AuthFailed "Incorrect password.")))
    as Hauth.
  { intros password. unfold SingleAccounts.authenticateMember, bind, get.
    rewrite Hget. cbn [passwordHash m].
    destruct h as [|c hr]; [done|].
    unfold Single.verifyPassword.
    destruct (String.eqb _ _); [|reflexivity].
    rewrite updateMember_id. unfold fs' at 1 2. cbn [members set_members write_denied].
    rewrite lookup_insert_eq.
    rewrite (bool_decide_eq_true_2 (is_Some (Some m))) by eauto.
    cbn [andb].
    change (write_denied fs') with (write_denied fs).
    by destruct (bool_decide (docId ∈ write_denied fs)). }
  exists m. split; [reflexivity|]. split; [apply lookup_insert_eq|].
  split; [reflexivity|]. split; [reflexivity|].
  split; [|split].
  - intros Hden. rewrite Hauth, <- Hh, String.eqb_refl.
    by rewrite bool_decide_eq_false_2.
  - intros Hden. rewrite Hauth, <- Hh, String.eqb_refl.
    by rewrite bool_decide_eq_true_2.
  - intros password Hne. rewrite Hauth.
    by destruct (String.eqb_spec (Single.hashPassword sha256 password) h).
Qed.

Lemma single_register_then_authenticate_witness :
  exists m,
    members fs_carol !! "m7" = Some m
    /\ SingleAccounts.authenticateMember stand_in_digest "071 123-4567"
         "secret-1" fs_carol
       = (fs_carol, Ok (SingleAccounts.Authenticated "m7" m)).
Proof.
  destruct (single_register_then_authenticate stand_in_digest "m7" "TRF-MK7P2"
              single_carol fs_alice fs_carol ("m7", "TRF-MK7P2"))
    as (m & _ & Hm & _ & _ & Hok & _).
  - vm_compute. reflexivity.
  - vm_compute. discriminate.
  - exists m. split; [exact Hm|]. apply Hok. vm_compute. intros H. discriminate H.
Defined.

(** Registration keeps the phone numbers and the identity numbers of the
    collection pairwise distinct, whatever its outcome.  After a successful
    registration, another one with the same phone number, however it is
    spaced, is refused with the phone error and changes nothing, and one
    with another phone number and the same identity number is refused. *)
Theorem single_registration_keeps_members_unique sha256 docId ref d fs :
  let fs' := fst (SingleAccounts.registerMember sha256 docId ref d fs) in
  (unique_by phone (members fs) -> unique_by phone (members fs'))
  /\ (unique_by idNumber (members fs) -> unique_by idNumber (members fs'))
  /\ (forall docId2 ref2 d2,
        snd (SingleAccounts.registerMember sha256 docId ref d fs)
        = Ok (docId, ref) ->
        (JS.strip_spaces_dashes (SingleAccounts.rd_phone d2)
         = JS.strip_spaces_dashes (SingleAccounts.rd_phone d) ->
         SingleAccounts.registerMember sha256 docId2 ref2 d2 fs'
         = (fs', Throw PhoneAlreadyRegistered))
        /\ (JS.strip_spaces_dashes (SingleAccounts.rd_phone d2)
            <> JS.strip_spaces_dashes (SingleAccounts.rd_phone d) ->
            SingleAccounts.rd_idNumber d2 = SingleAccounts.rd_idNumber d ->
            snd (SingleAccounts.registerMember sha256 docId2 ref2 d2 fs')
            = Throw IdNumberAlreadyRegistered
               \/ snd (SingleAccounts.registerMember sha256 docId2 ref2 d2 fs')
                  = Throw PhoneAlreadyRegistered)).
Proof.
  cbv zeta.
  pose proof (single_register_cases sha256 docId ref d fs) as Hc.
  cbv zeta in Hc.
  destruct (getMemberByPhone fs _) eqn:Hph.
  { rewrite Hc. cbn [fst snd]. repeat split; try done. }
  destruct (getMemberByIdNumber fs _) eqn:Hid.
  { rewrite Hc. cbn [fst snd]. repeat split; try done. }
  rewrite Hc. cbn [fst snd members set_members].
  set (p := JS.strip_spaces_dashes (SingleAccounts.rd_phone d)) in *.
  set (m := mkMember _ p _ _ ref 0 0 0 0 0 0 0 0 None false).
  split; [|split].
  - intros Hu. apply unique_by_insert; [done|].
    intros id' m' Hm' _ Heq. apply (getMemberByPhone_None fs p id' m' Hph Hm').
    unfold p. rewrite strip_spaces_dashes_idem. exact Heq.
  - intros Hu. apply unique_by_insert; [done|].
    intros id' m' Hm' _ Heq. by apply (getMemberByIdNumber_None fs _ id' m' Hid Hm').
  - intros docId2 ref2 d2 _.
    pose proof (single_register_cases sha256 docId2 ref2 d2
                  (set_members (insert docId m) fs)) as Hc2.
    cbv zeta in Hc2. split.
    + intros Hsame.
      destruct (getMemberByPhone (set_members (insert docId m) fs) _)
        eqn:Hph2; [exact Hc2|].
      exfalso.
      apply (getMemberByPhone_None _ _ docId m Hph2).
      * apply lookup_insert_eq.
      * rewrite strip_spaces_dashes_idem. by rewrite Hsame.
    + intros _ Hsame.
      destruct (getMemberByPhone (set_members (insert docId m) fs) _);
        [right; by rewrite Hc2|].
      destruct (getMemberByIdNumber (set_members (insert docId m) fs) _)
        eqn:Hid2; [left; by rewrite Hc2|].
      exfalso.
      apply (getMemberByIdNumber_None _ _ docId m Hid2).
      * apply lookup_insert_eq.
      * by rewrite Hsame.
Qed.

Lemma updateMember_cases mid f fs :
  updateMember mid f fs
  = match members fs !! mid with
    | Some m =>
        if bool_decide (mid ∈ write_denied fs) then Throw StoreFailure
        else Ok (set_members (insert mid (f m)) fs)
    | None => Throw StoreFailure
    end.
Proof.
  unfold updateMember, commit. cbn [forallb write_ok]. rewrite andb_true_r.
  destruct (members fs !! mid) as [m|] eqn:Hm.
  - rewrite bool_decide_eq_true_2 by eauto. cbn [andb].
    destruct (bool_decide (mid ∈ write_denied fs)); cbn [negb]; [done|].
    cbn. unfold set_members. by rewrite (alter_lookup_insert _ _ _ _ Hm).
  - rewrite bool_decide_eq_false_2; [done|]. by intros [? ?].
Qed.

(** After [updatePassword] the new password logs the member in and every
    password with a different hash, the old one included, is answered with
    [Incorrect password.]. *)
Theorem single_updatePassword_then_authenticate
    sha256 fs ph mid m newPassword :
  getMemberByPhone fs ph = Some (mid, m) ->
  unique_by phone (members fs) ->
  mid ∉ write_denied fs ->
  Single.hashPassword sha256 newPassword <> "" ->
  let m' :=
    SingleAccounts.with_passwordHash
      (Some (Single.hashPassword sha256 newPassword)) m in
  let fs' := set_members (insert mid m') fs in
  SingleAccounts.updatePassword sha256 mid newPassword fs = (fs', Ok tt)
  /\ SingleAccounts.authenticateMember sha256 ph newPassword fs'
     = (fs', Ok (SingleAccounts.Authenticated mid m'))
  /\ forall password,
       Single.hashPassword sha256 password
       <> Single.hashPassword sha256 newPassword ->
       SingleAccounts.authenticateMember sha256 ph password fs'
       = (fs', Ok (SingleAccounts.AuthFailed "Incorrect password.")).
Proof.
  intros Hget Hu Hden Hhash. cbv zeta.
  apply getMemberByPhone_Some in Hget as [Hm Hph].
  remember (Single.hashPassword sha256 newPassword) as h eqn:Hh.
  set (m' := SingleAccounts.with_passwordHash (Some h) m).
  set (fs' := set_members (insert mid m') fs).
  assert (getMemberByPhone fs' ph = Some (mid, m')) as Hget'.
  { apply getMemberByPhone_found.
    - apply lookup_insert_eq.
    - exact Hph.
    - intros mid' m0 Hm0 Hp0.
      destruct (decide (mid' = mid)) as [|Hne]; [done|].
      unfold fs' in Hm0. cbn in Hm0. rewrite lookup_insert_ne in Hm0 by done.
      apply (Hu mid' mid m0 m Hm0 Hm). congruence. }
  assert (forall password,
            SingleAccounts.authenticateMember sha256 ph password fs'
            = if String.eqb (Single.hashPassword sha256 password) h
              then (fs', Ok (SingleAccounts.Authenticated mid m'))
              else (fs', Ok (SingleAccounts.AuthFailed "Incorrect password.")))
    as Hauth.
  { intros password. unfold SingleAccounts.authenticateMember, bind, get.
    rewrite Hget'. cbn [passwordHash m' SingleAccounts.with_passwordHash].
    destruct h as [|c hr]; [done|].
    unfold Single.verifyPassword.
    destruct (String.eqb _ _); [|reflexivity].
    rewrite updateMember_id. unfold fs' at 1 2.
    cbn [members set_members write_denied]. rewrite lookup_insert_eq.
    rewrite (bool_decide_eq_true_2 (is_Some (Some _))) by eauto.
    rewrite bool_decide_eq_false_2 by done. reflexivity. }
  split; [|split].
  - unfold SingleAccounts.updatePassword, attempt.
    rewrite updateMember_cases, Hm, bool_decide_eq_false_2 by done.
    by rewrite <- Hh.
  - by rewrite Hauth, <- Hh, String.eqb_refl.
  - intros password Hne. rewrite Hauth.
    by destruct (String.eqb_spec (Single.hashPassword sha256 password) h).
Qed.

Lemma single_updatePassword_then_authenticate_witness :
  SingleAccounts.authenticateMember stand_in_digest "0711234567" "secret-2"
    (fst (SingleAccounts.updatePassword stand_in_digest "m7" "secret-2"
            fs_carol))
  = (fst (SingleAccounts.updatePassword stand_in_digest "m7" "secret-2"
            fs_carol),
     Ok (SingleAccounts.Authenticated "m7"
           (SingleAccounts.with_passwordHash
              (Some (Single.hashPassword stand_in_digest "secret-2"))
              (default alice (members fs_carol !! "m7"))))).
Proof.
  destruct (single_updatePassword_then_authenticate stand_in_digest fs_carol
              "0711234567" "m7" (default alice (members fs_carol !! "m7"))
              "secret-2") as (Hup & Hok & _).
  - vm_compute. reflexivity.
  - intros id1 id2 m1 m2.
    assert (members fs_carol
            = <["m7" := default alice (members fs_carol !! "m7")]>
                (<["m1" := alice]> ∅)) as -> by (vm_compute; reflexivity).
    intros H1 H2 Hp.
    destruct (decide (id1 = "m7")) as [->|N1], (decide (id2 = "m7")) as [->|N2];
      [done|..].
    + rewrite lookup_insert_eq in H1. rewrite lookup_insert_ne in H2 by done.
      apply lookup_insert_Some in H2 as [[<- <-]|[_ H2]]; [|done].
      injection H1 as <-. vm_compute in Hp. discriminate Hp.
    + rewrite lookup_insert_eq in H2. rewrite lookup_insert_ne in H1 by done.
      apply lookup_insert_Some in H1 as [[<- <-]|[_ H1]]; [|done].
      injection H2 as <-. vm_compute in Hp. discriminate Hp.
    + rewrite lookup_insert_ne in H1, H2 by done.
      apply lookup_insert_Some in H1 as [[<- _]|[_ H1]]; [|done].
      apply lookup_insert_Some in H2 as [[<- _]|[_ H2]]; done.
  - vm_compute. intros H. discriminate H.
  - vm_compute. discriminate.
  - rewrite Hup. exact Hok.
Defined.

Lemma dual_register_cases sha256 docId d st :
  let p := JS.strip_spaces_dashes (Dual.rd_phone d) in
  match getMemberByPhone (Dual.firestore st) p with
  | Some _ =>
      Dual.registerMember sha256 docId d st = (st, Throw PhoneAlreadyRegistered)
  | None =>
      match getMemberByIdNumber (Dual.firestore st) (Dual.rd_idNumber d) with
      | Some _ =>
          Dual.registerMember sha256 docId d st
          = (st, Throw IdNumberAlreadyRegistered)
      | None =>
          exists st' ref m,
            Dual.registerMember sha256 docId d st = (st', Ok (docId, ref))
            /\ m = mkMember (trim (Dual.rd_name d)) p (Dual.rd_idNumber d)
                     (Some (Dual.hashPassword sha256 (Dual.rd_password d)))
                     ref 0 0 0 0 0 0 0 0 None false
            /\ members (Dual.firestore st')
               = <[docId := m]> (members (Dual.firestore st))
            /\ submissions (Dual.firestore st')
               = submissions (Dual.firestore st)
            /\ interestPool (Dual.firestore st')
               = interestPool (Dual.firestore st)
            /\ write_denied (Dual.firestore st')
               = write_denied (Dual.firestore st)
            /\ (exists rm,
                  Dual.rt_members (Dual.realtime st') !! docId = Some rm
                  /\ member_node_mirrors rm m)
            /\ (forall mid, mid <> docId ->
                  Dual.rt_members (Dual.realtime st') !! mid
                  = Dual.rt_members (Dual.realtime st) !! mid)
            /\ Dual.totalMembers (Dual.totals (Dual.realtime st'))
               = Dual.totalMembers (Dual.totals (Dual.realtime st)) + 1
      end
  end.
Proof.
  cbv zeta. unfold Dual.registerMember, bind, get.
  destruct (getMemberByPhone _ _); [reflexivity|].
  destruct (getMemberByIdNumber _ _); [reflexivity|].
  unfold Dual.generateMemberRef, Dual.createAuditLog, bind, get, modify, ret.
  cbn. eexists _, _, _. split; [reflexivity|]. split; [reflexivity|].
  cbn. repeat split; try reflexivity.
  - eexists. split; [apply lookup_insert_eq|]. repeat split.
  - intros mid Hne. by rewrite lookup_insert_ne.
Qed.

(** In the dual-store variant a member who registered can log in: after a
    successful [registerMember] the new document holds the normalised phone
    and zero aggregates, [verifyMemberLogin] with the registration phone and
    password returns that member and returns [null] for a password with a
    different hash.  The member has a node in the Realtime Database that
    repeats the aggregates, and the member count of the totals node is one
    higher. *)
Theorem dual_register_then_login sha256 docId d st st' r :
  Dual.registerMember sha256 docId d st = (st', Ok r) ->
  exists m,
    fst r = docId
    /\ members (Dual.firestore st') !! docId = Some m
    /\ phone m = JS.strip_spaces_dashes (Dual.rd_phone d)
    /\ statsOfMember m = mkStats 0 0 0 0 0 0 false
    /\ snd (Dual.verifyMemberLogin sha256 (Dual.rd_phone d)
              (Dual.rd_password d) st')
       = Ok (Some (docId, m))
    /\ (forall password,
          Dual.hashPassword sha256 password
          <> Dual.hashPassword sha256 (Dual.rd_password d) ->
          snd (Dual.verifyMemberLogin sha256 (Dual.rd_phone d) password st')
          = Ok None)
    /\ (exists rm,
          DualStats.getMemberRealtimeStats docId st' = Some rm
          /\ member_node_mirrors rm m)
    /\ Dual.totalMembers (DualStats.getTotals st')
       = Dual.totalMembers (DualStats.getTotals st) + 1.
Proof.
  intros Hreg.
  pose proof (dual_register_cases sha256 docId d st) as Hc. cbv zeta in Hc.
  destruct (getMemberByPhone (Dual.firestore st) _) eqn:Hph; [congruence|].
  destruct (getMemberByIdNumber (Dual.firestore st) _) eqn:Hid; [congruence|].
  destruct Hc as (st1 & ref & m & Hrun & Hm & Hms & _ & _ & _ & Hrt & _ & Htot).
  rewrite Hrun in Hreg. injection Hreg as <- <-.
  exists m.
  assert (members (Dual.firestore st1) !! docId = Some m) as Hlook
    by (rewrite Hms; apply lookup_insert_eq).
  assert (getMemberByPhone (Dual.firestore st1) (Dual.rd_phone d)
          = Some (docId, m)) as Hget.
  { apply getMemberByPhone_found; [done|by subst m|].
    intros mid' m' Hm' Hp'. destruct (decide (mid' = docId)) as [|Hne]; [done|].
    rewrite Hms, lookup_insert_ne in Hm' by done.
    exfalso. apply (getMemberByPhone_None _ _ mid' m' Hph Hm').
    by rewrite strip_spaces_dashes_idem. }
  split; [reflexivity|]. split; [done|]. split; [by subst m|].
  split; [by subst m|].
  rewrite !verifyMemberLogin_result, Hget.
  split; [|split; [|split]].
  - rewrite bool_decide_eq_true_2; [done|]. by subst m.
  - intros password Hne. rewrite verifyMemberLogin_result, Hget.
    rewrite bool_decide_eq_false_2; [done|]. subst m. cbn. congruence.
  - exact Hrt.
  - exact Htot.
Qed.

Lemma dual_register_then_login_witness :
  exists m,
    members (Dual.firestore dual_carol) !! "m7" = Some m
    /\ snd (Dual.verifyMemberLogin stand_in_digest "0711234567" "secret-1"
              dual_carol)
       = Ok (Some ("m7", m)).
Proof.
  destruct (dual_register_then_login stand_in_digest "m7" carol dual_alice
              dual_carol ("m7", "TRF-M1001"))
    as (m & _ & Hm & _ & _ & Hok & _).
  - vm_compute. reflexivity.
  - exists m. split; [exact Hm|exact Hok].
Defined.

(** Registration in the dual-store variant keeps the phone numbers and the
    identity numbers of the collection pairwise distinct, whatever its
    outcome, and a second registration with the same phone number, however
    it is spaced, is refused and changes nothing. *)
Theorem dual_registration_keeps_members_unique sha256 docId d st :
  let st' := fst (Dual.registerMember sha256 docId d st) in
  (unique_by phone (members (Dual.firestore st)) ->
   unique_by phone (members (Dual.firestore st')))
  /\ (unique_by idNumber (members (Dual.firestore st)) ->
      unique_by idNumber (members (Dual.firestore st')))
  /\ (forall docId2 d2 ref,
        snd (Dual.registerMember sha256 docId d st) = Ok (docId, ref) ->
        JS.strip_spaces_dashes (Dual.rd_phone d2)
        = JS.strip_spaces_dashes (Dual.rd_phone d) ->
        Dual.registerMember sha256 docId2 d2 st'
        = (st', Throw PhoneAlreadyRegistered)).
Proof.
  cbv zeta.
  pose proof (dual_register_cases sha256 docId d st) as Hc. cbv zeta in Hc.
  destruct (getMemberByPhone (Dual.firestore st) _) eqn:Hph.
  { rewrite Hc. cbn [fst snd]. repeat split; try done. }
  destruct (getMemberByIdNumber (Dual.firestore st) _) eqn:Hid.
  { rewrite Hc. cbn [fst snd]. repeat split; try done. }
  destruct Hc as (st1 & ref & m & Hrun & Hm & Hms & _).
  rewrite Hrun. cbn [fst snd]. rewrite Hms.
  split; [|split].
  - intros Hu. apply unique_by_insert; [done|].
    intros id' m' Hm' _ Heq.
    apply (getMemberByPhone_None _ _ id' m' Hph Hm').
    rewrite strip_spaces_dashes_idem. subst m. exact Heq.
  - intros Hu. apply unique_by_insert; [done|].
    intros id' m' Hm' _ Heq.
    apply (getMemberByIdNumber_None _ _ id' m' Hid Hm'). subst m. exact Heq.
  - intros docId2 d2 ref2 _ Hsame.
    pose proof (dual_register_cases sha256 docId2 d2 st1) as Hc2.
    cbv zeta in Hc2.
    destruct (getMemberByPhone (Dual.firestore st1) _) eqn:Hph2; [exact Hc2|].
    exfalso. apply (getMemberByPhone_None _ _ docId m Hph2).
    + rewrite Hms. apply lookup_insert_eq.
    + rewrite strip_spaces_dashes_idem, Hsame. by subst m.
Qed.

(** ** When the dual-store approval and rejection succeed *)



(** ** What a submission does to the two stores *)

Lemma dual_submit_cases cfg docId today d st :
  let linked :=
    truthy_id (fst <$> getMemberByPhone (Dual.firestore st)
                         (JS.strip_spaces_dashes (Dual.sd_phone d))) in
  let n :=
    JS.or_default (Dual.submissionNumber (Dual.counters (Dual.realtime st)))
      10000 + 1 in
  let st0 :=
    Dual.on_realtime
      (Dual.on_counters (fun c => Dual.mkCounters (Dual.memberNumber c) n)) st in
  let doc := Dual.pendingSubmission cfg (issued_reference n) today d linked in
  let st1 := Dual.on_firestore (set_submissions (insert docId doc)) st0 in
  if Dual.amountRejected cfg (Dual.sd_amount d)
  then Dual.submitPOP cfg docId today d st = (st0, Throw MinimumContribution)
  else
    match linked with
    | Some mid =>
        if bool_decide (mid ∈ write_denied (Dual.firestore st))
        then Dual.submitPOP cfg docId today d st = (st1, Throw StoreFailure)
        else
          Dual.submitPOP cfg docId today d st
          = (Dual.on_firestore (add_auditLog "pop_submitted" docId)
               (Dual.on_realtime (Dual.submitRealtime linked)
                  (Dual.on_firestore
                     (set_members (alter Dual.submitMember mid)) st1)),
             Ok (issued_reference n))
    | None =>
        Dual.submitPOP cfg docId today d st
        = (Dual.on_firestore (add_auditLog "pop_submitted" docId)
             (Dual.on_realtime (Dual.submitRealtime None) st1),
           Ok (issued_reference n))
    end.
Proof.
  cbv zeta.
  unfold Dual.submitPOP, Dual.generateSubmissionRef, Dual.createAuditLog,
    bind, get, modify, ret, throw, issued_reference.
  cbn [fst snd].
  destruct (Dual.amountRejected cfg (Dual.sd_amount d)); [reflexivity|].
  destruct (getMemberByPhone (Dual.firestore st)
              (JS.strip_spaces_dashes (Dual.sd_phone d)))
    as [[mid m]|] eqn:Hget; cbn [fmap option_fmap option_map fst].
  - destruct (truthy_id (Some mid)) as [mid'|] eqn:Ht; [|reflexivity].
    apply truthy_id_Some in Ht as [= <-].
    apply getMemberByPhone_Some in Hget as [Hm _].
    unfold attempt, Dual.try_firestore, updateMember, commit.
    cbn [forallb write_ok Dual.firestore Dual.on_firestore Dual.on_realtime
           set_submissions members write_denied].
    rewrite Hm. rewrite (bool_decide_eq_true_2 (is_Some (Some m))) by eauto.
    cbn [andb].
    destruct (bool_decide (mid ∈ write_denied (Dual.firestore st)));
      reflexivity.
  - reflexivity.
Qed.

(** ** Only an approval moves money *)

Lemma same_money_refl fs : same_money fs fs.
Proof. by split. Qed.

Lemma same_money_alter (f : Member -> Member) mid fs fs' :
  (forall m, totalSavings (f m) = totalSavings m
             /\ totalFines (f m) = totalFines m) ->
  members fs' = alter f mid (members fs) ->
  interestPool fs' = interestPool fs ->
  same_money fs fs'.
Proof.
  intros Hf Hm Hp. split; [|exact Hp].
  intros i. rewrite Hm. destruct (decide (mid = i)) as [->|Hne].
  - rewrite lookup_alter_eq. destruct (members fs !! i) as [m|]; [|done].
    cbn. by destruct (Hf m) as [-> ->].
  - by rewrite lookup_alter_ne.
Qed.

Lemma same_money_members fs fs' :
  members fs' = members fs -> interestPool fs' = interestPool fs ->
  same_money fs fs'.
Proof. intros Hm Hp. split; [|exact Hp]. by rewrite Hm. Qed.

Lemma same_cached_money_refl rt : same_cached_money rt rt.
Proof. by repeat split. Qed.

Lemma same_cached_money_member (f : Dual.MemberTotals -> Dual.MemberTotals)
    mid rt rt' :
  (forall m, Dual.rt_totalSavings (f m) = Dual.rt_totalSavings m
             /\ Dual.rt_totalFines (f m) = Dual.rt_totalFines m) ->
  Dual.t_totalSavings (Dual.totals rt') = Dual.t_totalSavings (Dual.totals rt) ->
  Dual.t_totalFines (Dual.totals rt') = Dual.t_totalFines (Dual.totals rt) ->
  Dual.rt_interestPool rt' = Dual.rt_interestPool rt ->
  Dual.rt_members rt'
  = <[mid := f (default Dual.noMemberTotals (Dual.rt_members rt !! mid))]>
      (Dual.rt_members rt) ->
  same_cached_money rt rt'.
Proof.
  intros Hf Hs Hfi Hp Hm. repeat split; try done;
    rewrite Hm; (destruct (decide (mid = mid0)) as [->|Hne];
      [rewrite lookup_insert_eq|by rewrite lookup_insert_ne]);
    cbn; destruct (Hf (default Dual.noMemberTotals
                         (Dual.rt_members rt !! mid0))) as [H1 H2];
    rewrite ?H1, ?H2; by destruct (Dual.rt_members rt !! mid0).
Qed.

(** Only an approval moves money: [submitPOP] and [rejectSubmission], in
    both variants and whatever their outcome, change no member's
    [totalSavings] or [totalFines] and no pool document, and in the
    dual-store variant no amount cached in the Realtime Database. *)
Theorem only_approval_moves_money :
  (forall cfg docId ref d fs,
     same_money fs (fst (Single.submitPOP cfg docId ref d fs)))
  /\ (forall id reason fs,
        same_money fs (fst (Single.rejectSubmission id reason fs)))
  /\ (forall cfg docId today d st,
        let st' := fst (Dual.submitPOP cfg docId today d st) in
        same_money (Dual.firestore st) (Dual.firestore st')
        /\ same_cached_money (Dual.realtime st) (Dual.realtime st'))
  /\ (forall id reason st,
        let st' := fst (Dual.rejectSubmission id reason st) in
        same_money (Dual.firestore st) (Dual.firestore st')
        /\ same_cached_money (Dual.realtime st) (Dual.realtime st')).
Proof.
  split; [|split; [|split]].
  - intros cfg docId ref d fs.
    pose proof (single_submit_cases cfg docId ref d fs) as H. cbv zeta in H.
    destruct (single_linked fs d) as [mid|].
    + destruct (bool_decide (mid ∈ write_denied fs)); rewrite H; cbn [fst].
      * by apply same_money_members.
      * apply (same_money_alter Single.submitMember mid); [by intros; split|reflexivity..].
    + rewrite H. by apply same_money_members.
  - intros id reason fs.
    pose proof (single_reject_cases id reason fs) as H.
    destruct (submissions fs !! id) as [sub|];
      [|rewrite H; apply same_money_refl].
    destruct (commit _ fs) as [fs'|e] eqn:Hc;
      rewrite H; [|apply same_money_refl].
    apply commit_ok in Hc as [-> _]. cbn [fst].
    unfold Single.rejectBatch.
    destruct (truthy_id (memberId sub)) as [mid|].
    + apply (same_money_alter Single.rejectMember mid); [by intros; split|reflexivity..].
    + by apply same_money_members.
  - intros cfg docId today d st.
    pose proof (dual_submit_cases cfg docId today d st) as H. cbv zeta in H.
    cbv zeta.
    destruct (Dual.amountRejected cfg (Dual.sd_amount d)).
    { rewrite H. cbn [fst]. split; [apply same_money_refl|by repeat split]. }
    destruct (truthy_id _) as [mid|].
    + destruct (bool_decide (mid ∈ write_denied (Dual.firestore st)));
        rewrite H; cbn [fst].
      * split; [by apply same_money_members|by repeat split].
      * split; [apply (same_money_alter Dual.submitMember mid); [by intros; split|reflexivity..]|].
        eapply (same_cached_money_member _ mid); [|reflexivity..]; by intros; split.
    + rewrite H. cbn [fst].
      split; [by apply same_money_members|by repeat split].
  - intros id reason st.
    pose proof (dual_reject_cases id reason st) as H. cbv zeta.
    destruct (submissions (Dual.firestore st) !! id) as [sub|];
      [|rewrite H; split; [apply same_money_refl|apply same_cached_money_refl]].
    destruct (bool_decide (status sub = pending));
      [|rewrite H; split; [apply same_money_refl|apply same_cached_money_refl]].
    destruct (commit _ (Dual.firestore st)) as [fs'|e] eqn:Hc; rewrite H;
      [|split; [apply same_money_refl|apply same_cached_money_refl]].
    apply commit_ok in Hc as [-> _]. cbn [fst].
    destruct (rejectBatch_effect id reason sub (Dual.firestore st))
      as (_ & Hm & Hp).
    unfold Dual.rejectRealtime.
    destruct (truthy_id (memberId sub)) as [mid|].
    + split; [apply (same_money_alter Dual.rejectMember mid); [by intros; split|done..]|].
      eapply (same_cached_money_member _ mid); [|reflexivity..]; by intros; split.
    + split; [by apply same_money_members|by repeat split].
Qed.

(** ** The Realtime Database mirrors Firestore *)




















(** ** References of the dual-store variant *)

Lemma issued_reference_inj n1 n2 :
  issued_reference n1 = issued_reference n2 -> n1 = n2.
Proof.
  unfold issued_reference. unfold String.append. intros [= H].
  by apply (inj pretty) in H.
Qed.

Lemma references_issued_status (f : Submission -> Submission) id st fs' rt' :
  (forall s, reference (f s) = reference s) ->
  submissions fs' = alter f id (submissions (Dual.firestore st)) ->
  Dual.counters rt' = Dual.counters (Dual.realtime st) ->
  references_issued st -> references_issued (Dual.mkState fs' rt').
Proof.
  intros Hf Hs Hc [Hb Hu]. unfold references_issued.
  cbn [Dual.firestore Dual.realtime]. rewrite Hs, Hc.
  assert (forall i s, alter f id (submissions (Dual.firestore st)) !! i = Some s ->
          exists s0, submissions (Dual.firestore st) !! i = Some s0
                     /\ reference s = reference s0) as Hback.
  { intros i s. destruct (decide (id = i)) as [<-|Hne].
    - rewrite lookup_alter_eq.
      destruct (submissions (Dual.firestore st) !! id) as [s0|]; [|done].
      intros [= <-]. eauto.
    - rewrite lookup_alter_ne by done. eauto. }
  split.
  - intros i s (s0 & Hs0 & ->)%Hback. eauto.
  - intros i1 i2 s1 s2 (t1 & H1 & ->)%Hback (t2 & H2 & ->)%Hback. eauto.
Qed.

(** The references of the dual-store variant never collide: when every
    submission carries a reference issued at or below the counter and no two
    the same, this stays so through every sequence of submissions, approvals
    and rejections. *)
Theorem dual_references_never_collide cfg st st' :
  references_issued st ->
  rtc (dual_step cfg) st st' ->
  references_issued st'.
Proof.
  intros Hinv Hsteps.
  induction Hsteps as [st|st st1 st2 Hstep _ IH]; [done|].
  destruct Hstep as [op st Hen]. apply IH. clear IH.
  destruct op as [docId today d|year id|id reason]; simpl in *.
  - pose proof (dual_submit_cases cfg docId today d st) as H. cbv zeta in H.
    set (n := JS.or_default _ 10000 + 1) in *.
    assert (forall k, k <= Dual.submissionNumber
                            (Dual.counters (Dual.realtime st)) -> k < n)
      as Hlt.
    { intros k Hk. unfold n, JS.or_default.
      destruct (Z.eqb_spec (Dual.submissionNumber
                              (Dual.counters (Dual.realtime st))) 0); lia. }
    destruct Hinv as [Hb Hu].
    assert (forall doc linked1 rt1 ms1,
              reference doc = issued_reference n ->
              Dual.submissionNumber (Dual.counters rt1) = n ->
              references_issued
                (Dual.mkState
                   (mkFirestore ms1
                      (<[docId := doc]> (submissions (Dual.firestore st)))
                      (interestPool (Dual.firestore st)) linked1
                      (write_denied (Dual.firestore st))) rt1)) as Hnew.
    { intros doc logs rt1 ms1 Hdoc Hcnt. split.
      - intros i s. cbn [Dual.firestore Dual.realtime submissions].
        rewrite Hcnt. destruct (decide (docId = i)) as [<-|Hne].
        + rewrite lookup_insert_eq. intros [= <-]. exists n. split; [done|lia].
        + rewrite lookup_insert_ne by done. intros Hs.
          destruct (Hb i s Hs) as (k & Hk & Hle). exists k.
          split; [done|]. specialize (Hlt k Hle). lia.
      - intros i1 i2 s1 s2. cbn [Dual.firestore submissions].
        destruct (decide (docId = i1)) as [<-|N1],
          (decide (docId = i2)) as [<-|N2]; [done|..].
        + rewrite lookup_insert_eq, lookup_insert_ne by done.
          intros [= <-] H2 Heq. destruct (Hb i2 s2 H2) as (k & Hk & Hle).
          rewrite Hdoc, Hk in Heq. apply issued_reference_inj in Heq.
          specialize (Hlt k Hle). lia.
        + rewrite lookup_insert_eq, lookup_insert_ne by done.
          intros H1 [= <-] Heq. destruct (Hb i1 s1 H1) as (k & Hk & Hle).
          rewrite Hdoc, Hk in Heq. apply issued_reference_inj in Heq.
          specialize (Hlt k Hle). lia.
        + rewrite !lookup_insert_ne by done. apply Hu. }
    destruct (Dual.amountRejected cfg (Dual.sd_amount d)).
    { rewrite H. cbn [fst]. split.
      - intros i s Hs. destruct (Hb i s Hs) as (k & Hk & Hle). exists k.
        split; [done|]. cbn. specialize (Hlt k Hle). lia.
      - exact Hu. }
    destruct (truthy_id _) as [mid|].
    + destruct (bool_decide (mid ∈ write_denied (Dual.firestore st)));
        rewrite H; cbn [fst]; by apply Hnew.
    + rewrite H. cbn [fst]. by apply Hnew.
  - pose proof (dual_approve_cases cfg year id st) as H.
    destruct (submissions (Dual.firestore st) !! id) as [sub|];
      [|by rewrite H].
    destruct (bool_decide (status sub = pending)); [|by rewrite H].
    cbv zeta in H.
    destruct (commit _ (Dual.firestore st)) as [fs'|e] eqn:Hc;
      rewrite H; [|done].
    apply commit_ok in Hc as [-> _]. cbn [fst].
    destruct (approveBatch_effect cfg id sub (dual_member_of st sub)
                (Dual.extractYearFromMonth (paymentMonth sub) year)
                (Dual.firestore st)) as (Hs' & _).
    apply (references_issued_status (with_status verified) id st);
      [done|exact Hs'| |exact Hinv].
    unfold Dual.approveRealtime.
    destruct (truthy_id (memberId sub)), (dual_member_of st sub),
      (JS.or_default (fineAmount sub) 0 >? 0); reflexivity.
  - pose proof (dual_reject_cases id reason st) as H.
    destruct (submissions (Dual.firestore st) !! id) as [sub|];
      [|by rewrite H].
    destruct (bool_decide (status sub = pending)); [|by rewrite H].
    destruct (commit _ (Dual.firestore st)) as [fs'|e] eqn:Hc;
      rewrite H; [|done].
    apply commit_ok in Hc as [-> _]. cbn [fst].
    destruct (rejectBatch_effect id reason sub (Dual.firestore st))
      as (Hs' & _).
    eapply (references_issued_status _ id st); [|exact Hs'| |exact Hinv];
      [done|].
    unfold Dual.rejectRealtime.
    destruct (truthy_id (memberId sub)); reflexivity.
Qed.

Lemma dual_references_never_collide_witness :
  references_issued
    (dual_run Dual.DB_SETTINGS (DSubmit "s2" 2 dual_pop300)
       (dual_run Dual.DB_SETTINGS (DSubmit "s1" 2 dual_pop300)
          dual_alice_cached)).
Proof.
  apply (dual_references_never_collide Dual.DB_SETTINGS dual_alice_cached).
  - split; [intros id s Hs|intros id1 id2 s1 s2 Hs]; by vm_compute in Hs.
  - eapply rtc_l.
    + apply (dual_step_intro Dual.DB_SETTINGS (DSubmit "s1" 2 dual_pop300)).
      reflexivity.
    + eapply rtc_l; [|apply rtc_refl].
      apply (dual_step_intro Dual.DB_SETTINGS (DSubmit "s2" 2 dual_pop300)).
      vm_compute. reflexivity.
Defined.

(** ** Bulk recalculation as a repair *)

Lemma getStokvelTotal_sum fs :
  SingleStats.getStokvelTotal fs
  = sumZ ((fun p => totalSavings (snd p)) <$> map_to_list (members fs)).
Proof.
  unfold SingleStats.getStokvelTotal.
  assert (forall l acc,
            fold_left (fun sum m => sum + JS.or_default (totalSavings m) 0)
              (snd <$> l) acc
            = acc + sumZ ((fun p : string * Member => totalSavings (snd p))
                            <$> l)) as H.
  { induction l as [|x l IH]; intros acc; csimpl; [lia|].
    rewrite IH, or_default_0. lia. }
  rewrite H. lia.
Qed.

(** Whatever the member records held before, a bulk recalculation whose
    writes all succeed leaves every member in agreement with the
    submissions linked to it: totals, the four counts, the count equation
    and the interest flag.  It returns the number of members, touches no
    submission and no pool document, and the stokvel total read afterwards
    is the sum of the members' verified savings. *)
Theorem single_recalculate_all_repairs_ledger cfg fs :
  (forall mid, is_Some (members fs !! mid) -> mid ∉ write_denied fs) ->
  let run := Single.recalculateAllMemberStats cfg fs in
  snd run = Ok (Z.of_nat (size (members fs)))
  /\ submissions (fst run) = submissions fs
  /\ interestPool (fst run) = interestPool fs
  /\ (forall mid, is_Some (members (fst run) !! mid)
                  <-> is_Some (members fs !! mid))
  /\ (forall mid m, members (fst run) !! mid = Some m ->
        member_matches mid m (submissions fs)
        /\ counts_add_up m
        /\ qualifiesForInterest m
           = (totalSavings m
              >=? JS.setting (Single.interestEligibilityMin cfg) 10000))
  /\ SingleStats.getStokvelTotal (fst run)
     = sumZ ((fun p => savingsOfVerified (fst p) (submissions fs))
               <$> map_to_list (members (fst run))).
Proof.
  intros Hok. cbv zeta.
  destruct (recalculateLoop_prefix cfg (fst <$> Single.getMembers fs) []
              fs 0 (getMembers_NoDup fs))
    as (fs' & Hloop & Hs & Hp & _ & _ & Hmem).
  { intros id Hin. apply getMembers_elem in Hin. split; [done|by apply Hok]. }
  assert (Single.recalculateAllMemberStats cfg fs
          = (add_auditLog "stats_recalculated" "" fs',
             Ok (Z.of_nat (size (members fs))))) as ->.
  { unfold Single.recalculateAllMemberStats, bind, get.
    rewrite app_nil_r in Hloop. rewrite Hloop. cbn.
    by rewrite getMembers_length. }
  cbn [fst snd add_auditLog members submissions interestPool].
  assert (forall mid,
            members fs' !! mid
            = with_stats (Single.recalculated cfg
                            (submissionsOf mid (submissions fs)))
              <$> members fs !! mid) as Hmem'.
  { intros mid. rewrite Hmem. case_bool_decide as Hin; [reflexivity|].
    destruct (members fs !! mid) as [m|] eqn:Hm; [|reflexivity].
    exfalso. apply Hin, getMembers_elem. eauto. }
  assert (forall mid m, members fs' !! mid = Some m ->
            member_matches mid m (submissions fs)
            /\ qualifiesForInterest m
               = (totalSavings m
                  >=? JS.setting (Single.interestEligibilityMin cfg) 10000))
    as Hfresh.
  { intros mid m. rewrite Hmem'.
    destruct (members fs !! mid) as [m0|]; [|done]. intros [= <-].
    rewrite recalculated_spec. split; [|reflexivity].
    repeat split. }
  split; [reflexivity|]. split; [exact Hs|]. split; [exact Hp|].
  split; [|split].
  - intros mid. rewrite Hmem'. by rewrite fmap_is_Some.
  - intros mid m Hm. destruct (Hfresh mid m Hm) as [Hmm Hq].
    split; [exact Hmm|]. split; [|exact Hq]. by eapply member_matches_counts.
  - rewrite getStokvelTotal_sum.
    f_equal. apply list_fmap_ext. intros i [mid m] Hi.
    apply list_elem_of_lookup_2, elem_of_map_to_list in Hi. cbn [fst snd].
    by destruct (Hfresh mid m Hi) as [(-> & _) _].
Qed.

Lemma single_recalculate_all_repairs_ledger_witness :
  snd (Single.recalculateAllMemberStats cfg0 (fs_two_members ∅)) = Ok 2
  /\ (exists m,
        members (fst (Single.recalculateAllMemberStats cfg0
                        (fs_two_members ∅))) !! "m2" = Some m
        /\ totalSavings m = 300 /\ verifiedCount m = 1 /\ counts_add_up m)
  /\ SingleStats.getStokvelTotal (fs_two_members ∅) = 0
  /\ SingleStats.getStokvelTotal
       (fst (Single.recalculateAllMemberStats cfg0 (fs_two_members ∅)))
     = 300.
Proof.
  destruct (single_recalculate_all_repairs_ledger cfg0 (fs_two_members ∅))
    as (Hr & _ & _ & _ & _ & _).
  { intros mid _. set_solver. }
  split; [exact Hr|]. vm_compute.
  split; [|split; reflexivity]. eexists. split; [reflexivity|]. done.
Defined.

(** ** The interest pool and its distribution *)

Lemma filter_length_le {A} (p : A -> bool) (l : list A) :
  (length (List.filter p l) <= length l)%nat.
Proof.
  induction l as [|x l IH]; simpl; [lia|]. destruct (p x); simpl; lia.
Qed.

Lemma sumZ_const {A} (c : Z) (l : list A) :
  sumZ ((fun _ => c) <$> l) = c * Z.of_nat (length l).
Proof. induction l as [|x l IH]; csimpl; [lia|]. rewrite IH. lia. Qed.

(** The object [calculateInterestDistribution] returns never hands out more
    than the pool holds: the pool is fines plus bank interest, each
    qualifying member gets the same share, the one [calculateInterestShare]
    computes, and the shares together fall short of the pool by less than
    one Rand per qualifying member.  The members listed are exactly the
    active ones whose savings reach the threshold. *)
Theorem interest_distribution_never_exceeds_pool isActive cfg year fs :
  let d := SingleInterest.calculateInterestDistribution isActive cfg year fs in
  let n := SingleInterest.d_qualifyingMembersCount d in
  let share := SingleInterest.d_perMemberAmount d in
  SingleInterest.d_totalPool d
  = SingleInterest.d_totalFines d + SingleInterest.d_bankInterest d
  /\ share = SAFinance.calculateInterestShare (SingleInterest.d_totalPool d) n
  /\ 0 <= n <= SingleInterest.d_totalMembersCount d
  /\ SingleInterest.d_totalMembersCount d = Z.of_nat (size (members fs))
  /\ sumZ (snd <$> SingleInterest.d_qualifyingMembers d) = share * n
  /\ (0 < n ->
      share * n <= SingleInterest.d_totalPool d < share * n + n)
  /\ (n = 0 -> share = 0)
  /\ (forall mid m amount,
        (mid, m, amount) ∈ SingleInterest.d_qualifyingMembers d
        <-> members fs !! mid = Some m
            /\ isActive mid m = true
            /\ SingleInterest.d_threshold d <= totalSavings m
            /\ amount = share).
Proof.
  cbv zeta. unfold SingleInterest.calculateInterestDistribution.
  cbn [SingleInterest.d_totalPool SingleInterest.d_totalFines
       SingleInterest.d_bankInterest SingleInterest.d_qualifyingMembersCount
       SingleInterest.d_perMemberAmount SingleInterest.d_totalMembersCount
       SingleInterest.d_qualifyingMembers SingleInterest.d_threshold].
  set (q := List.filter _ (Single.getMembers fs)).
  set (pool := _ + _).
  set (n := Z.of_nat (length q)).
  assert (0 <= n) as Hn by lia.
  set (share := if n >? 0 then pool / n else 0).
  split; [reflexivity|]. split.
  { unfold share, SAFinance.calculateInterestShare.
    destruct (Z.gtb_spec n 0), (Z.eqb_spec n 0); try lia; reflexivity. }
  split.
  { split; [exact Hn|]. unfold n, q.
    pose proof (filter_length_le
                  (fun p : string * Member =>
                     isActive (fst p) (snd p)
                     && (JS.or_default (totalSavings (snd p)) 0
                         >=? JS.setting (Single.interestEligibilityMin cfg)
                               10000))
                  (Single.getMembers fs)). lia. }
  split.
  { rewrite (Permutation_length (getMembers_perm fs)).
    by rewrite length_map_to_list. }
  split.
  { rewrite <- list_fmap_compose.
    rewrite (list_fmap_ext (snd ∘ _) (fun _ => share) q) by done.
    apply sumZ_const. }
  split.
  { intros Hpos. unfold share. destruct (Z.gtb_spec n 0); [|lia].
    pose proof (Z.div_mod pool n ltac:(lia)).
    pose proof (Z.mod_pos_bound pool n ltac:(lia)). nia. }
  split.
  { intros H0. unfold share. rewrite H0. reflexivity. }
  intros mid m amount. rewrite list_elem_of_fmap. split.
  - intros [[mid' m'] [[= -> -> ->] Hin]]. unfold q in Hin.
    apply list_elem_of_In, filter_In in Hin as [Hin Hp].
    apply list_elem_of_In in Hin. cbn [fst snd] in Hp.
    rewrite (getMembers_perm fs) in Hin.
    apply elem_of_map_to_list in Hin.
    apply andb_true_iff in Hp as [Ha Ht].
    rewrite or_default_0 in Ht.
    split; [done|]. split; [done|].
    split; [|done]. lia.
  - intros (Hm & Ha & Ht & ->). exists (mid, m). split; [done|].
    unfold q. apply list_elem_of_In, filter_In. split.
    + apply list_elem_of_In. rewrite (getMembers_perm fs).
      by apply elem_of_map_to_list.
    + cbn [fst snd]. rewrite Ha, or_default_0. simpl. lia.
Qed.

Lemma addBankInterest_state year amount fs :
  SingleInterest.addBankInterest year amount fs
  = (add_auditLog "bank_interest_added" ""
       (set_interestPool
          (fun p => <[Some year :=
                        SingleInterest.mergeBankInterest year amount
                          (p !! Some year)]> p) fs),
     Ok tt).
Proof. reflexivity. Qed.

(** Bank interest added for a year reaches the distribution of that year
    and nothing else: the pool of the year grows by the amount, its fines
    stay, every other year's pool, the members and the submissions are left
    alone, and two additions count as their sum.  The share each qualifying
    member is offered is recomputed from the larger pool. *)
Theorem bank_interest_reaches_its_year_only isActive cfg year amount fs :
  let fs' := fst (SingleInterest.addBankInterest year amount fs) in
  let dist y := SingleInterest.calculateInterestDistribution isActive cfg y in
  SingleInterest.d_bankInterest (dist year fs')
  = SingleInterest.d_bankInterest (dist year fs) + amount
  /\ SingleInterest.d_totalFines (dist year fs')
     = SingleInterest.d_totalFines (dist year fs)
  /\ SingleInterest.d_totalPool (dist year fs')
     = SingleInterest.d_totalPool (dist year fs) + amount
  /\ SingleInterest.d_qualifyingMembers (dist year fs')
     = (fun p => (fst p,
                  SAFinance.calculateInterestShare
                    (SingleInterest.d_totalPool (dist year fs) + amount)
                    (SingleInterest.d_qualifyingMembersCount (dist year fs))))
       <$> SingleInterest.d_qualifyingMembers (dist year fs)
  /\ (forall y, y <> year -> dist y fs' = dist y fs)
  /\ members fs' = members fs
  /\ submissions fs' = submissions fs
  /\ (forall b,
        interestPool (fst (SingleInterest.addBankInterest year b fs'))
        = interestPool
            (fst (SingleInterest.addBankInterest year (amount + b) fs))).
Proof.
  cbv zeta. rewrite !addBankInterest_state. cbn [fst].
  set (fs' := add_auditLog _ _ _).
  assert (Single.getMembers fs' = Single.getMembers fs) as Hgm by reflexivity.
  assert (forall y, y <> year ->
            SingleInterest.getInterestPool y fs'
            = SingleInterest.getInterestPool y fs) as Hother.
  { intros y Hy. unfold SingleInterest.getInterestPool, fs'. cbn.
    rewrite lookup_insert_ne by congruence. reflexivity. }
  assert (pool_bankInterest (SingleInterest.getInterestPool year fs')
          = pool_bankInterest (SingleInterest.getInterestPool year fs)
            + amount
          /\ pool_totalFines (SingleInterest.getInterestPool year fs')
             = pool_totalFines (SingleInterest.getInterestPool year fs))
    as [Hb Hf].
  { unfold SingleInterest.getInterestPool, fs'. cbn.
    rewrite lookup_insert_eq.
    destruct (interestPool fs !! Some year) as [p|]; cbn; split; lia. }
  unfold SingleInterest.calculateInterestDistribution.
  cbn [SingleInterest.d_totalPool SingleInterest.d_totalFines
       SingleInterest.d_bankInterest SingleInterest.d_qualifyingMembersCount
       SingleInterest.d_perMemberAmount SingleInterest.d_totalMembersCount
       SingleInterest.d_qualifyingMembers SingleInterest.d_threshold].
  rewrite Hgm, !or_default_0, Hb, Hf.
  split; [reflexivity|]. split; [reflexivity|]. split; [lia|].
  split.
  { rewrite <- list_fmap_compose. apply list_fmap_ext. intros i p _.
    cbn [compose fst snd]. f_equal.
    unfold SAFinance.calculateInterestShare.
    match goal with |- context [Z.of_nat ?l] => set (n := Z.of_nat l) end.
    replace (pool_totalFines (SingleInterest.getInterestPool year fs)
             + (pool_bankInterest (SingleInterest.getInterestPool year fs)
                + amount))
      with (pool_totalFines (SingleInterest.getInterestPool year fs)
            + pool_bankInterest (SingleInterest.getInterestPool year fs)
            + amount) by lia.
    assert (0 <= n) by lia.
    destruct (Z.gtb_spec n 0), (Z.eqb_spec n 0); try lia; reflexivity. }
  split.
  { intros y Hy. by rewrite (Hother y Hy). }
  split; [reflexivity|]. split; [reflexivity|].
  intros b. unfold fs'. cbn. apply map_eq. intros k.
  destruct (decide (k = Some year)) as [->|Hk].
  - rewrite !lookup_insert_eq.
    destruct (interestPool fs !! Some year) as [p|]; cbn; do 2 f_equal; lia.
  - by rewrite !lookup_insert_ne.
Qed.

(** ** The month labels of the submission form *)

Lemma pretty_N_char_digit k :
  (k < 10)%N ->
  JS.is_digit (pretty_N_char k) = true
  /\ JS.digit_val (pretty_N_char k) = Z.of_N k.
Proof.
  intros Hk.
  assert (k = 0 \/ k = 1 \/ k = 2 \/ k = 3 \/ k = 4 \/ k = 5 \/ k = 6
          \/ k = 7 \/ k = 8 \/ k = 9)%N as H by lia.
  repeat (destruct H as [->|H]; [by split|]). subst. by split.
Qed.

(** The decimal numeral of a year of four digits. *)
Lemma pretty_year y :
  1000 <= y <= 9999 ->
  exists a b c d,
    pretty y = String a (String b (String c (String d EmptyString)))
    /\ JS.is_digit a = true /\ JS.is_digit b = true
    /\ JS.is_digit c = true /\ JS.is_digit d = true
    /\ 1000 * JS.digit_val a + 100 * JS.digit_val b
       + 10 * JS.digit_val c + JS.digit_val d = y.
Proof.
  intros Hy. destruct y as [|p|p]; try lia.
  set (x := N.pos p). assert (1000 <= x <= 9999)%N as Hx by lia.
  assert (pretty (Z.pos p) = pretty_N_go x "") as ->.
  { unfold pretty, pretty_Z, pretty, pretty_positive, pretty, pretty_N.
    fold x. destruct (decide (x = 0%N)); [lia|done]. }
  assert (0 < x / 10)%N as H1 by (apply N.div_str_pos; lia).
  assert (0 < x / 10 / 10)%N as H2.
  { apply N.div_str_pos. split; [lia|].
    apply N.div_le_lower_bound; lia. }
  assert (0 < x / 10 / 10 / 10)%N as H3.
  { apply N.div_str_pos. split; [lia|].
    apply N.div_le_lower_bound; [lia|].
    apply N.div_le_lower_bound; lia. }
  assert (x / 10 / 10 / 10 / 10 = 0)%N as H4.
  { rewrite !N.Div0.div_div. apply N.div_small. lia. }
  rewrite (pretty_N_go_step x) by lia.
  rewrite (pretty_N_go_step (x / 10)) by done.
  rewrite (pretty_N_go_step (x / 10 / 10)) by done.
  rewrite (pretty_N_go_step (x / 10 / 10 / 10)) by done.
  rewrite H4, pretty_N_go_0.
  destruct (pretty_N_char_digit ((x / 10 / 10 / 10) mod 10))
    as [Ha Hva]; [by apply N.mod_lt|].
  destruct (pretty_N_char_digit ((x / 10 / 10) mod 10))
    as [Hb Hvb]; [by apply N.mod_lt|].
  destruct (pretty_N_char_digit ((x / 10) mod 10))
    as [Hc Hvc]; [by apply N.mod_lt|].
  destruct (pretty_N_char_digit (x mod 10))
    as [Hd Hvd]; [by apply N.mod_lt|].
  do 4 eexists. split; [reflexivity|]. repeat (split; [done|]).
  rewrite Hva, Hvb, Hvc, Hvd.
  rewrite !N2Z.inj_mod, !N2Z.inj_div.
  change (Z.of_N 10) with 10. change (Z.of_N x) with (Z.pos p).
  assert (Z.pos p / 10 / 10 / 10 / 10 = 0) as HZ.
  { rewrite !Z.div_div by lia. apply Z.div_small. lia. }
  clear -Hy HZ. Z.to_euclidean_division_equations. lia.
Qed.

Lemma getMonthName_plain m :
  0 <= m <= 11 ->
  all_chars is_not_space (Utils.getMonthName (m + 1)) = true
  /\ all_chars is_not_digit (Utils.getMonthName (m + 1)) = true
  /\ Utils.getMonthName (m + 1) <> EmptyString.
Proof.
  intros Hm.
  assert (m = 0 \/ m = 1 \/ m = 2 \/ m = 3 \/ m = 4 \/ m = 5 \/ m = 6
          \/ m = 7 \/ m = 8 \/ m = 9 \/ m = 10 \/ m = 11) as H by lia.
  repeat (destruct H as [->|H]; [by repeat split|]). subst. by repeat split.
Qed.

Lemma monthLabel_form nowYear nowMonth i :
  1000 <= nowYear + (nowMonth + i) / 12 <= 9999 ->
  exists a b c d,
    Utils.monthLabel nowYear nowMonth i
    = form_label (Utils.getMonthName ((nowMonth + i) mod 12 + 1)) a b c d
    /\ JS.is_digit a = true /\ JS.is_digit b = true
    /\ JS.is_digit c = true /\ JS.is_digit d = true
    /\ 1000 * JS.digit_val a + 100 * JS.digit_val b
       + 10 * JS.digit_val c + JS.digit_val d
       = nowYear + (nowMonth + i) / 12.
Proof.
  intros Hy. destruct (pretty_year _ Hy) as (a & b & c & d & Hp & H).
  exists a, b, c, d. split; [|exact H].
  unfold Utils.monthLabel, form_label. cbv zeta. rewrite Hp. reflexivity.
Qed.

(** Every option of the month dropdown is filed under its own calendar
    year: for a label [generateMonthOptions] builds, both variants of
    [approveSubmission] read the year of the month the label names, never
    the year of the approval.  The list has one option per month asked for
    (six more with the past months) and holds the current payment month. *)
Theorem month_options_are_filed_under_their_year
    nowYear nowMonth count includePast :
  0 <= nowMonth <= 11 ->
  1001 <= nowYear ->
  nowYear + (nowMonth + count) / 12 <= 9999 ->
  0 < count ->
  let options := Utils.generateMonthOptions nowYear nowMonth count includePast in
  let first := if includePast then -6 else 0 in
  Z.of_nat (length options) = count - first
  /\ Utils.getCurrentPaymentMonth nowYear nowMonth ∈ options
  /\ forall label, label ∈ options ->
       exists i,
         first <= i < count
         /\ label = Utils.monthLabel nowYear nowMonth i
         /\ forall currentYear,
              Single.paymentYear label currentYear
              = Some (nowYear + (nowMonth + i) / 12)
              /\ Dual.extractYearFromMonth label currentYear
                 = nowYear + (nowMonth + i) / 12.
Proof.
  intros Hm Hlo Hhi Hcount. cbv zeta. unfold Utils.generateMonthOptions.
  set (first := if includePast then -6 else 0).
  assert (-6 <= first <= 0) as Hfirst by (unfold first; destruct includePast; lia).
  split; [|split].
  - rewrite length_fmap, length_seqZ. lia.
  - apply list_elem_of_fmap. exists 0. split.
    + unfold Utils.getCurrentPaymentMonth, Utils.monthLabel. cbv zeta.
      rewrite Z.add_0_r, Z.mod_small, Z.div_small by lia.
      by rewrite Z.add_0_r.
    + apply elem_of_seqZ. lia.
  - intros label [i [-> Hi]]%list_elem_of_fmap.
    apply elem_of_seqZ in Hi. exists i. split; [lia|]. split; [done|].
    intros currentYear.
    assert (1000 <= nowYear + (nowMonth + i) / 12 <= 9999) as Hy.
    { assert (-1 <= (nowMonth + i) / 12)
        by (apply Z.div_le_lower_bound; lia).
      assert ((nowMonth + i) / 12 <= (nowMonth + count) / 12)
        by (apply Z.div_le_mono; lia).
      lia. }
    destruct (monthLabel_form nowYear nowMonth i Hy)
      as (a & b & c & d & -> & Ha & Hb & Hc & Hd & <-).
    destruct (getMonthName_plain ((nowMonth + i) mod 12))
      as (Hsp & Hdg & _).
    { pose proof (Z.mod_pos_bound (nowMonth + i) 12). lia. }
    split.
    + by apply single_paymentYear_form_label.
    + by apply dual_extractYear_form_label.
Qed.

Lemma month_options_witness :
  Z.of_nat (length (Utils.generateMonthOptions 2026 10 12 true)) = 12 - -6
  /\ Utils.getCurrentPaymentMonth 2026 10
     ∈ Utils.generateMonthOptions 2026 10 12 true
  /\ forall label, label ∈ Utils.generateMonthOptions 2026 10 12 true ->
       exists i,
         -6 <= i < 12
         /\ label = Utils.monthLabel 2026 10 i
         /\ forall currentYear,
              Single.paymentYear label currentYear
              = Some (2026 + (10 + i) / 12)
              /\ Dual.extractYearFromMonth label currentYear
                 = 2026 + (10 + i) / 12.
Proof.
  apply (month_options_are_filed_under_their_year 2026 10 12 true);
    [lia|lia|by vm_compute|lia].
Defined.

(** ** A phone number the forms accept, in the SMS modules *)

(** A phone number the forms accept, [0] and a mobile national number once
    everything but digits is removed, is accepted by the SMS module as
    well and sent to [27] and the national number.  The older module agrees
    when the input holds no plus sign outside the first place of what it
    keeps. *)
Theorem form_valid_phone_is_accepted_for_sms ph :
  Utils.isValidPhone ph = true ->
  exists d,
    mobile_number d = true
    /\ JS.digits_only ph = "0" +:+ d
    /\ SMSPortal.formatPhoneNumber ph = Some ("27" +:+ d)
    /\ SMSPortalPhone.isValidSAPhone ph = true
    /\ (digits_and_plus ph = JS.digits_only ph
        \/ digits_and_plus ph = "+" +:+ JS.digits_only ph ->
        SMSLegacy.formatPhoneNumber ph = "+27" +:+ d
        /\ SMSLegacyPhone.isValidSAMobile ph = true).
Proof.
  intros Hv. unfold Utils.isValidPhone in Hv.
  destruct ph as [|a0 r0]; [discriminate|].
  set (ph := String a0 r0) in *. cbv zeta in Hv.
  destruct (Nat.eqb_spec (String.length (JS.digits_only ph)) 10) as [Hlen|];
    [|discriminate]. cbn [negb] in Hv.
  destruct (JS.digits_only ph) as [|z [|c r]] eqn:Hdig; try discriminate.
  destruct (Ascii.eqb_spec z "0") as [->|Hz].
  2:{ exfalso. destruct z as [[] [] [] [] [] [] [] []];
        try discriminate Hv. by apply Hz. }
  apply andb_true_iff in Hv as [[Hc Hl%Nat.eqb_eq]%andb_true_iff Hd].
  destruct (six_to_eight c Hc) as (Hp & H0 & H2 & Hdc).
  exists (String c r).
  assert (SMSPortal.formatPhoneNumber ph = Some ("27" +:+ String c r)) as Hf.
  { rewrite portal_format_digits. cbv zeta. rewrite Hdig.
    unfold SMSPortal.starts_with. cbn [String.length]. rewrite Hl.
    rewrite !prefix_cons, prefix_empty. reflexivity. }
  split; [unfold mobile_number; by rewrite Hc, Hl, Hd|]. split; [reflexivity|].
  split; [exact Hf|]. split.
  { unfold SMSPortalPhone.isValidSAPhone. rewrite Hf. unfold String.append.
    cbn [String.length all_chars]. by rewrite Hl, Hdc, Hd. }
  intros Hplus.
  assert (SMSLegacy.formatPhoneNumber ph = "+27" +:+ String c r) as Hg.
  { rewrite legacy_format_cases. cbv zeta.
    destruct Hplus as [-> | ->]; unfold String.append;
      rewrite ?prefix_cons, ?prefix_empty;
      cbn [andb Ascii.eqb Bool.eqb drop_chars String.length];
      rewrite ?prefix_cons, ?prefix_empty, ?Hl; reflexivity. }
  split; [exact Hg|].
  unfold SMSLegacyPhone.isValidSAMobile. rewrite Hg. unfold String.append.
  by rewrite Hc, Hl, Hd.
Qed.

Lemma form_valid_phone_witness :
  exists d,
    mobile_number d = true
    /\ JS.digits_only "082 123-4567" = "0" +:+ d
    /\ SMSPortal.formatPhoneNumber "082 123-4567" = Some ("27" +:+ d)
    /\ SMSPortalPhone.isValidSAPhone "082 123-4567" = true
    /\ (digits_and_plus "082 123-4567" = JS.digits_only "082 123-4567"
        \/ digits_and_plus "082 123-4567"
           = "+" +:+ JS.digits_only "082 123-4567" ->
        SMSLegacy.formatPhoneNumber "082 123-4567" = "+27" +:+ d
        /\ SMSLegacyPhone.isValidSAMobile "082 123-4567" = true).
Proof.
  apply (form_valid_phone_is_accepted_for_sms "082 123-4567"). reflexivity.
Defined.

